(** * Stock tracking processor (stock-tracking.js): a shallow embedding

    The processor merges a periodic export workbook into the sheet
    "Liste de Stock" of a cumulative tracking workbook as a new dated column
    ([updateTracking]), then rebuilds two report sheets from the column
    history ([updateMonthlyTracking], [updateSemestrialTracking]).

    The source is JavaScript on top of the ExcelJS library. The embedding
    keeps the functions of the source under their own names and models the
    part of ExcelJS they call:

    - a cell value is [null], a string or a number ([JS.value]); numbers are
      integers or [NaN] (stock quantities are row counts; fractions, dates,
      formulas and rich text are outside the model); the conversion of a
      string to a number is a parameter ([JS.Runtime]);
    - a row is the array [_cells] of its cells, a sheet the array [_rows] of
      its rows, a workbook the array [_worksheets] indexed by sheet id; a
      missing cell and a cell holding [null] are the same empty cell, a
      missing row and a row without cells are the same empty row;
    - a procedure returns the object as it leaves it together with its
      result or the exception it threw ([Proc]);
    - reading a row or a cell is pure: ExcelJS materialises an empty object
      on [getRow] and [getCell]; such objects carry neither value nor
      style, and the source reads a length ([cellCount], the last row
      number) only where no such read came before;
    - a style is the fill, font, alignment and border the source sets;
      styles inherited from rows and columns are left out, and so are
      column objects and their widths ([adjustColumnWidths]), console
      output and garbage-collector hints;
    - the cells of a merged range other than its master are represented by
      the range;
    - strings are byte strings; [toLowerCase] acts on ASCII letters;
    - a [Date] built from a year, a month and a day is a local midnight,
      given by its day number; its fields are read in the time zone it was
      built in, which gives the local calendar day back (the time of day
      and the zone are left out);
    - a file is given by what [readFile] yields for it, a workbook or the
      error thrown; a workbook written to a path is the workbook read from
      it afterwards; writing is taken to succeed.

    The HTTP handler of server.js that calls the processor is embedded
    with it, for a multipart request that passed the upload filter: the
    treatment id, the stored files and the parsed parameters. *)

From Stdlib Require Import String Ascii ZArith List Bool Arith Lia DecimalString DecimalZ.
From Equations Require Import Equations.
Import ListNotations.

Set Implicit Arguments.
Open Scope string_scope.
Open Scope list_scope.
Open Scope nat_scope.

(** ** JavaScript values and coercions *)

Module JS.

Inductive number : Type :=
| Int (z : Z)
| NaN.

Inductive value : Type :=
| VNull
| VStr (s : string)
| VNum (n : number).

(** The conversion of a string to a number ([Number(s)], applied by [-]
    and [<=] to string operands) belongs to the JavaScript runtime; the
    development is parametric in it. *)
Class Runtime : Type := { StringToNumber : string -> number }.

Definition number_eqb (a b : number) : bool :=
  match a, b with
  | Int x, Int y => Z.eqb x y
  | _, _ => false
  end.

(** [a === b] *)
Definition strict_eq (a b : value) : bool :=
  match a, b with
  | VNull, VNull => true
  | VStr s, VStr t => String.eqb s t
  | VNum x, VNum y => number_eqb x y
  | _, _ => false
  end.

(** [!v] *)
Definition falsy (v : value) : bool :=
  match v with
  | VNull => true
  | VStr s => String.eqb s ""
  | VNum (Int z) => Z.eqb z 0
  | VNum NaN => true
  end.

(** [a || b] *)
Definition or_else (a b : value) : value := if falsy a then b else a.

Definition number_to_string (n : number) : string :=
  match n with
  | Int z => NilZero.string_of_int (Z.to_int z)
  | NaN => "NaN"
  end.

(** [`${v}`] *)
Definition to_string (v : value) : string :=
  match v with
  | VNull => "null"
  | VStr s => s
  | VNum n => number_to_string n
  end.

Definition ToNumber `{Runtime} (v : value) : number :=
  match v with
  | VNull => Int 0
  | VStr s => StringToNumber s
  | VNum n => n
  end.

(** [a - b] *)
Definition minus `{Runtime} (a b : value) : number :=
  match ToNumber a, ToNumber b with
  | Int x, Int y => Int (x - y)
  | _, _ => NaN
  end.

(** [a <= k] for an integer literal [k] *)
Definition le_int `{Runtime} (a : value) (k : Z) : bool :=
  match ToNumber a with
  | Int x => Z.leb x k
  | NaN => false
  end.

Definition lower_ascii (c : ascii) : ascii :=
  let n := nat_of_ascii c in
  if (65 <=? n)%nat && (n <=? 90)%nat then ascii_of_nat (n + 32) else c.

Fixpoint toLowerCase (s : string) : string :=
  match s with
  | EmptyString => EmptyString
  | String c r => String (lower_ascii c) (toLowerCase r)
  end.

Definition startsWith (s p : string) : bool := String.prefix p s.

(** [\d] *)
Definition is_digit (c : ascii) : bool :=
  let n := nat_of_ascii c in (48 <=? n)%nat && (n <=? 57)%nat.

(** [arr.indexOf(x)], [-1] when absent *)
Fixpoint indexOf_from (i : Z) (x : value) (l : list value) : Z :=
  match l with
  | [] => (-1)%Z
  | y :: r => if strict_eq y x then i else indexOf_from (i + 1) x r
  end.

Definition indexOf (x : value) (l : list value) : Z := indexOf_from 0 x l.

(** [arr.slice(i, j)] for [0 <= i <= j] *)
Definition slice {A} (i j : nat) (l : list A) : list A := firstn (j - i) (skipn i l).

(** Write at index [n] of an array, which grows (with holes [d]) when [n]
    is past its end; [f] receives the old element, or [d] at a hole. *)
Fixpoint update_at {A} (d : A) (f : A -> A) (n : nat) (l : list A) : list A :=
  match n, l with
  | O, [] => [f d]
  | O, x :: t => f x :: t
  | S m, [] => d :: update_at d f m []
  | S m, x :: t => x :: update_at d f m t
  end.

End JS.
Import JS.

(** ** Errors and procedures *)

Inductive error : Type :=
| Error (message : string)   (* throw new Error(message) *)
| TypeError.                 (* a property read on undefined or null *)

Inductive outcome (A : Type) : Type :=
| Return (a : A)
| Throw (e : error).
Arguments Return {A} a.
Arguments Throw {A} e.

(** A procedure on a mutable object of type [St]: it yields the object as
    the procedure leaves it, together with its result or the exception it
    threw. What was written before a [throw] stays written. *)
Definition Proc (St A : Type) : Type := St -> St * outcome A.

Definition ret {St A} (a : A) : Proc St A := fun s => (s, Return a).

Definition throw {St A} (e : error) : Proc St A := fun s => (s, Throw e).

Definition bind {St A B} (m : Proc St A) (k : A -> Proc St B) : Proc St B :=
  fun s =>
    match m s with
    | (s', Return a) => k a s'
    | (s', Throw e) => (s', Throw e)
    end.

Definition gets {St A} (f : St -> A) : Proc St A := fun s => (s, Return (f s)).

Definition modify {St} (f : St -> St) : Proc St unit := fun s => (f s, Return tt).

Notation "x <- m ;; k" := (bind m (fun x => k))
  (at level 61, m at next level, right associativity).
Notation "m ;; k" := (bind m (fun _ => k))
  (at level 61, right associativity).

(** ** The ExcelJS workbook model *)

Record Style : Type := mkStyle {
  fill : option string;                (* argb colour of a solid pattern fill *)
  font : option (string * bool);       (* argb colour, bold *)
  alignment : option string;           (* horizontal alignment *)
  border : option (string * string)    (* line style and argb colour of the four sides *)
}.

Definition noStyle : Style := mkStyle None None None None.

Record Cell : Type := mkCell {
  cell_value : value;
  cell_style : Style
}.

Definition emptyCell : Cell := mkCell VNull noStyle.

Definition Row : Type := list Cell.

(** A merged range, e.g. [A1:F1] is [mkRange 1 1 1 6]. The cells of the
    range other than its top-left master are represented by the range. *)
Record Range : Type := mkRange {
  r_top : nat; r_left : nat; r_bottom : nat; r_right : nat
}.

Record Worksheet : Type := mkSheet {
  ws_name : string;
  ws_orderNo : nat;
  ws_rows : list Row;
  ws_merges : list Range
}.

(** [_worksheets]: slot [i] holds the sheet whose id is [i], or a hole. *)
Definition Workbook : Type := list (option Worksheet).

Definition is_null (v : value) : bool :=
  match v with VNull => true | _ => false end.

Definition cellCount (row : Row) : nat := length row.

Definition hasValues (row : Row) : bool :=
  existsb (fun c => negb (is_null (cell_value c))) row.

(** [row.getCell(col)], columns counted from 1 *)
Definition getCell (row : Row) (col : nat) : Cell := nth (col - 1) row emptyCell.

Definition modifyCell (col : nat) (f : Cell -> Cell) (row : Row) : Row :=
  update_at emptyCell f (col - 1) row.

Definition withValue (v : value) (c : Cell) : Cell := mkCell v (cell_style c).

(** [row.getCell(col).value = v] *)
Definition setCellValue (col : nat) (v : value) (row : Row) : Row :=
  modifyCell col (withValue v) row.

(** [row.eachCell(cb)]: the cells that hold a value, with their column *)
Fixpoint eachCell_from (col : nat) (row : Row) : list (Cell * nat) :=
  match row with
  | [] => []
  | c :: r =>
      if is_null (cell_value c) then eachCell_from (S col) r
      else (c, col) :: eachCell_from (S col) r
  end.

Definition eachCell (row : Row) : list (Cell * nat) := eachCell_from 1 row.

(** [sheet.getRow(n)], rows counted from 1 *)
Definition getRow (sheet : Worksheet) (n : nat) : Row := nth (n - 1) (ws_rows sheet) [].

Definition withRows (rows : list Row) (sheet : Worksheet) : Worksheet :=
  mkSheet (ws_name sheet) (ws_orderNo sheet) rows (ws_merges sheet).

Definition modifyRow (n : nat) (f : Row -> Row) (sheet : Worksheet) : Worksheet :=
  withRows (update_at [] f (n - 1) (ws_rows sheet)) sheet.

(** [sheet.eachRow(cb)]: the callback runs on the rows that hold a value, in
    row order, with the row number; it may change the row it is given and
    the state [St] of the enclosing function. *)
Fixpoint eachRow_from {St} (cb : Row -> nat -> St -> Row * St)
    (n : nat) (rows : list Row) (st : St) : list Row * St :=
  match rows with
  | [] => ([], st)
  | r :: rest =>
      let '(r', st') := if hasValues r then cb r n st else (r, st) in
      let '(rest', st'') := eachRow_from cb (S n) rest st' in
      (r' :: rest', st'')
  end.

Definition eachRow {St} (cb : Row -> nat -> St -> Row * St)
    (sheet : Worksheet) (st : St) : Worksheet * St :=
  let '(rows', st') := eachRow_from cb 1 (ws_rows sheet) st in
  (withRows rows' sheet, st').

Definition lastRowNumber (sheet : Worksheet) : nat := length (ws_rows sheet).

(** [sheet.addRow(values)]: a fresh row after the last one; returns its number *)
Definition addRow (values : list value) (sheet : Worksheet) : Worksheet * nat :=
  let rowNo := lastRowNumber sheet + 1 in
  (modifyRow rowNo (fun _ => map (fun v => mkCell v noStyle) values) sheet, rowNo).

Definition intersects (a b : Range) : bool :=
  negb ((r_bottom a <? r_top b) || (r_bottom b <? r_top a)
        || (r_right a <? r_left b) || (r_right b <? r_left a)).

Definition withMerge (r : Range) (sheet : Worksheet) : Worksheet :=
  mkSheet (ws_name sheet) (ws_orderNo sheet) (ws_rows sheet) (ws_merges sheet ++ [r]).

(** [sheet.mergeCells(range)] *)
Definition mergeCells (r : Range) : Proc Worksheet unit :=
  fun sheet =>
    if existsb (intersects r) (ws_merges sheet)
    then throw (Error "Cannot merge already merged cells") sheet
    else modify (withMerge r) sheet.

(** The defined sheets with their ids, in slot order. *)
Fixpoint slots_from (i : nat) (wb : Workbook) : list (nat * Worksheet) :=
  match wb with
  | [] => []
  | None :: r => slots_from (S i) r
  | Some s :: r => (i, s) :: slots_from (S i) r
  end.

Definition slots (wb : Workbook) : list (nat * Worksheet) := slots_from 0 wb.

(** Stable insertion by [orderNo], as [Array.prototype.sort] with the
    comparator [a.orderNo - b.orderNo]. *)
Fixpoint insert_by_order (x : nat * Worksheet) (l : list (nat * Worksheet))
    : list (nat * Worksheet) :=
  match l with
  | [] => [x]
  | y :: r =>
      if (ws_orderNo (snd x) <=? ws_orderNo (snd y))%nat then x :: y :: r
      else y :: insert_by_order x r
  end.

Definition sort_by_order (l : list (nat * Worksheet)) : list (nat * Worksheet) :=
  fold_right insert_by_order [] l.

(** [workbook.worksheets]: the sheets of the slots [1 ..] in tab order *)
Definition worksheets (wb : Workbook) : list (nat * Worksheet) :=
  sort_by_order (slots_from 1 (tl wb)).

(** [workbook.getWorksheet(name)] *)
Definition getWorksheet (name : string) (wb : Workbook) : option (nat * Worksheet) :=
  find (fun s => String.eqb (ws_name (snd s)) name) (slots wb).

(** [workbook.nextId]: the first hole among the slots [1 ..], else the length *)
Fixpoint first_hole (i : nat) (l : Workbook) : nat :=
  match l with
  | [] => i
  | None :: _ => i
  | Some _ :: r => first_hole (S i) r
  end.

Definition nextId (wb : Workbook) : nat :=
  match wb with
  | [] => 1
  | _ :: r => first_hole 1 r
  end.

Definition lastOrderNo (wb : Workbook) : nat :=
  fold_left (fun acc s => if (acc <? ws_orderNo (snd s))%nat then ws_orderNo (snd s) else acc)
            (slots wb) 0.

Definition nameExists (name : string) (wb : Workbook) : bool :=
  existsb (fun s => String.eqb (toLowerCase (ws_name (snd s))) (toLowerCase name)) (slots wb).

(** [workbook.addWorksheet(name)]: a new empty sheet in the first free slot,
    last in tab order; a name already in use (case-insensitively) is
    refused. The other checks of the name (characters, length) pass for the
    two names the source uses. Returns the id of the new sheet. *)
Definition addWorksheet (name : string) : Proc Workbook nat :=
  fun wb =>
    let id := nextId wb in
    if nameExists name wb
    then throw (Error ("Worksheet name already exists: " ++ name)%string) wb
    else
      let sheet := mkSheet name (lastOrderNo wb + 1) [] [] in
      (update_at None (fun _ => Some sheet) id wb, Return id).

(** [workbook.removeWorksheet(id)]: the slot becomes a hole *)
Definition removeWorksheet (id : nat) : Proc Workbook unit :=
  fun wb =>
    match nth id wb None with
    | Some _ => modify (update_at None (fun _ => None) id) wb
    | None => ret tt wb
    end.

(** A procedure run on the sheet with id [id] through a reference to it. *)
Definition onSheet {A} (id : nat) (p : Proc Worksheet A) : Proc Workbook A :=
  fun wb =>
    match nth id wb None with
    | Some sheet =>
        let '(sheet', o) := p sheet in
        (update_at None (fun _ => Some sheet') id wb, o)
    | None => throw TypeError wb
    end.

(** ** The processor *)

(** *** Dates *)

Definition invalidDateMessage (dateStr : string) : string :=
  ("Format de date invalide: " ++ dateStr ++ ". Utilisez DD/MM/YYYY ou YYYY-MM-DD")%string.

(** [parseDate]: the two fixed-width patterns of the source. The result is
    the triple (year, month, day) of matched groups from which the source
    builds its [Date]; building the [Date] never throws. *)
Definition parseDate (dateStr : string) : outcome (string * string * string) :=
  let str := string_of_list_ascii in
  match list_ascii_of_string dateStr with
  | [c0; c1; c2; c3; c4; c5; c6; c7; c8; c9] =>
      (* /^(\d{4})-(\d{2})-(\d{2})$/ *)
      if forallb is_digit [c0; c1; c2; c3; c5; c6; c8; c9]
         && Ascii.eqb c4 "-" && Ascii.eqb c7 "-"
      then Return (str [c0; c1; c2; c3], str [c5; c6], str [c8; c9])
      (* /^(\d{2})\/(\d{2})\/(\d{4})$/ *)
      else if forallb is_digit [c0; c1; c3; c4; c6; c7; c8; c9]
              && Ascii.eqb c2 "/" && Ascii.eqb c5 "/"
      then Return (str [c6; c7; c8; c9], str [c3; c4], str [c0; c1])
      else Throw (Error (invalidDateMessage dateStr))
  | _ => Throw (Error (invalidDateMessage dateStr))
  end.

(** [isValidDate]: [parseDate] under [try]/[catch]; a label that is not a
    string has no [match] method, which is caught as well. *)
Definition isValidDate (label : value) : bool :=
  match label with
  | VStr s => match parseDate s with Return _ => true | Throw _ => false end
  | _ => false
  end.

(** *** Small helpers of the source *)

Definition getCellValue (row : Row) (colIndex : nat) : value :=
  cell_value (getCell row colIndex).

Definition headerStyle : Style :=
  mkStyle (Some "FF003366") (Some ("FFFFFFFF", true)) (Some "center")
          (Some ("thin", "FFFFFFFF")).

Definition styleHeaderCell (cell : Cell) : Cell :=
  mkCell (cell_value cell) headerStyle.

Definition getHeaders (sheet : Worksheet) : list value :=
  map (fun cn => cell_value (fst cn)) (eachCell (getRow sheet 1)).

Definition findSheetByPrefix (workbook : Workbook) (prefix : string)
    : option (nat * Worksheet) :=
  let lowerPrefix := toLowerCase prefix in
  find (fun s => startsWith (toLowerCase (ws_name (snd s))) lowerPrefix)
       (worksheets workbook).

(** *** Aggregation of the export *)

Record ExportItem : Type := mkItem {
  codeArticle : value;
  emplacement : value;
  description : value;
  descEmplacement : value;
  quantite : Z
}.

(** A JavaScript [Map] with string keys: entries in insertion order. *)
Definition ExportMap : Type := list (string * ExportItem).

Fixpoint map_get (key : string) (m : ExportMap) : option ExportItem :=
  match m with
  | [] => None
  | (k, v) :: r => if String.eqb k key then Some v else map_get key r
  end.

Definition map_has (key : string) (m : ExportMap) : bool :=
  match map_get key m with Some _ => true | None => false end.

(** [m.set(key, v)]: a new key goes last, a known key keeps its place *)
Fixpoint map_set (key : string) (v : ExportItem) (m : ExportMap) : ExportMap :=
  match m with
  | [] => [(key, v)]
  | (k, w) :: r => if String.eqb k key then (k, v) :: r else (k, w) :: map_set key v r
  end.

(** A change made through the reference [m.get(key)]. *)
Fixpoint map_update (key : string) (f : ExportItem -> ExportItem) (m : ExportMap)
    : ExportMap :=
  match m with
  | [] => []
  | (k, w) :: r => if String.eqb k key then (k, f w) :: r else (k, w) :: map_update key f r
  end.

Definition makeKey (a b : value) : string :=
  (to_string a ++ "|" ++ to_string b)%string.

Definition incrQuantite (it : ExportItem) : ExportItem :=
  mkItem (codeArticle it) (emplacement it) (description it) (descEmplacement it)
         (quantite it + 1).

(** The callback of [extractExportData]. *)
Definition extractRow (row : Row) (rowNum : nat) (data : ExportMap) : Row * ExportMap :=
  if rowNum =? 1 then (row, data) else
  let codeArticle := getCellValue row 1 in
  let emplacement := getCellValue row 2 in
  let description := getCellValue row 3 in
  let descEmplacement := getCellValue row 4 in
  if falsy codeArticle || falsy emplacement then (row, data) else
  let key := makeKey codeArticle emplacement in
  let data :=
    if negb (map_has key data)
    then map_set key (mkItem codeArticle emplacement
                             (or_else description (VStr ""))
                             (or_else descEmplacement (VStr "")) 0) data
    else data in
  (row, map_update key incrQuantite data).

Definition extractExportData (exportSheet : Worksheet) : ExportMap :=
  snd (eachRow extractRow exportSheet []).

(** *** Step 1: the merge *)

Definition stockSheetName : string := "Liste de Stock".

Definition missingSheetMessage : string :=
  ("Feuille " ++ String (ascii_of_nat 34) "Liste de Stock"
              ++ String (ascii_of_nat 34) " introuvable")%string.

Definition duplicateMessage (exportDate : string) : string :=
  ("Les données pour la date " ++ exportDate ++ " ont déjà été importées")%string.

(** The scan of the header row for the date: the column of its last
    occurrence, [null] when absent. *)
Definition findDateCol (headerRow : Row) (exportDate : string) : option nat :=
  fold_left (fun dateColIndex cn =>
               if strict_eq (cell_value (fst cn)) (VStr exportDate)
               then Some (snd cn) else dateColIndex)
            (eachCell headerRow) None.

(** The callback of the pass over the existing rows; its state is the set
    [existingKeys]. *)
Definition updateRow (exportData : ExportMap) (newColIndex : nat)
    (row : Row) (rowNum : nat) (existingKeys : list string) : Row * list string :=
  if rowNum =? 1 then (row, existingKeys) else
  let codif := getCellValue row 1 in
  let magasin := getCellValue row 3 in
  let key := makeKey codif magasin in
  let existingKeys := existingKeys ++ [key] in
  match map_get key exportData with
  | Some data => (setCellValue newColIndex (VNum (Int (quantite data))) row, existingKeys)
  | None => (setCellValue newColIndex (VNum (Int 0)) row, existingKeys)
  end.

Definition set_has (key : string) (s : list string) : bool :=
  existsb (String.eqb key) s.

Definition newRowsToAdd (exportData : ExportMap) (existingKeys : list string)
    : list (string * ExportItem) :=
  filter (fun kd => negb (set_has (fst kd) existingKeys)) exportData.

(** The body of [batch.forEach]: one new row. *)
Definition addNewRow (newColIndex : nat) (sheet : Worksheet)
    (item : string * ExportItem) : Worksheet :=
  let data := snd item in
  let '(sheet, rowNo) :=
    addRow [codeArticle data; description data; emplacement data; descEmplacement data]
           sheet in
  modifyRow rowNo (setCellValue newColIndex (VNum (Int (quantite data)))) sheet.

(** The loop [for (i = 0; i < items.length; i += BATCH_SIZE)]. The step is a
    [positive]: with a step of 0 the source would not terminate. *)
Equations? insertBatches (batchSize : positive) (newColIndex : nat)
    (items : list (string * ExportItem)) (i : nat) (sheet : Worksheet)
    : Worksheet by wf (length items - i) lt :=
  insertBatches batchSize newColIndex items i sheet with lt_dec i (length items) := {
    | left _ =>
        let batch := slice i (i + Pos.to_nat batchSize) items in
        insertBatches batchSize newColIndex items (i + Pos.to_nat batchSize)
                      (fold_left (addNewRow newColIndex) batch sheet);
    | right _ => sheet }.
Proof. lia. Qed.

Definition BATCH_SIZE : positive := 1000.

(** The merge on the sheets themselves, from the duplicate check on, with
    the batch size as a parameter. *)
Definition mergeExport (batchSize : positive) (stockSheet exportSheet : Worksheet)
    (exportDate : string) : Worksheet :=
  let headerRow := getRow stockSheet 1 in
  let exportData := extractExportData exportSheet in
  let newColIndex := cellCount headerRow + 1 in
  let stockSheet :=
    modifyRow 1 (modifyCell newColIndex
                   (fun c => styleHeaderCell (withValue (VStr exportDate) c)))
              stockSheet in
  let '(stockSheet, existingKeys) :=
    eachRow (updateRow exportData newColIndex) stockSheet [] in
  insertBatches batchSize newColIndex (newRowsToAdd exportData existingKeys) 0 stockSheet.

Definition updateTrackingWith (batchSize : positive)
    (trackingWb exportWb : Workbook) (exportDate : string) : Workbook * outcome unit :=
  (stock <- gets (getWorksheet stockSheetName) ;;
   let exportSheet := nth_error (worksheets exportWb) 0 in
   match stock with
   | None => throw (Error missingSheetMessage)
   | Some (stockId, stockSheet) =>
       match findDateCol (getRow stockSheet 1) exportDate with
       | Some _ => throw (Error (duplicateMessage exportDate))
       | None =>
           match exportSheet with
           | None => throw TypeError
           | Some (_, exportSheet) =>
               onSheet stockId
                 (modify (fun s => mergeExport batchSize s exportSheet exportDate))
           end
       end
   end) trackingWb.

Definition updateTracking : Workbook -> Workbook -> string -> Workbook * outcome unit :=
  updateTrackingWith BATCH_SIZE.

(** *** Variations and report sheets *)

Record VariationRecord : Type := mkVariation {
  codif : value;
  designation : value;
  magasin : value;
  v_description : value;
  variation : number;
  qtyActuelle : value
}.

Section Reports.
Context `{Runtime}.

(** The callback of [calculateVariations]; its state is [variations]. *)
Definition variationRow (currentColIndex previousColIndex : nat)
    (row : Row) (rowNum : nat) (variations : list VariationRecord)
    : Row * list VariationRecord :=
  if rowNum =? 1 then (row, variations) else
  let currentQty := or_else (getCellValue row currentColIndex) (VNum (Int 0)) in
  let previousQty := or_else (getCellValue row previousColIndex) (VNum (Int 0)) in
  let variation := minus currentQty previousQty in
  if negb (number_eqb variation (Int 0))
  then (row, variations ++ [mkVariation (getCellValue row 1) (getCellValue row 2)
                                        (getCellValue row 3) (getCellValue row 4)
                                        variation currentQty])
  else (row, variations).

Definition calculateVariations (stockSheet : Worksheet)
    (currentColIndex previousColIndex : nat) : list VariationRecord :=
  snd (eachRow (variationRow currentColIndex previousColIndex) stockSheet []).

Definition withAlignment (a : string) (c : Cell) : Cell :=
  mkCell (cell_value c)
         (mkStyle (fill (cell_style c)) (font (cell_style c)) (Some a)
                  (border (cell_style c))).

Definition withFill (argb : string) (c : Cell) : Cell :=
  mkCell (cell_value c)
         (mkStyle (Some argb) (font (cell_style c)) (alignment (cell_style c))
                  (border (cell_style c))).

(** A centred cell on light gray: the title and the message cells. *)
Definition bannerCell (text : string) (c : Cell) : Cell :=
  withFill "FFD3D3D3" (withAlignment "center" (withValue (VStr text) c)).

Definition A1F1 : Range := mkRange 1 1 1 6.
Definition A3F3 : Range := mkRange 3 1 3 6.

(** The body of [variations.forEach((item, i) => ...)]. *)
Definition writeVariationRow (sheet : Worksheet) (item_i : VariationRecord * nat)
    : Worksheet :=
  let '(item, i) := item_i in
  modifyRow (i + 3)
    (fun row =>
       let row := setCellValue 1 (codif item) row in
       let row := setCellValue 2 (designation item) row in
       let row := setCellValue 3 (magasin item) row in
       let row := setCellValue 4 (v_description item) row in
       let row := setCellValue 5 (VNum (variation item)) row in
       let row := setCellValue 6 (qtyActuelle item) row in
       if le_int (qtyActuelle item) 5 then modifyCell 6 (withFill "FFFFCCCC") row
       else if le_int (qtyActuelle item) 10 then modifyCell 6 (withFill "FFFFDAB9") row
       else row)
    sheet.

Definition with_index {A} (l : list A) : list (A * nat) :=
  combine l (seq 0 (length l)).

Definition noVariationMessage : string := "Aucune variation pour cette période".

Definition writeVariationsSheet (variations : list VariationRecord)
    (title : string) (headers : list string) : Proc Worksheet unit :=
  mergeCells A1F1 ;;
  modify (modifyRow 1 (modifyCell 1 (bannerCell title))) ;;
  modify (fun sheet =>
    fold_left (fun sheet header_i =>
                 modifyRow 2 (modifyCell (snd header_i + 1)
                                (fun c => styleHeaderCell
                                            (withValue (VStr (fst header_i)) c)))
                           sheet)
              (with_index headers) sheet) ;;
  if 0 <? length variations
  then modify (fun sheet => fold_left writeVariationRow (with_index variations) sheet)
  else
    mergeCells A3F3 ;;
    modify (modifyRow 3 (modifyCell 1 (bannerCell noVariationMessage))).

Definition addNoDataMessage (message dateContext : string) : Proc Worksheet unit :=
  mergeCells A1F1 ;;
  modify (modifyRow 1 (modifyCell 1 (bannerCell message))).

Definition reportHeaders : list string :=
  ["Codification DSNA"; "Désignation"; "Magasin"; "Description"; "Variation";
   "Quantité actuelle"].

Definition variationTitle (previousDate : value) (exportDate : string) : string :=
  ("Variation entre le " ++ to_string previousDate ++ " et le " ++ exportDate)%string.

(** *** Step 2: the monthly report *)

Definition monthlyMessage : string := "Pas de données disponibles pour le mois".

Definition updateMonthlyTracking (workbook : Workbook) (exportDate : string)
    : Workbook * outcome unit :=
  (stock <- gets (getWorksheet stockSheetName) ;;
   found <- gets (fun workbook => findSheetByPrefix workbook "suivi mensuel") ;;
   monthlySheet <-
     match found with
     | None => addWorksheet "Suivi Mensuel"
     | Some (oldId, _) => removeWorksheet oldId ;; addWorksheet "Suivi Mensuel"
     end ;;
   match stock with
   | None => throw TypeError
   | Some (_, stockSheet) =>
       let headers := getHeaders stockSheet in
       let currentIndex := indexOf (VStr exportDate) headers in
       if (currentIndex <? 1)%Z
       then onSheet monthlySheet (addNoDataMessage monthlyMessage exportDate)
       else
         let previousDate := nth (Z.to_nat (currentIndex - 1)) headers VNull in
         if negb (isValidDate previousDate)
         then onSheet monthlySheet (addNoDataMessage monthlyMessage exportDate)
         else
           let variations :=
             calculateVariations stockSheet (Z.to_nat (currentIndex + 1))
                                 (Z.to_nat currentIndex) in
           onSheet monthlySheet
             (writeVariationsSheet variations
                (variationTitle previousDate exportDate) reportHeaders)
   end) workbook.

(** *** Step 3: the semestrial report *)

Definition semestrialMessage : string := "Pas de données disponibles pour le semestre".

Definition updateSemestrialTracking (workbook : Workbook) (exportDate : string)
    : Workbook * outcome unit :=
  (stock <- gets (getWorksheet stockSheetName) ;;
   found <- gets (fun workbook => findSheetByPrefix workbook "suivi semestriel") ;;
   semestrialSheet <-
     match found with
     | None => addWorksheet "Suivi Semestriel"
     | Some (oldId, _) => removeWorksheet oldId ;; addWorksheet "Suivi Semestriel"
     end ;;
   match stock with
   | None => throw TypeError
   | Some (_, stockSheet) =>
       let headers := getHeaders stockSheet in
       let currentIndex := indexOf (VStr exportDate) headers in
       if (currentIndex <? 6)%Z
       then onSheet semestrialSheet (addNoDataMessage semestrialMessage exportDate)
       else
         let previousDate := nth (Z.to_nat (currentIndex - 6)) headers VNull in
         if negb (isValidDate previousDate)
         then onSheet semestrialSheet (addNoDataMessage semestrialMessage exportDate)
         else
           let variations :=
             calculateVariations stockSheet (Z.to_nat (currentIndex + 1))
                                 (Z.to_nat (currentIndex - 5)) in
           onSheet semestrialSheet
             (writeVariationsSheet variations
                (variationTitle previousDate exportDate) reportHeaders)
   end) workbook.

(** *** The three steps of [processStockTracking] on loaded workbooks *)

Definition processSteps (trackingWb exportWb : Workbook)
    (exportDateFormatted : string) : Workbook * outcome unit :=
  ((fun wb => updateTracking wb exportWb exportDateFormatted) ;;
   (fun wb => updateMonthlyTracking wb exportDateFormatted) ;;
   (fun wb => updateSemestrialTracking wb exportDateFormatted)) trackingWb.

End Reports.

Unset Implicit Arguments.

(** ** Vocabulary of the properties *)

(** *** Aggregation *)

(** The item a row of the export stands for: the descriptive fields it
    would be stored with, and its identity key. A row whose article code or
    location code is falsy ([null], the empty string, the number 0 or
    [NaN]) stands for no item. *)
Definition rowFalsy (row : Row) : bool :=
  falsy (getCellValue row 1) || falsy (getCellValue row 2).

Definition exportKey (row : Row) : string :=
  makeKey (getCellValue row 1) (getCellValue row 2).

(** [carries key row]: the row is counted under [key] by the source. *)
Definition carries (key : string) (row : Row) : bool :=
  negb (rowFalsy row) && String.eqb (exportKey row) key.

(** The entry of a key whose occurrences in row order are [occ]. *)
Definition entryOf (occ : list Row) : option ExportItem :=
  match occ with
  | [] => None
  | first :: _ =>
      Some (mkItem (getCellValue first 1) (getCellValue first 2)
                   (or_else (getCellValue first 3) (VStr ""))
                   (or_else (getCellValue first 4) (VStr ""))
                   (Z.of_nat (length occ)))
  end.

(** The rows below the header row. *)
Definition dataRows (sheet : Worksheet) : list Row := tl (ws_rows sheet).

(** The article code and the location code of a row of the export. *)
Definition codesOf (row : Row) : value * value :=
  (getCellValue row 1, getCellValue row 2).

(** The same with the words of the specification: a code is empty when the
    cell holds nothing or the empty string. *)
Definition isEmpty (v : value) : bool :=
  match v with
  | VNull => true
  | VStr s => String.eqb s ""
  | VNum _ => false
  end.

Definition carries_nonempty (key : string) (row : Row) : bool :=
  negb (isEmpty (getCellValue row 1)) && negb (isEmpty (getCellValue row 2))
  && String.eqb (exportKey row) key.

(** The aggregation law as the specification words it. *)
Definition countsNonEmptyRows (exportSheet : Worksheet) (key : string) : Prop :=
  map_get key (extractExportData exportSheet)
  = entryOf (filter (carries_nonempty key) (dataRows exportSheet)).

(** What one row of the export does to the map. *)
Definition addExportRow (row : Row) (data : ExportMap) : ExportMap :=
  snd (extractRow row 2 data).

Definition bump (n : nat) (it : ExportItem) : ExportItem :=
  mkItem (codeArticle it) (emplacement it) (description it) (descEmplacement it)
         (quantite it + Z.of_nat n).

(** *** The merge in closed form *)

(** The identity key of a row of the tracking table. *)
Definition trackingKey (row : Row) : string :=
  makeKey (getCellValue row 1) (getCellValue row 3).

(** The aggregated quantity of a key, 0 for a key the export does not have. *)
Definition quantityFor (exportData : ExportMap) (key : string) : Z :=
  match map_get key exportData with
  | Some data => quantite data
  | None => 0%Z
  end.

Definition labelCell (exportDate : string) : Cell := mkCell (VStr exportDate) headerStyle.

(** An existing row after the merge. *)
Definition mergedRow (exportData : ExportMap) (newColIndex : nat) (row : Row) : Row :=
  if hasValues row
  then setCellValue newColIndex
         (VNum (Int (quantityFor exportData (trackingKey row)))) row
  else row.

(** The row appended for an entry of the export. *)
Definition newRow (newColIndex : nat) (item : string * ExportItem) : Row :=
  setCellValue newColIndex (VNum (Int (quantite (snd item))))
    [mkCell (codeArticle (snd item)) noStyle; mkCell (description (snd item)) noStyle;
     mkCell (emplacement (snd item)) noStyle; mkCell (descEmplacement (snd item)) noStyle].

Definition existingKeysOf (rows : list Row) : list string :=
  map trackingKey (filter hasValues rows).

(** The tracking sheet after the merge. *)
Definition mergedSheet (stockSheet exportSheet : Worksheet) (exportDate : string)
    : Worksheet :=
  let exportData := extractExportData exportSheet in
  let newColIndex := cellCount (getRow stockSheet 1) + 1 in
  withRows ((getRow stockSheet 1 ++ [labelCell exportDate])
              :: map (mergedRow exportData newColIndex) (dataRows stockSheet)
              ++ map (newRow newColIndex)
                     (newRowsToAdd exportData (existingKeysOf (dataRows stockSheet))))
           stockSheet.

(** The header row holds the label in one of its cells. *)
Definition headerContains (sheet : Worksheet) (label : string) : bool :=
  existsb (fun c => strict_eq (cell_value c) (VStr label)) (getRow sheet 1).

(** *** Variations *)

Section Vocabulary.
Context `{Runtime}.

(** A cell read as a quantity: nothing counts as 0. *)
Definition readQty (row : Row) (col : nat) : value :=
  or_else (getCellValue row col) (VNum (Int 0)).

(** The integer a quantity cell stands for, for cells that are empty or
    hold an integer. *)
Definition quantityOf (v : value) : option Z :=
  match v with
  | VNull => Some 0%Z
  | VNum (Int z) => Some z
  | _ => None
  end.

Definition variationOf (currentColIndex previousColIndex : nat) (row : Row) : number :=
  minus (readQty row currentColIndex) (readQty row previousColIndex).

Definition isNonZero (n : number) : bool := negb (number_eqb n (Int 0)).

Definition recordOf (currentColIndex previousColIndex : nat) (row : Row)
    : VariationRecord :=
  mkVariation (getCellValue row 1) (getCellValue row 2) (getCellValue row 3)
              (getCellValue row 4)
              (variationOf currentColIndex previousColIndex row)
              (readQty row currentColIndex).

(** *** Report steps and report sheets *)


(** The workbook once the first sheet whose name starts with the prefix is
    removed. *)
Definition withoutReport (prefix : string) (workbook : Workbook) : Workbook :=
  match findSheetByPrefix workbook prefix with
  | None => workbook
  | Some (oldId, _) => update_at None (fun _ => None) oldId workbook
  end.

(** The sheet [addWorksheet] creates. *)
Definition freshSheet (name : string) (workbook : Workbook) : Worksheet :=
  mkSheet name (lastOrderNo workbook + 1) [] [].

(** The sheet of a report: the first sheet, in tab order, whose name
    starts with [prefix] is removed, and a sheet called [name] is added.
    Returns the id of the new sheet. *)
Definition recreateSheet (prefix name : string) : Proc Workbook nat :=
  found <- gets (fun workbook => findSheetByPrefix workbook prefix) ;;
  match found with
  | None => addWorksheet name
  | Some (oldId, _) => removeWorksheet oldId ;; addWorksheet name
  end.

(** What a report step writes on its sheet, with the lookback as a
    parameter. *)
Definition reportContent (message : string) (lookback : Z)
    (stockSheet : Worksheet) (exportDate : string) : Proc Worksheet unit :=
  let headers := getHeaders stockSheet in
  let currentIndex := indexOf (VStr exportDate) headers in
  if (currentIndex <? lookback)%Z
  then addNoDataMessage message exportDate
  else
    let previousDate := nth (Z.to_nat (currentIndex - lookback)) headers VNull in
    if negb (isValidDate previousDate)
    then addNoDataMessage message exportDate
    else
      writeVariationsSheet
        (calculateVariations stockSheet (Z.to_nat (currentIndex + 1))
                             (Z.to_nat (currentIndex - lookback + 1)))
        (variationTitle previousDate exportDate) reportHeaders.

Definition reportStep (prefix name message : string) (lookback : Z)
    (workbook : Workbook) (exportDate : string) : Workbook * outcome unit :=
  (stock <- gets (getWorksheet stockSheetName) ;;
   reportSheet <- recreateSheet prefix name ;;
   match stock with
   | None => throw TypeError
   | Some (_, stockSheet) =>
       onSheet reportSheet (reportContent message lookback stockSheet exportDate)
   end) workbook.

Definition matchesPrefix (prefix : string) (sheet : Worksheet) : bool :=
  startsWith (toLowerCase (ws_name sheet)) (toLowerCase prefix).

(** The freshness contract as the specification words it: no sheet that was
    in the workbook under a name starting with the prefix is still there. *)
Definition staleReportsGone (prefix : string) (before after : Workbook) : Prop :=
  forall id sheet,
    nth id before None = Some sheet ->
    matchesPrefix prefix sheet = true ->
    nth id after None <> Some sheet.

(** The current-quantity cell with the fill of its tier. *)
Definition qtyCell (qty : value) : Cell :=
  if le_int qty 5 then mkCell qty (mkStyle (Some "FFFFCCCC") None None None)
  else if le_int qty 10 then mkCell qty (mkStyle (Some "FFFFDAB9") None None None)
  else mkCell qty noStyle.

Definition variationCells (item : VariationRecord) : Row :=
  [mkCell (codif item) noStyle; mkCell (designation item) noStyle;
   mkCell (magasin item) noStyle; mkCell (v_description item) noStyle;
   mkCell (VNum (variation item)) noStyle; qtyCell (qtyActuelle item)].

Definition titleRow (title : string) : Row := [bannerCell title emptyCell].

Definition headerRowOf (headers : list string) : Row :=
  map (fun label => mkCell (VStr label) headerStyle) headers.

(** Rows and merged ranges of a report with the given variations. *)
Definition variationsReport (variations : list VariationRecord) (title : string)
    : list Row * list Range :=
  match variations with
  | [] => ([titleRow title; headerRowOf reportHeaders;
            [bannerCell noVariationMessage emptyCell]],
           [A1F1; A3F3])
  | _ => (titleRow title :: headerRowOf reportHeaders
            :: map variationCells variations,
          [A1F1])
  end.

(** Rows and merged ranges of the report for a tracking sheet and a
    date: the freshly computed report. *)
Definition expectedReport (message : string) (lookback : Z)
    (stockSheet : Worksheet) (exportDate : string) : list Row * list Range :=
  let headers := getHeaders stockSheet in
  let currentIndex := indexOf (VStr exportDate) headers in
  let previousDate := nth (Z.to_nat (currentIndex - lookback)) headers VNull in
  if (currentIndex <? lookback)%Z || negb (isValidDate previousDate)
  then ([[bannerCell message emptyCell]], [A1F1])
  else variationsReport
         (calculateVariations stockSheet (Z.to_nat (currentIndex + 1))
                              (Z.to_nat (currentIndex - lookback + 1)))
         (variationTitle previousDate exportDate).

(** What a report step does when its sheet can be created: it returns
    normally; the first sheet in tab order whose name starts with the
    prefix, if any, is gone; a sheet with the name of the report sits in a
    free slot and holds the freshly computed report; every other slot is
    untouched. *)
Definition recreatesReport
    (step : Workbook -> string -> Workbook * outcome unit)
    (prefix name message : string) (lookback : Z)
    (workbook : Workbook) (stockSheet : Worksheet) (exportDate : string) : Prop :=
  exists (workbook' : Workbook) (newId : nat) (report : Worksheet),
    step workbook exportDate = (workbook', Return tt)
    /\ nth newId workbook' None = Some report
    /\ ws_name report = name
    /\ (ws_rows report, ws_merges report)
       = expectedReport message lookback stockSheet exportDate
    /\ match findSheetByPrefix workbook prefix with
       | None =>
           nth newId workbook None = None
           /\ forall id, id <> newId -> nth id workbook' None = nth id workbook None
       | Some (oldId, old) =>
           (exists before after,
              worksheets workbook = before ++ (oldId, old) :: after
              /\ forallb (fun s => negb (matchesPrefix prefix (snd s))) before = true)
           /\ (newId <> oldId -> nth oldId workbook' None = None)
           /\ forall id, id <> newId -> id <> oldId ->
                nth id workbook' None = nth id workbook None
       end.

End Vocabulary.

(** *** Tab order *)

Definition orderLe (a b : nat * Worksheet) : Prop :=
  ws_orderNo (snd a) <= ws_orderNo (snd b).

Inductive ordered : list (nat * Worksheet) -> Prop :=
| ordered_nil : ordered []
| ordered_cons x l : Forall (orderLe x) l -> ordered l -> ordered (x :: l).

Definition idIsNot (id : nat) (s : nat * Worksheet) : bool := negb (fst s =? id).

(** *** Sample workbooks *)

Definition textCell (s : string) : Cell := mkCell (VStr s) noStyle.
Definition numberCell (z : Z) : Cell := mkCell (VNum (Int z)) noStyle.

Definition metaHeaders : Row :=
  [textCell "Codification DSNA"; textCell "Désignation"; textCell "Magasin";
   textCell "Description"].


(** A tracking workbook without date columns: the item [X1|A] on two rows
    and the item [Z|C]. *)
Definition sampleStock : Worksheet :=
  mkSheet "Liste de Stock" 1
    [metaHeaders;
     [textCell "X1"; textCell "Vis"; textCell "A"; textCell "Atelier"];
     [textCell "Z"; textCell "Clou"; textCell "C"; textCell "Cave"];
     [textCell "X1"; textCell "Vis"; textCell "A"; textCell "Atelier"]]
    [].

Definition sampleTracking : Workbook := [None; Some sampleStock].

(** An export: three rows for [X1|A], a row without location code and a
    row for the unknown item [Y|B]. *)
Definition sampleExportSheet : Worksheet :=
  mkSheet "Export" 1
    [[textCell "Code"; textCell "Emplacement"; textCell "Description"; textCell "Lieu"];
     [textCell "X1"; textCell "A"; textCell "Vis"; textCell "Atelier"];
     [textCell "X1"; textCell "A"; textCell "Vis longue"; textCell "Atelier"];
     [textCell "X2"; emptyCell; textCell "Ecrou"; textCell "Atelier"];
     [textCell "Y"; textCell "B"; emptyCell; textCell "Bureau"];
     [textCell "X1"; textCell "A"; textCell "Vis"; textCell "Atelier"]]
    [].

Definition sampleExport : Workbook := [None; Some sampleExportSheet].

(** The same export with nothing but the codes, and a number where the
    quantity of a row might be looked for. *)
Definition bareExportSheet : Worksheet :=
  mkSheet "Export" 1
    [[textCell "Code"; textCell "Emplacement"];
     [textCell "X1"; textCell "A"; emptyCell; emptyCell; numberCell 40];
     [textCell "X1"; textCell "A"];
     [textCell "X2"];
     [textCell "Y"; textCell "B"; emptyCell; emptyCell; numberCell 7];
     [textCell "X1"; textCell "A"]]
    [].

(** An export whose only data row has the number 0 as article code. *)
Definition zeroCodeExportSheet : Worksheet :=
  mkSheet "Export" 1
    [[textCell "Code"; textCell "Emplacement"; textCell "Description"; textCell "Lieu"];
     [numberCell 0; textCell "A"; textCell "Vis"; textCell "Atelier"]]
    [].

(** The sample tracking workbook once the export of 15/01/2024 is merged. *)
Definition sampleMerged : Workbook :=
  fst (updateTracking sampleTracking sampleExport "15/01/2024").


(** The runtime of the closed examples. None of them holds a string in a
    quantity cell, so none evaluates the conversion. *)
Definition sampleRuntime : Runtime := {| StringToNumber := fun _ => NaN |}.

Definition sevenDates : list string :=
  ["01/01/2024"; "01/02/2024"; "01/03/2024"; "01/04/2024"; "01/05/2024";
   "01/06/2024"; "01/07/2024"].

(** Scenario C: one row with the quantities 10, 10, 10, 10, 10, 10, 3 under
    seven date columns. *)
Definition semesterStock : Worksheet :=
  mkSheet "Liste de Stock" 1
    [metaHeaders ++ map textCell sevenDates;
     [textCell "X1"; textCell "Vis"; textCell "A"; textCell "Atelier"]
       ++ map numberCell [10; 10; 10; 10; 10; 10; 3]%Z]
    [].

Definition semesterTracking : Workbook := [None; Some semesterStock].

(** A workbook with two sheets whose names start with the monthly prefix,
    both holding the cells of an earlier run. *)
Definition oldMonthly : Worksheet :=
  mkSheet "Suivi Mensuel" 2 [[textCell "ancien rapport"]] [A1F1].

Definition copyMonthly : Worksheet :=
  mkSheet "suivi mensuel (copie)" 3 [[textCell "ancienne copie"]] [].

Definition notesSheet : Worksheet := mkSheet "Notes" 4 [[textCell "a faire"]] [].

Definition oldSemestrial : Worksheet :=
  mkSheet "SUIVI SEMESTRIEL 2023" 5 [[textCell "ancien rapport"]] [].

Definition twoReports : Workbook :=
  [None; Some semesterStock; Some oldMonthly; Some copyMonthly; Some notesSheet;
   Some oldSemestrial].

(** A workbook with an archived monthly report ahead, in tab order, of the
    sheet that bears the name of the report in capitals; its tracking
    table is the sample table with its one date column. *)
Definition archivedMonthly : Worksheet :=
  mkSheet "Suivi Mensuel 2023" 2 [[textCell "archive"]] [].

Definition capitalMonthly : Worksheet :=
  mkSheet "SUIVI MENSUEL" 3 [[textCell "ancien rapport"]] [].


(** *** The lookback guard as the specification words it *)



(** ** The date of the export *)

(** *** The JavaScript [Date] of a calendar day

    The source builds its dates with [new Date(year, monthIndex, day)] and
    reads them with [getDate], [getMonth] and [getFullYear], all in local
    time; such a date is a local midnight, given here by its day number
    (days since 1 January 1970). The functions are those of the ECMAScript
    specification, on days instead of milliseconds. *)
Definition DateValue : Type := Z.

Definition DayFromYear (y : Z) : Z :=
  (365 * (y - 1970) + (y - 1969) / 4 - (y - 1901) / 100 + (y - 1601) / 400)%Z.

Definition InLeapYear (y : Z) : bool :=
  ((y mod 4 =? 0) && negb (y mod 100 =? 0) || (y mod 400 =? 0))%Z.

Definition leapDay (y : Z) : Z := if InLeapYear y then 1%Z else 0%Z.

(** The largest [y] with [DayFromYear y <= day]: an estimate from the mean
    length of a year, corrected by at most one year. *)
Definition YearFromDay (day : Z) : Z :=
  let est := (1970 + (400 * day) / 146097)%Z in
  if (day <? DayFromYear est)%Z then (est - 1)%Z
  else if (DayFromYear (est + 1) <=? day)%Z then (est + 1)%Z
  else est.

Definition DayWithinYear (day : Z) : Z := (day - DayFromYear (YearFromDay day))%Z.

Definition MonthFromDay (day : Z) : Z :=
  let d := DayWithinYear day in
  let leap := leapDay (YearFromDay day) in
  (if d <? 31 then 0
   else if d <? 59 + leap then 1
   else if d <? 90 + leap then 2
   else if d <? 120 + leap then 3
   else if d <? 151 + leap then 4
   else if d <? 181 + leap then 5
   else if d <? 212 + leap then 6
   else if d <? 243 + leap then 7
   else if d <? 273 + leap then 8
   else if d <? 304 + leap then 9
   else if d <? 334 + leap then 10
   else 11)%Z.

(** The day number, within its year, of the first day of a month. *)
Definition monthStart (month leap : Z) : Z :=
  (match month with
   | 0 => 0
   | 1 => 31
   | 2 => 59 + leap
   | 3 => 90 + leap
   | 4 => 120 + leap
   | 5 => 151 + leap
   | 6 => 181 + leap
   | 7 => 212 + leap
   | 8 => 243 + leap
   | 9 => 273 + leap
   | 10 => 304 + leap
   | _ => 334 + leap
   end)%Z.

Definition DateFromDay (day : Z) : Z :=
  (DayWithinYear day - monthStart (MonthFromDay day) (leapDay (YearFromDay day)) + 1)%Z.

(** [MakeDay(year, month, date)]: months outside 0..11 carry into the
    year, days outside the month carry into the neighbouring months. *)
Definition MakeDay (year month date : Z) : Z :=
  let ym := (year + month / 12)%Z in
  let mn := (month mod 12)%Z in
  (DayFromYear ym + monthStart mn (leapDay ym) + date - 1)%Z.

(** [new Date(year, monthIndex, day)]: a year from 0 to 99 stands for
    1900 + year. *)
Definition newDate (year monthIndex day : Z) : DateValue :=
  let yr := if ((0 <=? year) && (year <=? 99))%Z then (1900 + year)%Z else year in
  MakeDay yr monthIndex day.

Definition getFullYear (date : DateValue) : Z := YearFromDay date.
Definition getMonth (date : DateValue) : Z := MonthFromDay date.
Definition getDate (date : DateValue) : Z := DateFromDay date.

(** [Number(s)] for a string of decimal digits, as the groups matched by
    [parseDate] are. *)
Definition digitsToNumber (s : string) : Z :=
  match NilZero.uint_of_string s with
  | Some u => Z.of_uint u
  | None => 0%Z
  end.

(** The [Date] that [parseDate] returns for its matched groups:
    [new Date(year, month - 1, day)]. *)
Definition dateOfGroups (groups : string * string * string) : DateValue :=
  let '(year, month, day) := groups in
  newDate (digitsToNumber year) (digitsToNumber month - 1) (digitsToNumber day).

(** [s.padStart(2, '0')] *)
Definition padStart2 (s : string) : string :=
  match String.length s with
  | 0 => "00"
  | 1 => ("0" ++ s)%string
  | _ => s
  end.

Definition formatDate (date : DateValue) (format : string) : string :=
  let day := padStart2 (number_to_string (Int (getDate date))) in
  let month := padStart2 (number_to_string (Int (getMonth date + 1))) in
  let year := number_to_string (Int (getFullYear date)) in
  if String.eqb format "DD/MM/YYYY"
  then (day ++ "/" ++ month ++ "/" ++ year)%string
  else (year ++ "-" ++ month ++ "-" ++ day)%string.

(** The first lines of [processStockTracking]: the label of the new column
    for the date string of the request. A date that is not a string has no
    [match] method. *)
Definition exportDateFormatted (exportDateStr : value) : outcome string :=
  match exportDateStr with
  | VStr s =>
      match parseDate s with
      | Return groups => Return (formatDate (dateOfGroups groups) "DD/MM/YYYY")
      | Throw e => Throw e
      end
  | _ => Throw TypeError
  end.

(** *** Vocabulary of the dates *)

(** The number of days of a month (from 0) of a year. *)
Definition daysInMonth (year month : Z) : Z :=
  (match month with
   | 1 => 28 + leapDay year
   | 3 | 5 | 8 | 10 => 30
   | _ => 31
   end)%Z.

(** One of the ten decimal digits. *)
Definition isDecimalDigit (c : ascii) : bool :=
  existsb (Ascii.eqb c) (list_ascii_of_string "0123456789").

Definition allDigits (s : string) : bool :=
  forallb isDecimalDigit (list_ascii_of_string s).

(** The two spellings [parseDate] accepts, for the groups year, month, day. *)
Definition isoString (year month day : string) : string :=
  (year ++ "-" ++ month ++ "-" ++ day)%string.

Definition frString (year month day : string) : string :=
  (day ++ "/" ++ month ++ "/" ++ year)%string.

(** The three groups of a match: four digits for the year, two for the
    month, two for the day. *)
Definition isGroups (year month day : string) : bool :=
  (String.length year =? 4) && (String.length month =? 2) && (String.length day =? 2)
  && allDigits year && allDigits month && allDigits day.

(** The year a [Date] is built with for the year of the string. *)
Definition centuryShift (year : Z) : Z :=
  if ((0 <=? year) && (year <=? 99))%Z then (1900 + year)%Z else year.

(** *** Vocabulary of the aggregation *)

(** The rows of the export that are counted: those below the header whose
    article code and location code are both truthy. *)
Definition countedRows (exportSheet : Worksheet) : list Row :=
  filter (fun row => negb (rowFalsy row)) (dataRows exportSheet).

Definition totalQuantity (data : ExportMap) : Z :=
  fold_right (fun entry total => (quantite (snd entry) + total)%Z) 0%Z data.


(** *** Sample workbooks of the error cases *)

(** A workbook whose sheet is called as the tracking table but for the
    case of its letters. *)
Definition lowerCaseTracking : Workbook :=
  [None; Some (mkSheet "liste de stock" 1 (ws_rows sampleStock) [])].

(** A workbook without a sheet. *)
Definition emptyWorkbook : Workbook := [].

(** *** Vocabulary of the variations *)

(** [-n] *)
Definition negate (n : number) : number :=
  match n with
  | Int z => Int (- z)
  | NaN => NaN
  end.

(** The identity fields of a record. *)
Definition identityOf (record : VariationRecord) : value * value * value * value :=
  (codif record, designation record, magasin record, v_description record).

(** A tracking sheet with a text where a quantity is expected. *)
Definition textQuantityStock : Worksheet :=
  mkSheet "Liste de Stock" 1
    [metaHeaders ++ [textCell "01/01/2024"; textCell "01/02/2024"];
     [textCell "X1"; textCell "Vis"; textCell "A"; textCell "Atelier";
      numberCell 4; textCell "quatre"]]
    [].

(** *** Sample workbooks of the reports *)

(** The two monthly sheets of the name clash beside the table of scenario
    C. *)
Definition clashingReports : Workbook :=
  [None; Some semesterStock; Some archivedMonthly; Some capitalMonthly].

(** The non-empty cells of a row. *)
Definition nonEmptyCells (row : Row) : list Cell :=
  filter (fun c => negb (is_null (cell_value c))) row.

(** A tracking sheet whose header row has an empty cell between the
    metadata and the dates. *)
Definition gapStock : Worksheet :=
  mkSheet "Liste de Stock" 1
    [metaHeaders ++ [emptyCell; textCell "01/01/2024"; textCell "01/02/2024"];
     [textCell "X1"; textCell "Vis"; textCell "A"; textCell "Atelier";
      emptyCell; numberCell 4; numberCell 9]]
    [].

(** ** Files

    The workbooks live in files. A file that ExcelJS reads is given by the
    workbook that [readFile] yields for it; any other file by the error
    that [readFile] throws on it. Writing a file is taken to succeed. *)

Inductive FileContent : Type :=
| Xlsx (workbook : Workbook)
| Unreadable (e : error).

(** The files by their paths; a path has at most one entry. *)
Definition FileSystem : Type := list (string * FileContent).

Definition pathIsNot (path : string) (entry : string * FileContent) : bool :=
  negb (String.eqb (fst entry) path).

Definition lookupFile (path : string) (fs : FileSystem) : option FileContent :=
  option_map snd (find (fun entry => String.eqb (fst entry) path) fs).

Definition storeFile (path : string) (content : FileContent) (fs : FileSystem)
    : FileSystem :=
  (path, content) :: filter (pathIsNot path) fs.

(** [workbook.xlsx.readFile(path)] *)
Definition readFile (path : string) : Proc FileSystem Workbook :=
  fun fs =>
    match lookupFile path fs with
    | Some (Xlsx workbook) => ret workbook fs
    | Some (Unreadable e) => throw e fs
    | None => throw (Error ("File not found: " ++ path)%string) fs
    end.

(** [workbook.xlsx.writeFile(path)] *)
Definition writeFile (path : string) (workbook : Workbook) : Proc FileSystem unit :=
  modify (storeFile path (Xlsx workbook)).

Section Processor.
Context `{Runtime}.

(** [processStockTracking]: the date first, then the two files, the three
    steps on the workbooks in memory, and one write at the end. The
    [catch] of the source throws again what it caught. *)
Definition processStockTracking (trackingPath exportPath : string)
    (exportDateStr : value) : Proc FileSystem string :=
  fun fs =>
    match exportDateFormatted exportDateStr with
    | Throw e => throw e fs
    | Return exportDateFormatted =>
        (trackingWb <- readFile trackingPath ;;
         exportWb <- readFile exportPath ;;
         match processSteps trackingWb exportWb exportDateFormatted with
         | (_, Throw e) => throw e
         | (trackingWb, Return _) =>
             writeFile trackingPath trackingWb ;;
             ret trackingPath
         end) fs
    end.

End Processor.

(** *** Sample files *)

Definition sampleFiles : FileSystem :=
  [("uploads/suivi", Xlsx sampleTracking); ("uploads/export", Xlsx sampleExport)].

(** ** The HTTP handler (server.js)

    [POST /api/process/:treatmentId]. A request is given by what the
    handler reads of it: the treatment id of the URL, the files as multer
    stored them, and the parameters as [JSON.parse] returns them. *)

Record UploadedFile : Type := mkUpload {
  fieldname : string;
  path : string
}.

(** The value of [JSON.parse(req.body.params || '{}')] as far as the
    handler looks at it: [null], on which reading a property throws, or
    any other value, with its property [export_date] if it has one. *)
Inductive Params : Type :=
| ParamsNull
| ParamsValue (export_date : option value).

Record Request : Type := mkRequest {
  treatmentId : string;
  files : list UploadedFile;
  params : outcome Params     (* [Throw]: the text is not JSON *)
}.

(** The [detail] of an error answer: [error.message], which for a
    [TypeError] is a text of the JavaScript engine. *)
Inductive Detail : Type :=
| Message (text : string)
| EngineMessage.

Inductive Response : Type :=
| BadRequest (detail : string)                              (* status 400 *)
| ServerError (detail : Detail)                             (* status 500 *)
| Download (content : option FileContent) (filename : string).

(** The variables of the handler that outlive its [try] block. *)
Record HandlerState : Type := mkHandlerState {
  disk : FileSystem;
  outputPath : option string
}.

Fixpoint dropChars (n : nat) (s : string) : string :=
  match n, s with
  | S m, String _ r => dropChars m r
  | _, _ => s
  end.

(** [s.replace(pattern, replacement)] with a string pattern: the first
    occurrence only. *)
Fixpoint replaceFirst (pattern replacement s : string) : string :=
  if String.prefix pattern s
  then (replacement ++ dropChars (String.length pattern) s)%string
  else
    match s with
    | EmptyString => EmptyString
    | String c r => String c (replaceFirst pattern replacement r)
    end.

(** [s.replace(/\//g, '-')] *)
Fixpoint replaceSlashes (s : string) : string :=
  match s with
  | EmptyString => EmptyString
  | String c r => String (if Ascii.eqb c "/" then "-"%char else c) (replaceSlashes r)
  end.

(** A JavaScript object with string keys. *)
Fixpoint objSet (key val : string) (o : list (string * string)) : list (string * string) :=
  match o with
  | [] => [(key, val)]
  | (k, v) :: r => if String.eqb k key then (k, val) :: r else (k, v) :: objSet key val r
  end.

Definition objGet (key : string) (o : list (string * string)) : option string :=
  option_map snd (find (fun entry => String.eqb (fst entry) key) o).

(** [fileMap]: the path of each uploaded file under its id, the field name
    without its first ["file_"]. *)
Definition fileMapOf (files : list UploadedFile) : list (string * string) :=
  fold_left (fun fileMap file =>
               objSet (replaceFirst "file_" "" (fieldname file)) (path file) fileMap)
            files [].

(** [fs.unlink(filePath)] under the [catch] of [cleanupFiles]: a missing
    file is no error, and any other error is logged only. *)
Definition unlink (filePath : string) (fs : FileSystem) : FileSystem :=
  filter (pathIsNot filePath) fs.

Definition cleanupFiles (filePaths : list string) (fs : FileSystem) : FileSystem :=
  fold_left (fun fs filePath => unlink filePath fs) filePaths fs.

Definition unknownTreatmentDetail : string :=
  ("Ce traitement est en cours de développement. Seul "
   ++ String (ascii_of_nat 34) "Suivi des Stocks"
   ++ String (ascii_of_nat 34) " est disponible pour le moment.")%string.

Definition missingFileMessage (fileId : string) : string :=
  ("Fichier manquant: " ++ fileId)%string.

Definition missingParamMessage : string := "Paramètre manquant: export_date".

(** The check of one required file: [!fileMap[fileId]]. *)
Definition requireFile (fileMap : list (string * string)) (fileId : string)
    : Proc HandlerState string :=
  match objGet fileId fileMap with
  | Some filePath =>
      if String.eqb filePath "" then throw (Error (missingFileMessage fileId))
      else ret filePath
  | None => throw (Error (missingFileMessage fileId))
  end.

(** A procedure on the files, run by the handler. *)
Definition onDisk {A} (p : Proc FileSystem A) : Proc HandlerState A :=
  fun st =>
    let '(fs, o) := p (disk st) in
    (mkHandlerState fs (outputPath st), o).

(** [error.message || 'Erreur lors du traitement'] *)
Definition detailOf (e : error) : Detail :=
  match e with
  | Error message =>
      Message (if String.eqb message "" then "Erreur lors du traitement" else message)
  | TypeError => EngineMessage
  end.

Section Handler.
Context `{Runtime}.

(** The [try] block of the handler. The file is sent before the callback
    of [res.download] removes the files. *)
Definition tryBlock (req : Request) : Proc HandlerState Response :=
  params <- (fun st => (st, params req)) ;;
  if negb (String.eqb (treatmentId req) "stock-tracking")
  then ret (BadRequest unknownTreatmentDetail)
  else
    let fileMap := fileMapOf (files req) in
    tracking <- requireFile fileMap "tracking" ;;
    export <- requireFile fileMap "export" ;;
    export_date <-
      match params with
      | ParamsNull => throw TypeError
      | ParamsValue export_date => ret export_date
      end ;;
    match export_date with
    | None => throw (Error missingParamMessage)
    | Some export_date =>
        if falsy export_date then throw (Error missingParamMessage)
        else
          result <- onDisk (processStockTracking tracking export export_date) ;;
          modify (fun st => mkHandlerState (disk st) (Some result)) ;;
          match export_date with
          | VStr date =>
              let resultFilename :=
                ("resultat_stock_tracking_" ++ replaceSlashes date ++ ".xlsx")%string in
              content <- gets (fun st => lookupFile result (disk st)) ;;
              modify (fun st =>
                        mkHandlerState
                          (cleanupFiles (map path (files req) ++ [result]) (disk st))
                          (outputPath st)) ;;
              ret (Download content resultFilename)
          | _ => throw TypeError
          end
    end.

(** The handler: the [try] block, and the [catch] that removes the
    uploaded files and answers with the message of the error. *)
Definition processRequest (req : Request) (fs : FileSystem) : FileSystem * Response :=
  match tryBlock req (mkHandlerState fs None) with
  | (st, Return response) => (disk st, response)
  | (st, Throw e) =>
      let fs := cleanupFiles (map path (files req)) (disk st) in
      let fs := match outputPath st with
                | Some result => unlink result fs
                | None => fs
                end in
      (fs, ServerError (detailOf e))
  end.

End Handler.

(** *** Sample requests *)

Definition sampleUploads : list UploadedFile :=
  [mkUpload "file_tracking" "uploads/suivi"; mkUpload "file_export" "uploads/export"].

Definition sampleRequest (date : string) : Request :=
  mkRequest "stock-tracking" sampleUploads (Return (ParamsValue (Some (VStr date)))).

Definition hasSlash (s : string) : bool :=
  existsb (Ascii.eqb "/") (list_ascii_of_string s).

(** ** Arrays *)

Section Arrays.
Context {A : Type} (d : A).

Lemma update_at_length (f : A -> A) n l :
  length (update_at d f n l) = Nat.max (S n) (length l).
Proof.
  revert l; induction n as [|n IH]; intros [|x t]; simpl; auto;
    rewrite IH; simpl; lia.
Qed.

Lemma nth_update_at_eq (f : A -> A) n l :
  nth n (update_at d f n l) d = f (nth n l d).
Proof.
  revert l; induction n as [|n IH]; intros [|x t]; simpl; auto.
  rewrite IH. destruct n; reflexivity.
Qed.

Lemma nth_update_at_neq (f : A -> A) n m l :
  n <> m -> nth m (update_at d f n l) d = nth m l d.
Proof.
  revert m l; induction n as [|n IH]; intros [|m] [|x t] Hnm; simpl; auto;
    try congruence.
  - destruct m; reflexivity.
  - rewrite IH by congruence. destruct m; reflexivity.
Qed.

Lemma update_at_end (f : A -> A) l :
  update_at d f (length l) l = l ++ [f d].
Proof. induction l as [|x t IH]; simpl; [reflexivity | now rewrite IH]. Qed.

Lemma update_at_app_l (f : A -> A) n l l' :
  n < length l -> update_at d f n (l ++ l') = update_at d f n l ++ l'.
Proof.
  revert l; induction n as [|n IH]; intros [|x t] Hn; simpl in *; try lia; auto.
  rewrite IH by lia. reflexivity.
Qed.

Lemma update_at_app_r (f : A -> A) n l l' :
  update_at d f (length l + n) (l ++ l') = l ++ update_at d f n l'.
Proof. induction l as [|x t IH]; simpl; [reflexivity | now rewrite IH]. Qed.

End Arrays.

(** ** Traversals *)

(** A callback that leaves the rows alone only threads its state. *)
Lemma eachRow_from_readonly {St} (cb : Row -> nat -> St -> Row * St) :
  (forall r n st, fst (cb r n st) = r) ->
  forall rows n st, fst (eachRow_from cb n rows st) = rows.
Proof.
  intros Hro rows; induction rows as [|r rest IH]; intros n st; simpl; auto.
  destruct (hasValues r).
  - specialize (Hro r n st). destruct (cb r n st) as [r' st']. simpl in Hro. subst r'.
    specialize (IH (S n) st'). destruct (eachRow_from cb (S n) rest st'). simpl in *.
    now subst.
  - specialize (IH (S n) st). destruct (eachRow_from cb (S n) rest st). simpl in *.
    now subst.
Qed.

(** Below the header, a callback that skips row 1 is a fold over the rows
    that hold a value. *)
Lemma eachRow_from_state {St} (cb : Row -> nat -> St -> Row * St)
    (step : Row -> St -> St) :
  (forall r n st, n <> 1 -> snd (cb r n st) = step r st) ->
  forall rows n st, 2 <= n ->
    snd (eachRow_from cb n rows st)
    = fold_left (fun st r => if hasValues r then step r st else st) rows st.
Proof.
  intros Hstep rows; induction rows as [|r rest IH]; intros n st Hn; simpl; auto.
  destruct (hasValues r).
  - specialize (Hstep r n st ltac:(lia)). destruct (cb r n st) as [r' st']. simpl in Hstep.
    subst st'. specialize (IH (S n) (step r st) ltac:(lia)).
    destruct (eachRow_from cb (S n) rest (step r st)). simpl in *. assumption.
  - specialize (IH (S n) st ltac:(lia)).
    destruct (eachRow_from cb (S n) rest st). simpl in *. assumption.
Qed.

Lemma eachRow_from_rows {St} (cb : Row -> nat -> St -> Row * St)
    (upd : Row -> Row) :
  (forall r n st, n <> 1 -> fst (cb r n st) = upd r) ->
  forall rows n st, 2 <= n ->
    fst (eachRow_from cb n rows st)
    = map (fun r => if hasValues r then upd r else r) rows.
Proof.
  intros Hupd rows; induction rows as [|r rest IH]; intros n st Hn; simpl; auto.
  destruct (hasValues r).
  - specialize (Hupd r n st ltac:(lia)). destruct (cb r n st) as [r' st']. simpl in Hupd.
    subst r'. specialize (IH (S n) st' ltac:(lia)).
    destruct (eachRow_from cb (S n) rest st'). simpl in *. now subst.
  - specialize (IH (S n) st ltac:(lia)).
    destruct (eachRow_from cb (S n) rest st). simpl in *. now subst.
Qed.

(** The header row, whether it holds a value or not, is skipped by a
    callback that returns at row 1. *)
Lemma eachRow_from_header {St} (cb : Row -> nat -> St -> Row * St) h rest st :
  (forall r st, cb r 1 st = (r, st)) ->
  eachRow_from cb 1 (h :: rest) st
  = (h :: fst (eachRow_from cb 2 rest st), snd (eachRow_from cb 2 rest st)).
Proof.
  intros H1. simpl. rewrite H1.
  replace (if hasValues h then (h, st) else (h, st)) with (h, st)
    by (destruct (hasValues h); reflexivity).
  destruct (eachRow_from cb 2 rest st). reflexivity.
Qed.

(** ** The export map *)

Lemma map_get_set_eq key v m : map_get key (map_set key v m) = Some v \/ map_has key m = true.
Proof.
  unfold map_has. induction m as [|[k w] r IH]; simpl.
  - rewrite String.eqb_refl. now left.
  - destruct (String.eqb k key) eqn:E; simpl.
    + now right.
    + rewrite E. exact IH.
Qed.

Lemma map_get_set_new key v m :
  map_get key m = None -> map_get key (map_set key v m) = Some v.
Proof.
  intros Hn. destruct (map_get_set_eq key v m) as [H|H]; auto.
  unfold map_has in H. now rewrite Hn in H.
Qed.

Lemma map_get_set_other key k v m :
  k <> key -> map_get key (map_set k v m) = map_get key m.
Proof.
  intros Hk. induction m as [|[k' w] r IH]; simpl.
  - destruct (String.eqb_spec k key); congruence.
  - destruct (String.eqb_spec k' k); simpl.
    + subst k'. destruct (String.eqb_spec k key); congruence.
    + destruct (String.eqb_spec k' key); auto.
Qed.

Lemma map_get_update_eq key f m :
  map_get key (map_update key f m) = option_map f (map_get key m).
Proof.
  induction m as [|[k w] r IH]; simpl; auto.
  destruct (String.eqb k key) eqn:E; simpl; rewrite E; auto.
Qed.

Lemma map_get_update_other key k f m :
  k <> key -> map_get key (map_update k f m) = map_get key m.
Proof.
  intros Hk. induction m as [|[k' w] r IH]; simpl; auto.
  destruct (String.eqb_spec k' k); simpl.
  - subst k'. destruct (String.eqb_spec k key); congruence.
  - destruct (String.eqb_spec k' key); auto.
Qed.

Lemma map_keys_update k f m : map fst (map_update k f m) = map fst m.
Proof.
  induction m as [|[k' w] r IH]; simpl; auto.
  destruct (String.eqb k' k); simpl; congruence.
Qed.

Lemma map_get_None_keys key m : map_get key m = None <-> ~ In key (map fst m).
Proof.
  induction m as [|[k w] r IH]; simpl.
  - tauto.
  - destruct (String.eqb_spec k key).
    + split; [discriminate | intros Hn; exfalso; apply Hn; now left].
    + rewrite IH. tauto.
Qed.

Lemma map_keys_set_new key v m :
  map_get key m = None -> map fst (map_set key v m) = map fst m ++ [key].
Proof.
  induction m as [|[k w] r IH]; simpl; auto.
  destruct (String.eqb k key); [discriminate|].
  intros Hn. simpl. now rewrite IH.
Qed.

Lemma extractRow_state row n data :
  n <> 1 -> snd (extractRow row n data) = addExportRow row data.
Proof.
  intros Hn. unfold addExportRow, extractRow.
  destruct (Nat.eqb_spec n 1); [contradiction | reflexivity].
Qed.

Lemma extractRow_header row data : extractRow row 1 data = (row, data).
Proof. reflexivity. Qed.

Lemma addExportRow_falsy row data : rowFalsy row = true -> addExportRow row data = data.
Proof.
  unfold addExportRow, extractRow, rowFalsy. simpl. intros ->. reflexivity.
Qed.

Lemma hasValues_false_cell row col : hasValues row = false -> getCellValue row col = VNull.
Proof.
  unfold hasValues, getCellValue, getCell. generalize (col - 1) as n.
  induction row as [|c r IH]; intros [|n] Hv; simpl in *; auto;
    apply orb_false_elim in Hv as [Hc Hr]; auto.
  destruct (cell_value c); simpl in Hc; congruence.
Qed.

Lemma hasValues_false_falsy row : hasValues row = false -> rowFalsy row = true.
Proof.
  intros Hv. unfold rowFalsy. now rewrite (hasValues_false_cell row 1 Hv).
Qed.

(** The pass over the export is a fold of [addExportRow] over the rows
    below the header. *)
Lemma extractExportData_fold sheet :
  extractExportData sheet = fold_left (fun data r => addExportRow r data) (dataRows sheet) [].
Proof.
  unfold extractExportData, eachRow, dataRows.
  destruct (ws_rows sheet) as [|h rest].
  - reflexivity.
  - destruct (eachRow_from extractRow 1 (h :: rest) []) as [rows' st'] eqn:E.
    rewrite eachRow_from_header in E by apply extractRow_header.
    injection E as _ <-. simpl.
    rewrite (eachRow_from_state extractRow addExportRow) by (auto using extractRow_state).
    generalize (@nil (string * ExportItem)).
    induction rest as [|r rest IH]; intros data; simpl; auto.
    destruct (hasValues r) eqn:Hv; auto.
    rewrite addExportRow_falsy by now apply hasValues_false_falsy. apply IH.
Qed.

Lemma bump_0 it : bump 0 it = it.
Proof. destruct it; unfold bump; simpl. f_equal. lia. Qed.

Lemma bump_incr n it : bump n (incrQuantite it) = bump (S n) it.
Proof. destruct it; unfold bump, incrQuantite; simpl. f_equal. lia. Qed.

Lemma addExportRow_other key row data :
  carries key row = false -> map_get key (addExportRow row data) = map_get key data.
Proof.
  unfold carries. intros Hc. destruct (rowFalsy row) eqn:Hf.
  - now rewrite addExportRow_falsy.
  - simpl in Hc. apply String.eqb_neq in Hc.
    unfold addExportRow, extractRow. simpl. unfold rowFalsy in Hf. rewrite Hf.
    fold (exportKey row). simpl.
    rewrite map_get_update_other by assumption.
    destruct (map_has (exportKey row) data); simpl; auto.
    now rewrite map_get_set_other.
Qed.

Lemma addExportRow_same key row data :
  carries key row = true ->
  map_get key (addExportRow row data)
  = match map_get key data with
    | Some it => Some (incrQuantite it)
    | None => entryOf [row]
    end.
Proof.
  unfold carries. intros Hc. apply andb_prop in Hc as [Hf Hk].
  apply negb_true_iff in Hf. apply String.eqb_eq in Hk.
  unfold addExportRow, extractRow. simpl. unfold rowFalsy in Hf. rewrite Hf.
  fold (exportKey row). rewrite Hk. simpl.
  rewrite map_get_update_eq. unfold map_has.
  destruct (map_get key data) eqn:Hg; simpl.
  - rewrite Hg. reflexivity.
  - rewrite map_get_set_new by assumption. unfold exportKey, makeKey in Hk. reflexivity.
Qed.

Lemma fold_addExportRow_get key rows : forall data,
  map_get key (fold_left (fun data r => addExportRow r data) rows data)
  = match map_get key data with
    | Some it => Some (bump (length (filter (carries key) rows)) it)
    | None => entryOf (filter (carries key) rows)
    end.
Proof.
  induction rows as [|r rows IH]; intros data; simpl.
  - destruct (map_get key data); [now rewrite bump_0 | reflexivity].
  - rewrite IH. destruct (carries key r) eqn:Hc.
    + rewrite addExportRow_same by assumption.
      destruct (map_get key data); simpl.
      * now rewrite bump_incr.
      * unfold entryOf, bump.
        cbn [codeArticle emplacement description descEmplacement quantite length].
        do 2 f_equal. lia.
    + now rewrite addExportRow_other.
Qed.

Lemma addExportRow_keys_NoDup row data :
  NoDup (map fst data) -> NoDup (map fst (addExportRow row data)).
Proof.
  intros Hnd. unfold addExportRow, extractRow. simpl.
  destruct (falsy (getCellValue row 1) || falsy (getCellValue row 2)); simpl; auto.
  rewrite map_keys_update. unfold map_has.
  destruct (map_get _ data) eqn:Hg; simpl; auto.
  rewrite map_keys_set_new by assumption.
  apply NoDup_app; [assumption | constructor; [tauto | constructor] |].
  intros k Hin [<-|[]]. now apply map_get_None_keys in Hg.
Qed.

Lemma extractExportData_NoDup sheet : NoDup (map fst (extractExportData sheet)).
Proof.
  rewrite extractExportData_fold.
  assert (Hg : forall rows data, NoDup (map fst data) ->
             NoDup (map fst (fold_left (fun data r => addExportRow r data) rows data))).
  { induction rows as [|r rows IH]; intros data Hnd; simpl; auto.
    apply IH. now apply addExportRow_keys_NoDup. }
  apply Hg. constructor.
Qed.

(** ** The merge in closed form *)

Lemma updateRow_header data c r st : updateRow data c r 1 st = (r, st).
Proof. reflexivity. Qed.

Lemma updateRow_row data c r n st :
  n <> 1 ->
  fst (updateRow data c r n st)
  = setCellValue c (VNum (Int (quantityFor data (trackingKey r)))) r.
Proof.
  intros Hn. unfold updateRow, quantityFor. destruct (Nat.eqb_spec n 1); [contradiction|].
  fold (trackingKey r). destruct (map_get (trackingKey r) data); reflexivity.
Qed.

Lemma updateRow_keys data c r n st :
  n <> 1 -> snd (updateRow data c r n st) = st ++ [trackingKey r].
Proof.
  intros Hn. unfold updateRow. destruct (Nat.eqb_spec n 1); [contradiction|].
  fold (trackingKey r). destruct (map_get (trackingKey r) data); reflexivity.
Qed.

Lemma fold_existingKeys rows : forall st,
  fold_left (fun st r => if hasValues r then st ++ [trackingKey r] else st) rows st
  = st ++ existingKeysOf rows.
Proof.
  unfold existingKeysOf.
  induction rows as [|r rows IH]; intros st; simpl.
  - now rewrite app_nil_r.
  - rewrite IH. destruct (hasValues r); simpl; auto. now rewrite <- app_assoc.
Qed.

Lemma eachRow_updateRow data c name orderNo h t merges :
  eachRow (updateRow data c) (mkSheet name orderNo (h :: t) merges) []
  = (mkSheet name orderNo (h :: map (mergedRow data c) t) merges, existingKeysOf t).
Proof.
  unfold eachRow. cbn [ws_rows].
  rewrite eachRow_from_header by apply updateRow_header.
  rewrite (eachRow_from_rows (updateRow data c)
             (fun r => setCellValue c (VNum (Int (quantityFor data (trackingKey r)))) r))
    by (auto using updateRow_row).
  rewrite (eachRow_from_state (updateRow data c) (fun r st => st ++ [trackingKey r]))
    by (auto using updateRow_keys).
  rewrite fold_existingKeys. reflexivity.
Qed.

Lemma modifyCell_append f (row : Row) :
  modifyCell (cellCount row + 1) f row = row ++ [f emptyCell].
Proof.
  unfold modifyCell, cellCount. replace (length row + 1 - 1) with (length row) by lia.
  apply update_at_end.
Qed.

(** One new row: it lands after the last row. *)
Lemma addNewRow_rows c sheet item :
  addNewRow c sheet item
  = withRows (ws_rows sheet ++ [newRow c item]) sheet.
Proof.
  unfold addNewRow, addRow, modifyRow, lastRowNumber, withRows. cbn [ws_rows ws_name ws_orderNo ws_merges].
  replace (length (ws_rows sheet) + 1 - 1) with (length (ws_rows sheet)) by lia.
  rewrite update_at_end. f_equal.
  rewrite <- (Nat.add_0_r (length (ws_rows sheet))) at 1.
  rewrite update_at_app_r. reflexivity.
Qed.

Lemma fold_addNewRow c items : forall sheet,
  fold_left (addNewRow c) items sheet
  = withRows (ws_rows sheet ++ map (newRow c) items) sheet.
Proof.
  induction items as [|it items IH]; intros sheet; simpl.
  - rewrite app_nil_r. now destruct sheet.
  - rewrite IH, addNewRow_rows. unfold withRows. cbn [ws_rows ws_name ws_orderNo ws_merges].
    now rewrite <- app_assoc.
Qed.

(** The batch loop from index [i] inserts the items from [i] on, whatever
    the batch size. *)
Lemma insertBatches_from batchSize c items i sheet :
  insertBatches batchSize c items i sheet
  = fold_left (addNewRow c) (skipn i items) sheet.
Proof.
  funelim (insertBatches batchSize c items i sheet).
  - match goal with IH : insertBatches _ _ _ _ _ = fold_left _ _ _ |- _ => rewrite IH end.
    rewrite <- fold_left_app. f_equal. unfold slice.
    replace (i + Pos.to_nat batchSize - i) with (Pos.to_nat batchSize) by lia.
    rewrite Nat.add_comm, <- skipn_skipn. apply firstn_skipn.
  - rewrite skipn_all2 by lia. reflexivity.
Qed.

Lemma mergeExport_closed batchSize stockSheet exportSheet exportDate :
  mergeExport batchSize stockSheet exportSheet exportDate
  = mergedSheet stockSheet exportSheet exportDate.
Proof.
  unfold mergeExport, mergedSheet.
  destruct stockSheet as [name orderNo rows merges].
  set (data := extractExportData exportSheet).
  assert (Hhead : modifyRow 1
            (modifyCell (cellCount (getRow (mkSheet name orderNo rows merges) 1) + 1)
               (fun c => styleHeaderCell (withValue (VStr exportDate) c)))
            (mkSheet name orderNo rows merges)
          = mkSheet name orderNo
              ((getRow (mkSheet name orderNo rows merges) 1 ++ [labelCell exportDate])
                 :: tl rows) merges).
  { unfold modifyRow, withRows, getRow. cbn [ws_rows ws_name ws_orderNo ws_merges].
    destruct rows as [|h t]; cbn [update_at nth tl Nat.sub];
      rewrite modifyCell_append; reflexivity. }
  rewrite Hhead. rewrite eachRow_updateRow.
  rewrite insertBatches_from. cbn [skipn]. rewrite fold_addNewRow.
  unfold withRows, dataRows. cbn [ws_rows ws_name ws_orderNo ws_merges].
  reflexivity.
Qed.

(** *** Cells of a row after a write *)

Lemma getCellValue_setCellValue col v row :
  getCellValue (setCellValue col v row) col = v.
Proof.
  unfold getCellValue, getCell, setCellValue, modifyCell.
  now rewrite nth_update_at_eq.
Qed.

Lemma getCell_setCellValue_other col col' v row :
  1 <= col -> 1 <= col' -> col' <> col ->
  getCell (setCellValue col v row) col' = getCell row col'.
Proof.
  intros H1 H2 Hne. unfold getCell, setCellValue, modifyCell.
  apply nth_update_at_neq. lia.
Qed.

Lemma mergedRow_nil data c : mergedRow data c [] = [].
Proof. reflexivity. Qed.

Lemma mergedRow_value data c row :
  hasValues row = true ->
  getCellValue (mergedRow data c row) c = VNum (Int (quantityFor data (trackingKey row))).
Proof. unfold mergedRow. intros ->. apply getCellValue_setCellValue. Qed.

Lemma mergedRow_blank data c row : hasValues row = false -> mergedRow data c row = row.
Proof. unfold mergedRow. now intros ->. Qed.

Lemma mergedRow_other data c col row :
  1 <= c -> 1 <= col -> col <> c -> getCell (mergedRow data c row) col = getCell row col.
Proof.
  intros. unfold mergedRow. destruct (hasValues row); auto.
  now apply getCell_setCellValue_other.
Qed.

Lemma newRow_value c item :
  getCellValue (newRow c item) c = VNum (Int (quantite (snd item))).
Proof. apply getCellValue_setCellValue. Qed.

Lemma newRow_other c col item :
  1 <= c -> 1 <= col -> col <> c ->
  getCell (newRow c item) col
  = getCell [mkCell (codeArticle (snd item)) noStyle; mkCell (description (snd item)) noStyle;
             mkCell (emplacement (snd item)) noStyle;
             mkCell (descEmplacement (snd item)) noStyle] col.
Proof. intros. unfold newRow. now apply getCell_setCellValue_other. Qed.

Lemma newRow_unset c col item :
  1 <= c -> 5 <= col -> col <> c -> getCell (newRow c item) col = emptyCell.
Proof.
  intros Hc Hcol Hne. rewrite newRow_other by lia. unfold getCell.
  do 5 (destruct col as [|col]; try lia). simpl. now destruct col.
Qed.

(** *** Rows of the sheet after the merge *)

Lemma mergedSheet_header stock exp date :
  getRow (mergedSheet stock exp date) 1 = getRow stock 1 ++ [labelCell date].
Proof. reflexivity. Qed.

Lemma getRow_dataRows sheet n :
  2 <= n -> getRow sheet n = nth (n - 2) (dataRows sheet) [].
Proof.
  intros Hn. unfold getRow, dataRows. destruct (ws_rows sheet) as [|h t].
  - simpl. now destruct (n - 1), (n - 2).
  - replace (n - 1) with (S (n - 2)) by lia. reflexivity.
Qed.

Lemma length_dataRows sheet : length (dataRows sheet) = length (ws_rows sheet) - 1.
Proof. unfold dataRows. destruct (ws_rows sheet); simpl; lia. Qed.

Lemma mergedSheet_existing stock exp date n :
  2 <= n <= length (ws_rows stock) ->
  getRow (mergedSheet stock exp date) n
  = mergedRow (extractExportData exp) (cellCount (getRow stock 1) + 1) (getRow stock n).
Proof.
  intros Hn. rewrite (getRow_dataRows stock n) by lia.
  unfold getRow, mergedSheet, withRows. cbn [ws_rows].
  replace (n - 1) with (S (n - 2)) by lia. cbn [nth].
  rewrite app_nth1 by (rewrite length_map, length_dataRows; lia).
  rewrite <- (mergedRow_nil (extractExportData exp) (cellCount (nth 0 (ws_rows stock) []) + 1)) at 1.
  apply map_nth.
Qed.

Lemma mergedSheet_length stock exp date :
  length (ws_rows (mergedSheet stock exp date))
  = Nat.max 1 (length (ws_rows stock))
    + length (newRowsToAdd (extractExportData exp) (existingKeysOf (dataRows stock))).
Proof.
  unfold mergedSheet, withRows. cbn [ws_rows length].
  rewrite length_app, !length_map, length_dataRows. lia.
Qed.

Lemma mergedSheet_new stock exp date j item :
  nth_error (newRowsToAdd (extractExportData exp) (existingKeysOf (dataRows stock))) j
  = Some item ->
  getRow (mergedSheet stock exp date) (Nat.max 1 (length (ws_rows stock)) + 1 + j)
  = newRow (cellCount (getRow stock 1) + 1) item.
Proof.
  intros Hj. unfold getRow at 1. unfold mergedSheet, withRows. cbn [ws_rows].
  replace (Nat.max 1 (length (ws_rows stock)) + 1 + j - 1)
    with (S (length (map (mergedRow (extractExportData exp)
                            (cellCount (getRow stock 1) + 1)) (dataRows stock)) + j))
    by (rewrite length_map, length_dataRows; lia).
  cbn [nth]. rewrite app_nth2_plus.
  apply nth_error_nth with (d := @nil Cell).
  now rewrite nth_error_map, Hj.
Qed.

(** ** Workbooks *)

Lemma slots_from_In i s k wb :
  In (i, s) (slots_from k wb) <-> k <= i /\ nth (i - k) wb None = Some s.
Proof.
  revert k; induction wb as [|o r IH]; intros k; simpl.
  - split; [tauto | intros [_ H]; now destruct (i - k)].
  - assert (Hr : In (i, s) (slots_from (S k) r) <->
                 k <= i /\ i <> k /\ nth (i - S k) r None = Some s).
    { rewrite IH. intuition lia. }
    destruct o as [s0|]; simpl; rewrite Hr; clear Hr IH.
    + split.
      * intros [Heq | (Hle & Hne & Hn)].
        -- injection Heq as <- <-. rewrite Nat.sub_diag. auto.
        -- split; [lia|]. replace (i - k) with (S (i - S k)) by lia. exact Hn.
      * intros [Hle Hn]. destruct (Nat.eq_dec i k) as [->|Hne].
        -- rewrite Nat.sub_diag in Hn. injection Hn as ->. now left.
        -- right. replace (i - k) with (S (i - S k)) in Hn by lia. auto.
    + split.
      * intros (Hle & Hne & Hn). split; [lia|].
        replace (i - k) with (S (i - S k)) by lia. exact Hn.
      * intros [Hle Hn]. destruct (Nat.eq_dec i k) as [->|Hne].
        -- rewrite Nat.sub_diag in Hn. discriminate.
        -- replace (i - k) with (S (i - S k)) in Hn by lia. auto.
Qed.

Lemma getWorksheet_slot name wb id sheet :
  getWorksheet name wb = Some (id, sheet) ->
  nth id wb None = Some sheet /\ ws_name sheet = name.
Proof.
  unfold getWorksheet, slots. intros Hf. apply find_some in Hf as [Hin Hn].
  apply slots_from_In in Hin as [_ Hnth]. rewrite Nat.sub_0_r in Hnth.
  split; [assumption | now apply String.eqb_eq].
Qed.

Lemma onSheet_modify id f wb sheet :
  nth id wb None = Some sheet ->
  onSheet id (modify f) wb = (update_at None (fun _ => Some (f sheet)) id wb, Return tt).
Proof. unfold onSheet. now intros ->. Qed.

(** *** The duplicate check *)

Lemma eachCell_from_matches (p : Cell -> bool) row : forall col,
  (forall c, p c = true -> is_null (cell_value c) = false) ->
  existsb (fun cn => p (fst cn)) (eachCell_from col row) = existsb p row.
Proof.
  induction row as [|c r IH]; intros col Hp; simpl; auto.
  destruct (is_null (cell_value c)) eqn:Hn; simpl; rewrite IH by assumption; auto.
  destruct (p c) eqn:Hc; auto. apply Hp in Hc. congruence.
Qed.

Lemma fold_last_match {A B} (p : A -> bool) (g : A -> B) l : forall acc,
  fold_left (fun acc x => if p x then Some (g x) else acc) l acc = None
  <-> acc = None /\ existsb p l = false.
Proof.
  induction l as [|x l IH]; intros acc; simpl.
  - intuition.
  - rewrite IH. destruct (p x); simpl; intuition congruence.
Qed.

Lemma findDateCol_None sheet exportDate :
  findDateCol (getRow sheet 1) exportDate = None <-> headerContains sheet exportDate = false.
Proof.
  unfold findDateCol, headerContains, eachCell.
  rewrite (fold_last_match (fun cn => strict_eq (cell_value (fst cn)) (VStr exportDate)) snd).
  rewrite (eachCell_from_matches (fun c => strict_eq (cell_value c) (VStr exportDate))).
  - tauto.
  - intros c. destruct (cell_value c); simpl; congruence.
Qed.

(** *** The merge step on workbooks *)

Lemma updateTrackingWith_ok batchSize trackingWb exportWb exportDate
    stockId stockSheet exportId exportSheet :
  getWorksheet stockSheetName trackingWb = Some (stockId, stockSheet) ->
  nth_error (worksheets exportWb) 0 = Some (exportId, exportSheet) ->
  headerContains stockSheet exportDate = false ->
  updateTrackingWith batchSize trackingWb exportWb exportDate
  = (update_at None (fun _ => Some (mergedSheet stockSheet exportSheet exportDate))
               stockId trackingWb,
     Return tt).
Proof.
  intros Hs He Hh. unfold updateTrackingWith, bind, gets. rewrite Hs, He.
  apply findDateCol_None in Hh. rewrite Hh.
  apply getWorksheet_slot in Hs as [Hs _].
  rewrite (onSheet_modify _ _ _ _ Hs). now rewrite mergeExport_closed.
Qed.

Lemma updateTrackingWith_duplicate batchSize trackingWb exportWb exportDate
    stockId stockSheet :
  getWorksheet stockSheetName trackingWb = Some (stockId, stockSheet) ->
  headerContains stockSheet exportDate = true ->
  updateTrackingWith batchSize trackingWb exportWb exportDate
  = (trackingWb, Throw (Error (duplicateMessage exportDate))).
Proof.
  intros Hs Hh. unfold updateTrackingWith, bind, gets. rewrite Hs.
  destruct (findDateCol (getRow stockSheet 1) exportDate) eqn:Hf; [reflexivity|].
  apply findDateCol_None in Hf. congruence.
Qed.

(** *** The rows that get appended *)

Lemma set_has_In key keys : set_has key keys = true <-> In key keys.
Proof.
  unfold set_has. rewrite existsb_exists. split.
  - intros (k & Hin & Hk). apply String.eqb_eq in Hk. now subst.
  - intros Hin. exists key. split; [assumption | apply String.eqb_refl].
Qed.

Lemma map_get_In key v (m : ExportMap) :
  NoDup (map fst m) -> In (key, v) m -> map_get key m = Some v.
Proof.
  induction m as [|[k w] r IH]; simpl; [tauto|].
  intros Hnd [Heq | Hin].
  - injection Heq as -> ->. now rewrite String.eqb_refl.
  - inversion Hnd as [|? ? Hk Hr]; subst. destruct (String.eqb_spec k key) as [->|Hne].
    + exfalso. apply Hk. now apply (in_map fst) in Hin.
    + auto.
Qed.

Lemma map_has_keys key m : map_has key m = true <-> In key (map fst m).
Proof.
  unfold map_has. destruct (map_get key m) eqn:Hg.
  - split; [intros _ | reflexivity].
    destruct (in_dec string_dec key (map fst m)) as [Hin | Hn]; [assumption|].
    apply map_get_None_keys in Hn. congruence.
  - apply map_get_None_keys in Hg. split; [discriminate | tauto].
Qed.

Lemma NoDup_map_fst_filter {A B} (p : A * B -> bool) (l : list (A * B)) :
  NoDup (map fst l) -> NoDup (map fst (filter p l)).
Proof.
  induction l as [|x l IH]; simpl; auto.
  intros Hnd. inversion Hnd as [|? ? Hx Hl]; subst.
  destruct (p x); simpl; auto. constructor; auto.
  intros Hin. apply Hx. apply in_map_iff in Hin as (y & Hy & Hin).
  apply filter_In in Hin as [Hin _]. rewrite <- Hy. now apply in_map.
Qed.

Lemma newRowsToAdd_keys data keys key :
  In key (map fst (newRowsToAdd data keys))
  <-> map_has key data = true /\ ~ In key keys.
Proof.
  unfold newRowsToAdd. rewrite map_has_keys, !in_map_iff. split.
  - intros ([k v] & Hk & Hin). simpl in Hk. subst k.
    apply filter_In in Hin as [Hin Hf]. simpl in Hf. apply negb_true_iff in Hf.
    split; [now exists (key, v) |]. rewrite <- set_has_In. congruence.
  - intros [([k v] & Hk & Hin) Hn]. simpl in Hk. subst k.
    exists (key, v). split; [reflexivity|]. apply filter_In. split; [assumption|].
    simpl. apply negb_true_iff. rewrite <- set_has_In in Hn.
    now destruct (set_has key keys).
Qed.

Lemma newRowsToAdd_entry data keys j key item :
  NoDup (map fst data) ->
  nth_error (newRowsToAdd data keys) j = Some (key, item) ->
  map_get key data = Some item.
Proof.
  intros Hnd Hj. apply nth_error_In in Hj. unfold newRowsToAdd in Hj.
  apply filter_In in Hj as [Hin _]. now apply map_get_In.
Qed.

(** ** Aggregation of the export (C3) *)

Lemma carries_codes key row row' :
  codesOf row = codesOf row' -> carries key row = carries key row'.
Proof.
  unfold codesOf, carries, rowFalsy, exportKey. now intros [= -> ->].
Qed.

Lemma count_carries_codes key rows : forall rows',
  map codesOf rows = map codesOf rows' ->
  length (filter (carries key) rows) = length (filter (carries key) rows').
Proof.
  induction rows as [|r rows IH]; intros [|r' rows']; cbn [map filter];
    try discriminate; auto.
  intros Heq.
  pose proof (f_equal (hd (codesOf r)) Heq) as Hr.
  pose proof (f_equal (@tl _) Heq) as Hrows. cbn [hd tl] in Hr, Hrows.
  rewrite (carries_codes key r r' Hr).
  destruct (carries key r'); cbn [length]; auto.
Qed.

Lemma quantite_entryOf occ :
  option_map quantite (entryOf occ)
  = match length occ with 0 => None | n => Some (Z.of_nat n) end.
Proof. now destruct occ. Qed.

(** C3, as amended: for every export sheet and every identity key, the
    entry of the key in the aggregated map is absent when no row below the
    header carries the key, and otherwise holds the article code, location
    code and descriptions of the first row that carries it, with a quantity
    equal to the number of rows that carry it. A row carries a key when its
    article code and location code are both truthy (not empty, and not the
    number 0) and compose to the key; other rows contribute nothing. The
    quantity is a count of rows: two exports whose rows have the same
    article and location codes give the same quantities, whatever their
    other cells hold. *)
Theorem aggregation_by_count (exportSheet : Worksheet) :
  (forall key,
     map_get key (extractExportData exportSheet)
     = entryOf (filter (carries key) (dataRows exportSheet)))
  /\ (forall exportSheet' key,
        map codesOf (dataRows exportSheet) = map codesOf (dataRows exportSheet') ->
        option_map quantite (map_get key (extractExportData exportSheet))
        = option_map quantite (map_get key (extractExportData exportSheet'))).
Proof.
  assert (Hget : forall sheet key,
             map_get key (extractExportData sheet)
             = entryOf (filter (carries key) (dataRows sheet))).
  { intros. rewrite extractExportData_fold, fold_addExportRow_get. reflexivity. }
  split; [apply Hget|].
  intros exportSheet' key Hcodes. rewrite !Hget, !quantite_entryOf.
  now rewrite (count_carries_codes key _ _ Hcodes).
Qed.

Lemma aggregation_by_count_witness :
  map codesOf (dataRows sampleExportSheet) = map codesOf (dataRows bareExportSheet)
  /\ map_get "X1|A" (extractExportData sampleExportSheet)
     = Some (mkItem (VStr "X1") (VStr "A") (VStr "Vis") (VStr "Atelier") 3)
  /\ option_map quantite (map_get "X1|A" (extractExportData bareExportSheet)) = Some 3%Z
  /\ option_map quantite (map_get "Y|B" (extractExportData bareExportSheet)) = Some 1%Z
  /\ map_get "X2|null" (extractExportData sampleExportSheet) = None.
Proof.
  destruct (aggregation_by_count sampleExportSheet) as [Hentry Hcount].
  split; [reflexivity|]. split; [rewrite Hentry; reflexivity|].
  split; [rewrite <- (Hcount bareExportSheet "X1|A" eq_refl), Hentry; reflexivity|].
  split; [rewrite <- (Hcount bareExportSheet "Y|B" eq_refl), Hentry; reflexivity|].
  rewrite Hentry. reflexivity.
Defined.

(** C3 as stated fails on numeric codes: a row whose article code is the
    number 0 is not empty, yet [!codeArticle] skips it. With the rows that
    have non-empty codes counted, the key [0|A] would have quantity 1; the
    source has no entry for it. *)
Lemma aggregation_by_count_nonempty_fails :
  ~ countsNonEmptyRows zeroCodeExportSheet "0|A".
Proof. unfold countsNonEmptyRows. vm_compute. discriminate. Qed.

(** ** The merge (C1, C2, C7, C9) *)

(** C1: when the header of the tracking sheet does not contain the date
    label, the merge returns normally and
    - the header row is the old header row followed by one cell holding the
      label;
    - every row below the header stays at its row number; a row that holds
      a value gets, in the new column, the aggregated quantity of its
      identity key, or 0 when the export lacks the key; its other cells are
      unchanged; a row without any value stays as it is;
    - the rows appended after the existing ones are, in the order of the
      aggregated map, one row per aggregated key that no existing row has:
      the row holds the aggregated quantity in the new column, the four
      descriptive fields in columns 1 to 4, and nothing in any other column
      from 5 on. *)
Theorem merge_postcondition
    (trackingWb exportWb : Workbook) (exportDate : string)
    (stockId : nat) (stockSheet : Worksheet) (exportId : nat) (exportSheet : Worksheet) :
  getWorksheet stockSheetName trackingWb = Some (stockId, stockSheet) ->
  nth_error (worksheets exportWb) 0 = Some (exportId, exportSheet) ->
  headerContains stockSheet exportDate = false ->
  let exportData := extractExportData exportSheet in
  let newColIndex := cellCount (getRow stockSheet 1) + 1 in
  let oldRows := Nat.max 1 (length (ws_rows stockSheet)) in
  exists (trackingWb' : Workbook) (stockSheet' : Worksheet)
         (newItems : list (string * ExportItem)),
    updateTracking trackingWb exportWb exportDate = (trackingWb', Return tt)
    /\ nth stockId trackingWb' None = Some stockSheet'
    /\ getRow stockSheet' 1 = getRow stockSheet 1 ++ [labelCell exportDate]
    /\ (forall n, 2 <= n <= length (ws_rows stockSheet) ->
          let row := getRow stockSheet n in
          let row' := getRow stockSheet' n in
          (hasValues row = true ->
             getCellValue row' newColIndex
             = VNum (Int (quantityFor exportData (trackingKey row))))
          /\ (hasValues row = false -> row' = row)
          /\ (forall col, 1 <= col -> col <> newColIndex ->
                getCell row' col = getCell row col))
    /\ NoDup (map fst newItems)
    /\ (forall key, In key (map fst newItems)
                    <-> map_has key exportData = true
                        /\ ~ In key (existingKeysOf (dataRows stockSheet)))
    /\ length (ws_rows stockSheet') = oldRows + length newItems
    /\ (forall j key data, nth_error newItems j = Some (key, data) ->
          let row' := getRow stockSheet' (oldRows + 1 + j) in
          map_get key exportData = Some data
          /\ getCellValue row' newColIndex = VNum (Int (quantite data))
          /\ (forall col, 5 <= col -> col <> newColIndex -> getCell row' col = emptyCell)
          /\ (forall col, 1 <= col -> col <> newColIndex ->
                getCell row' col
                = getCell [mkCell (codeArticle data) noStyle;
                           mkCell (description data) noStyle;
                           mkCell (emplacement data) noStyle;
                           mkCell (descEmplacement data) noStyle] col)).
Proof.
  intros Hs He Hh exportData newColIndex oldRows.
  exists (update_at None (fun _ => Some (mergedSheet stockSheet exportSheet exportDate))
                    stockId trackingWb),
         (mergedSheet stockSheet exportSheet exportDate),
         (newRowsToAdd exportData (existingKeysOf (dataRows stockSheet))).
  assert (Hc : 1 <= newColIndex) by (unfold newColIndex; lia).
  split; [now apply (updateTrackingWith_ok _ _ _ _ _ _ exportId) |].
  split; [apply nth_update_at_eq |].
  split; [apply mergedSheet_header |].
  split.
  { intros n Hn row row'. unfold row'. rewrite mergedSheet_existing by assumption.
    fold exportData newColIndex row. repeat split.
    - apply mergedRow_value.
    - apply mergedRow_blank.
    - intros col Hcol Hne. now apply mergedRow_other. }
  split; [apply NoDup_map_fst_filter, extractExportData_NoDup |].
  split; [apply newRowsToAdd_keys |].
  split; [apply mergedSheet_length |].
  intros j key data Hj row'. unfold row', oldRows.
  rewrite (mergedSheet_new _ _ _ _ _ Hj). fold newColIndex. repeat split.
  - eapply newRowsToAdd_entry; [apply extractExportData_NoDup | exact Hj].
  - apply newRow_value.
  - intros col Hcol Hne. now apply newRow_unset.
  - intros col Hcol Hne. now apply newRow_other.
Qed.

Lemma merge_postcondition_witness :
  getWorksheet stockSheetName sampleTracking = Some (1, sampleStock)
  /\ nth_error (worksheets sampleExport) 0 = Some (1, sampleExportSheet)
  /\ headerContains sampleStock "15/01/2024" = false
  /\ exists trackingWb',
       updateTracking sampleTracking sampleExport "15/01/2024" = (trackingWb', Return tt).
Proof.
  repeat split.
  destruct (merge_postcondition sampleTracking sampleExport "15/01/2024"
              1 sampleStock 1 sampleExportSheet eq_refl eq_refl eq_refl)
    as (wb' & _ & _ & Hrun & _).
  exists wb'. exact Hrun.
Defined.

(** C2: when the header row of the tracking sheet already contains the
    date label, the merge throws the duplicate-import error, whose message
    carries the label, and the tracking workbook it leaves is the one it was
    given. *)
Theorem duplicate_import_guard
    (trackingWb exportWb : Workbook) (exportDate : string)
    (stockId : nat) (stockSheet : Worksheet) :
  getWorksheet stockSheetName trackingWb = Some (stockId, stockSheet) ->
  headerContains stockSheet exportDate = true ->
  updateTracking trackingWb exportWb exportDate
  = (trackingWb,
     Throw (Error ("Les données pour la date " ++ exportDate
                   ++ " ont déjà été importées")%string)).
Proof. intros Hs Hh. now apply (updateTrackingWith_duplicate _ _ _ _ stockId stockSheet). Qed.

Lemma duplicate_import_guard_witness :
  getWorksheet stockSheetName sampleMerged
  = Some (1, mergedSheet sampleStock sampleExportSheet "15/01/2024")
  /\ headerContains (mergedSheet sampleStock sampleExportSheet "15/01/2024")
                    "15/01/2024" = true
  /\ updateTracking sampleMerged sampleExport "15/01/2024"
     = (sampleMerged,
        Throw (Error "Les données pour la date 15/01/2024 ont déjà été importées")).
Proof.
  split; [reflexivity |]. split; [reflexivity |].
  exact (duplicate_import_guard sampleMerged sampleExport "15/01/2024" 1
           (mergedSheet sampleStock sampleExportSheet "15/01/2024") eq_refl eq_refl).
Defined.

(** C7: with any batch size of at least 1, the batch loop leaves the sheet
    that inserting all the new rows in one batch leaves, and the merge step
    as a whole does not depend on the batch size. *)
Theorem batch_size_invariance (batchSize : positive) :
  (forall newColIndex items sheet,
     insertBatches batchSize newColIndex items 0 sheet
     = fold_left (addNewRow newColIndex) items sheet)
  /\ (forall trackingWb exportWb exportDate,
        updateTrackingWith batchSize trackingWb exportWb exportDate
        = updateTracking trackingWb exportWb exportDate).
Proof.
  split.
  - intros. now rewrite insertBatches_from.
  - intros. unfold updateTracking, updateTrackingWith, bind, gets.
    destruct (getWorksheet stockSheetName trackingWb) as [[stockId stockSheet]|]; auto.
    destruct (findDateCol (getRow stockSheet 1) exportDate); auto.
    destruct (nth_error (worksheets exportWb) 0) as [[? exportSheet]|]; auto.
    unfold onSheet. destruct (nth stockId trackingWb None); auto.
    unfold modify. now rewrite !mergeExport_closed.
Qed.



(** ** Variations (C5) *)

Section Variations.
Context `{Runtime}.

Lemma variationRow_header cur prev r st : variationRow cur prev r 1 st = (r, st).
Proof. reflexivity. Qed.

Lemma variationRow_state cur prev r n st :
  n <> 1 ->
  snd (variationRow cur prev r n st)
  = if isNonZero (variationOf cur prev r) then st ++ [recordOf cur prev r] else st.
Proof.
  intros Hn. unfold variationRow. destruct (Nat.eqb_spec n 1); [contradiction|].
  fold (readQty r cur) (readQty r prev) (variationOf cur prev r).
  fold (isNonZero (variationOf cur prev r)).
  destruct (isNonZero (variationOf cur prev r)); reflexivity.
Qed.

Lemma variationOf_blank cur prev r :
  hasValues r = false -> isNonZero (variationOf cur prev r) = false.
Proof.
  intros Hv. unfold variationOf, readQty.
  now rewrite !(hasValues_false_cell _ _ Hv).
Qed.

Lemma isNonZero_spec n : isNonZero n = true <-> n <> Int 0.
Proof.
  unfold isNonZero. destruct n as [z|]; simpl.
  - rewrite negb_true_iff, Z.eqb_neq. split; congruence.
  - split; [discriminate | reflexivity].
Qed.

Lemma fold_variations cur prev rows : forall st,
  fold_left (fun st r =>
               if hasValues r
               then (if isNonZero (variationOf cur prev r)
                     then st ++ [recordOf cur prev r] else st)
               else st) rows st
  = st ++ map (recordOf cur prev)
             (filter (fun r => isNonZero (variationOf cur prev r)) rows).
Proof.
  induction rows as [|r rows IH]; intros st; simpl.
  - now rewrite app_nil_r.
  - rewrite IH. destruct (hasValues r) eqn:Hv.
    + destruct (isNonZero (variationOf cur prev r)); simpl; auto.
      now rewrite <- app_assoc.
    + now rewrite variationOf_blank.
Qed.

Lemma calculateVariations_closed sheet cur prev :
  calculateVariations sheet cur prev
  = map (recordOf cur prev)
        (filter (fun r => isNonZero (variationOf cur prev r)) (dataRows sheet)).
Proof.
  unfold calculateVariations, eachRow, dataRows.
  destruct (ws_rows sheet) as [|h rest]; [reflexivity|].
  destruct (eachRow_from (variationRow cur prev) 1 (h :: rest) []) as [rows' st'] eqn:E.
  rewrite eachRow_from_header in E by apply variationRow_header.
  injection E as _ <-. cbn [snd tl].
  rewrite (eachRow_from_state (variationRow cur prev)
             (fun r st => if isNonZero (variationOf cur prev r)
                          then st ++ [recordOf cur prev r] else st))
    by (auto using variationRow_state).
  now rewrite fold_variations.
Qed.

Lemma variationOf_quantities cur prev row c p :
  quantityOf (getCellValue row cur) = Some c ->
  quantityOf (getCellValue row prev) = Some p ->
  variationOf cur prev row = Int (c - p).
Proof.
  unfold variationOf, readQty, minus, or_else.
  destruct (getCellValue row cur) as [|s|[zc|]]; simpl; try discriminate;
    destruct (getCellValue row prev) as [|s'|[zp|]]; simpl; try discriminate;
    intros [= <-] [= <-];
    try destruct (Z.eqb_spec zc 0); try destruct (Z.eqb_spec zp 0);
    subst; simpl; reflexivity.
Qed.

(** C5: for column positions from 1 on, the variation step yields the
    records of the rows below the header whose variation is not 0, in
    the order of the rows in the sheet; a record holds the identity
    cells of its row, the variation and the current quantity. The
    variation of a row whose two cells are empty or integers is the
    current integer minus the previous one, an empty cell counting as 0.
    No record has variation 0, and every row with a non-zero variation
    has its record. *)
Theorem variation_computation
    (stockSheet : Worksheet) (currentColIndex previousColIndex : nat) :
  1 <= currentColIndex -> 1 <= previousColIndex ->
  calculateVariations stockSheet currentColIndex previousColIndex
  = map (recordOf currentColIndex previousColIndex)
        (filter (fun row => isNonZero (variationOf currentColIndex previousColIndex row))
                (dataRows stockSheet))
  /\ (forall row c p,
        quantityOf (getCellValue row currentColIndex) = Some c ->
        quantityOf (getCellValue row previousColIndex) = Some p ->
        variationOf currentColIndex previousColIndex row = Int (c - p))
  /\ Forall (fun record => variation record <> Int 0)
            (calculateVariations stockSheet currentColIndex previousColIndex)
  /\ (forall row, In row (dataRows stockSheet) ->
        variationOf currentColIndex previousColIndex row <> Int 0 ->
        In (recordOf currentColIndex previousColIndex row)
           (calculateVariations stockSheet currentColIndex previousColIndex)).
Proof.
  intros _ _. rewrite calculateVariations_closed.
  split; [reflexivity |]. split; [apply variationOf_quantities |]. split.
  - apply Forall_forall. intros record Hin.
    apply in_map_iff in Hin as (row & <- & Hin). apply filter_In in Hin as [_ Hnz].
    now apply isNonZero_spec.
  - intros row Hin Hnz. apply in_map. apply filter_In. split; [assumption|].
    now apply isNonZero_spec.
Qed.

End Variations.

(** ** The report steps in one form *)

Section ReportSteps.
Context `{Runtime}.

Lemma updateMonthlyTracking_step workbook exportDate :
  updateMonthlyTracking workbook exportDate
  = reportStep "suivi mensuel" "Suivi Mensuel" monthlyMessage 1 workbook exportDate.
Proof.
  assert (Hcontent : forall stockSheet id wb1,
    (if (indexOf (VStr exportDate) (getHeaders stockSheet) <? 1)%Z
     then onSheet id (addNoDataMessage monthlyMessage exportDate)
     else
       if negb (isValidDate
                  (nth (Z.to_nat (indexOf (VStr exportDate) (getHeaders stockSheet) - 1))
                       (getHeaders stockSheet) VNull))
       then onSheet id (addNoDataMessage monthlyMessage exportDate)
       else
         onSheet id
           (writeVariationsSheet
              (calculateVariations stockSheet
                 (Z.to_nat (indexOf (VStr exportDate) (getHeaders stockSheet) + 1))
                 (Z.to_nat (indexOf (VStr exportDate) (getHeaders stockSheet))))
              (variationTitle
                 (nth (Z.to_nat (indexOf (VStr exportDate) (getHeaders stockSheet) - 1))
                      (getHeaders stockSheet) VNull) exportDate) reportHeaders)) wb1
    = onSheet id (reportContent monthlyMessage 1 stockSheet exportDate) wb1).
  { intros stockSheet id wb1. unfold reportContent.
    replace (indexOf (VStr exportDate) (getHeaders stockSheet) - 1 + 1)%Z
      with (indexOf (VStr exportDate) (getHeaders stockSheet)) by lia.
    destruct (indexOf (VStr exportDate) (getHeaders stockSheet) <? 1)%Z; [reflexivity|].
    destruct (isValidDate _); reflexivity. }
  unfold updateMonthlyTracking, reportStep, recreateSheet, bind, gets.
  destruct (getWorksheet stockSheetName workbook) as [[? stockSheet]|];
    destruct (findSheetByPrefix workbook "suivi mensuel") as [[oldId old]|];
    try destruct (removeWorksheet oldId workbook) as [wbr [[]|e]];
    try reflexivity;
    match goal with
    | |- context [addWorksheet ?n ?w] => destruct (addWorksheet n w) as [wb1 [id|e']]
    end;
    try reflexivity; apply Hcontent.
Qed.

Lemma updateSemestrialTracking_step workbook exportDate :
  updateSemestrialTracking workbook exportDate
  = reportStep "suivi semestriel" "Suivi Semestriel" semestrialMessage 6 workbook exportDate.
Proof.
  assert (Hcontent : forall stockSheet id wb1,
    (if (indexOf (VStr exportDate) (getHeaders stockSheet) <? 6)%Z
     then onSheet id (addNoDataMessage semestrialMessage exportDate)
     else
       if negb (isValidDate
                  (nth (Z.to_nat (indexOf (VStr exportDate) (getHeaders stockSheet) - 6))
                       (getHeaders stockSheet) VNull))
       then onSheet id (addNoDataMessage semestrialMessage exportDate)
       else
         onSheet id
           (writeVariationsSheet
              (calculateVariations stockSheet
                 (Z.to_nat (indexOf (VStr exportDate) (getHeaders stockSheet) + 1))
                 (Z.to_nat (indexOf (VStr exportDate) (getHeaders stockSheet) - 5)))
              (variationTitle
                 (nth (Z.to_nat (indexOf (VStr exportDate) (getHeaders stockSheet) - 6))
                      (getHeaders stockSheet) VNull) exportDate) reportHeaders)) wb1
    = onSheet id (reportContent semestrialMessage 6 stockSheet exportDate) wb1).
  { intros stockSheet id wb1. unfold reportContent.
    replace (indexOf (VStr exportDate) (getHeaders stockSheet) - 6 + 1)%Z
      with (indexOf (VStr exportDate) (getHeaders stockSheet) - 5)%Z by lia.
    destruct (indexOf (VStr exportDate) (getHeaders stockSheet) <? 6)%Z; [reflexivity|].
    destruct (isValidDate _); reflexivity. }
  unfold updateSemestrialTracking, reportStep, recreateSheet, bind, gets.
  destruct (getWorksheet stockSheetName workbook) as [[? stockSheet]|];
    destruct (findSheetByPrefix workbook "suivi semestriel") as [[oldId old]|];
    try destruct (removeWorksheet oldId workbook) as [wbr [[]|e]];
    try reflexivity;
    match goal with
    | |- context [addWorksheet ?n ?w] => destruct (addWorksheet n w) as [wb1 [id|e']]
    end;
    try reflexivity; apply Hcontent.
Qed.

End ReportSteps.

(** *** Sheets in tab order *)

Lemma In_insert_by_order y x l : In y (insert_by_order x l) <-> y = x \/ In y l.
Proof.
  induction l as [|z l IH]; simpl.
  - intuition.
  - destruct (ws_orderNo (snd x) <=? ws_orderNo (snd z)); simpl; [intuition |].
    rewrite IH. intuition.
Qed.

Lemma In_sort_by_order y l : In y (sort_by_order l) <-> In y l.
Proof.
  induction l as [|x l IH]; simpl; [tauto|].
  rewrite In_insert_by_order, IH. intuition.
Qed.

Lemma worksheets_slot id sheet wb :
  In (id, sheet) (worksheets wb) <-> 1 <= id /\ nth id wb None = Some sheet.
Proof.
  unfold worksheets. rewrite In_sort_by_order, slots_from_In.
  destruct wb as [|o r]; simpl.
  - split; intros [? Hn]; [now destruct (id - 1) | now destruct id].
  - destruct id as [|id]; [intuition lia|]. simpl. rewrite Nat.sub_0_r. intuition lia.
Qed.

Lemma findSheetByPrefix_slot wb prefix id sheet :
  findSheetByPrefix wb prefix = Some (id, sheet) ->
  1 <= id /\ nth id wb None = Some sheet
  /\ startsWith (toLowerCase (ws_name sheet)) (toLowerCase prefix) = true.
Proof.
  unfold findSheetByPrefix. intros Hf. apply find_some in Hf as [Hin Hp].
  apply worksheets_slot in Hin. tauto.
Qed.

Lemma first_hole_free i l :
  i <= first_hole i l /\ nth (first_hole i l - i) l None = None.
Proof.
  revert i; induction l as [|o r IH]; intros i; simpl.
  - split; [lia | now destruct (i - i)].
  - destruct o as [s|].
    + destruct (IH (S i)) as [Hle Hn]. split; [lia|].
      replace (first_hole (S i) r - i) with (S (first_hole (S i) r - S i)) by lia.
      exact Hn.
    + split; [lia | now rewrite Nat.sub_diag].
Qed.

Lemma nextId_free wb : 1 <= nextId wb /\ nth (nextId wb) wb None = None.
Proof.
  unfold nextId. destruct wb as [|o r]; [split; [lia | reflexivity]|].
  destruct (first_hole_free 1 r) as [Hle Hn]. split; [assumption|].
  destruct (first_hole 1 r) as [|h]; [lia|]. simpl in *.
  now rewrite Nat.sub_0_r in Hn.
Qed.

(** *** Creating the sheet of a report *)

Lemma recreateSheet_state prefix name wb :
  recreateSheet prefix name wb = addWorksheet name (withoutReport prefix wb).
Proof.
  unfold recreateSheet, withoutReport, bind, gets.
  destruct (findSheetByPrefix wb prefix) as [[oldId old]|] eqn:Hf; [|reflexivity].
  apply findSheetByPrefix_slot in Hf as (_ & Hn & _).
  unfold removeWorksheet. rewrite Hn. reflexivity.
Qed.

Lemma recreateSheet_ok prefix name wb :
  nameExists name (withoutReport prefix wb) = false ->
  recreateSheet prefix name wb
  = (update_at None (fun _ => Some (freshSheet name (withoutReport prefix wb)))
               (nextId (withoutReport prefix wb)) (withoutReport prefix wb),
     Return (nextId (withoutReport prefix wb))).
Proof. intros Hn. rewrite recreateSheet_state. unfold addWorksheet. now rewrite Hn. Qed.

Lemma recreateSheet_clash prefix name wb :
  nameExists name (withoutReport prefix wb) = true ->
  recreateSheet prefix name wb
  = (withoutReport prefix wb,
     Throw (Error ("Worksheet name already exists: " ++ name)%string)).
Proof. intros Hn. rewrite recreateSheet_state. unfold addWorksheet. now rewrite Hn. Qed.

Lemma update_at_twice {A} (d a b : A) n l :
  update_at d (fun _ => b) n (update_at d (fun _ => a) n l) = update_at d (fun _ => b) n l.
Proof.
  revert l; induction n as [|n IH]; intros [|x t]; simpl; auto; now rewrite IH.
Qed.

Lemma onSheet_new {A} id (p : Proc Worksheet A) sheet wb :
  onSheet id p (update_at None (fun _ => Some sheet) id wb)
  = (update_at None (fun _ => Some (fst (p sheet))) id wb, snd (p sheet)).
Proof.
  unfold onSheet. rewrite nth_update_at_eq. destruct (p sheet) as [sheet' o].
  now rewrite update_at_twice.
Qed.

Section ReportStepFacts.
Context `{Runtime}.

(** A report step whose sheet can be created runs the content procedure
    on a sheet that is new and empty. *)
Lemma reportStep_run prefix name message lookback wb exportDate stockId stockSheet :
  getWorksheet stockSheetName wb = Some (stockId, stockSheet) ->
  nameExists name (withoutReport prefix wb) = false ->
  let wb1 := withoutReport prefix wb in
  let run := reportContent message lookback stockSheet exportDate (freshSheet name wb1) in
  reportStep prefix name message lookback wb exportDate
  = (update_at None (fun _ => Some (fst run)) (nextId wb1) wb1, snd run).
Proof.
  intros Hs Hn wb1 run. unfold reportStep, bind, gets. rewrite Hs.
  rewrite recreateSheet_ok by assumption. apply onSheet_new.
Qed.


End ReportStepFacts.

(** ** The lookback guard (C4) *)

Lemma indexOf_from_shift x l : forall i,
  indexOf_from i x l
  = if (indexOf_from 0 x l =? -1)%Z then (-1)%Z else (i + indexOf_from 0 x l)%Z.
Proof.
  induction l as [|y l IH]; intros i; simpl; [reflexivity|].
  destruct (strict_eq y x).
  - simpl. lia.
  - rewrite (IH (i + 1)%Z), (IH 1%Z).
    assert (Hb : forall j, (0 <= j)%Z ->
              (indexOf_from j x l = -1 \/ j <= indexOf_from j x l)%Z).
    { clear. induction l as [|y l IH]; intros j Hj; simpl; [now left|].
      destruct (strict_eq y x); [right; lia|].
      destruct (IH (j + 1)%Z ltac:(lia)); [now left | right; lia]. }
    destruct (Hb 0%Z ltac:(lia)) as [E|E].
    + rewrite E. reflexivity.
    + destruct (Z.eqb_spec (indexOf_from 0 x l) (-1)); [lia|].
      destruct (Z.eqb_spec (1 + indexOf_from 0 x l) (-1)); lia.
Qed.

Lemma indexOf_bounds x l :
  (indexOf x l = -1 \/ 0 <= indexOf x l < Z.of_nat (length l))%Z.
Proof.
  unfold indexOf. induction l as [|y l IH]; simpl; [now left|].
  destruct (strict_eq y x); [right; lia|].
  rewrite indexOf_from_shift.
  destruct (Z.eqb_spec (indexOf_from 0 x l) (-1)); [now left | right; lia].
Qed.

Lemma indexOf_app_absent x l1 l2 :
  Forall (fun y => strict_eq y x = false) l1 ->
  indexOf x (l1 ++ l2)
  = if (indexOf x l2 =? -1)%Z then (-1)%Z else (Z.of_nat (length l1) + indexOf x l2)%Z.
Proof.
  unfold indexOf. intros Hl.
  induction Hl as [|y l1 Hy Hl IH]; cbn [app indexOf_from length].
  - destruct (Z.eqb_spec (indexOf_from 0 x l2) (-1)); lia.
  - rewrite Nat2Z.inj_succ, Hy, indexOf_from_shift, IH.
    destruct (Z.eqb_spec (indexOf_from 0 x l2) (-1)) as [E|E]; [reflexivity|].
    destruct (Z.eqb_spec (Z.of_nat (length l1) + indexOf_from 0 x l2) (-1)) as [E'|E'].
    + destruct (indexOf_bounds x l2) as [Hb|Hb]; unfold indexOf in Hb; lia.
    + lia.
Qed.

Lemma strict_eq_VStr v s : strict_eq v (VStr s) = true -> v = VStr s.
Proof.
  destruct v as [|t|n]; simpl; try discriminate.
  intros E. apply String.eqb_eq in E. now subst.
Qed.


Section Guard.
Context `{Runtime}.



End Guard.

(** ** Tab order after a sheet is removed or added *)

Lemma insert_by_order_first x l : Forall (orderLe x) l -> insert_by_order x l = x :: l.
Proof.
  intros Hl. destruct Hl as [|y l Hy Hl]; simpl; [reflexivity|].
  unfold orderLe in Hy.
  destruct (Nat.leb_spec (ws_orderNo (snd x)) (ws_orderNo (snd y))); [reflexivity | lia].
Qed.

Lemma insert_by_order_last x l :
  Forall (fun y => ws_orderNo (snd y) < ws_orderNo (snd x)) l ->
  insert_by_order x l = l ++ [x].
Proof.
  induction 1 as [|y l Hy Hl IH]; simpl; [reflexivity|].
  destruct (Nat.leb_spec (ws_orderNo (snd x)) (ws_orderNo (snd y))); [lia|].
  now rewrite IH.
Qed.

Lemma insert_by_order_app_last a x l :
  ws_orderNo (snd a) < ws_orderNo (snd x) ->
  insert_by_order a (l ++ [x]) = insert_by_order a l ++ [x].
Proof.
  intros Hax. induction l as [|y l IH]; simpl.
  - destruct (Nat.leb_spec (ws_orderNo (snd a)) (ws_orderNo (snd x))); [reflexivity | lia].
  - destruct (ws_orderNo (snd a) <=? ws_orderNo (snd y)); [reflexivity|].
    now rewrite IH.
Qed.

(** A sheet whose [orderNo] exceeds all the others is last in tab order,
    wherever its slot is. *)
Lemma sort_by_order_greatest x l1 l2 :
  Forall (fun y => ws_orderNo (snd y) < ws_orderNo (snd x)) (l1 ++ l2) ->
  sort_by_order (l1 ++ x :: l2) = sort_by_order (l1 ++ l2) ++ [x].
Proof.
  induction l1 as [|a l1 IH]; simpl; intros Hall.
  - apply insert_by_order_last. rewrite Forall_forall in *. intros y Hy.
    apply Hall. exact (proj1 (In_sort_by_order y l2) Hy).
  - inversion Hall as [|? ? Ha Hrest]; subst.
    change (insert_by_order a (sort_by_order (l1 ++ x :: l2))
            = insert_by_order a (sort_by_order (l1 ++ l2)) ++ [x]).
    rewrite IH by assumption. now apply insert_by_order_app_last.
Qed.

Lemma insert_by_order_Forall (P : nat * Worksheet -> Prop) x l :
  P x -> Forall P l -> Forall P (insert_by_order x l).
Proof.
  intros Hx Hl. rewrite Forall_forall in *. intros y Hy.
  apply In_insert_by_order in Hy as [->|Hy]; auto.
Qed.

Lemma insert_by_order_ordered x l : ordered l -> ordered (insert_by_order x l).
Proof.
  induction 1 as [|y l Hy Hl IH]; simpl.
  - repeat constructor.
  - destruct (Nat.leb_spec (ws_orderNo (snd x)) (ws_orderNo (snd y))).
    + constructor; [|now constructor]. constructor; [assumption|].
      eapply Forall_impl; [|exact Hy]. unfold orderLe. intros; lia.
    + constructor; [|assumption]. apply insert_by_order_Forall; [|assumption].
      unfold orderLe. lia.
Qed.

Lemma sort_by_order_ordered l : ordered (sort_by_order l).
Proof.
  induction l as [|x l IH]; simpl; [constructor | now apply insert_by_order_ordered].
Qed.

Lemma filter_insert_by_order (p : nat * Worksheet -> bool) x l :
  ordered l ->
  filter p (insert_by_order x l)
  = if p x then insert_by_order x (filter p l) else filter p l.
Proof.
  induction 1 as [|y l Hy Hl IH]; simpl.
  - now destruct (p x).
  - destruct (Nat.leb_spec (ws_orderNo (snd x)) (ws_orderNo (snd y))) as [Hle|Hgt].
    + cbn [filter]. destruct (p x); [|reflexivity].
      symmetry. apply insert_by_order_first.
      assert (Hall : Forall (orderLe x) (y :: l)).
      { constructor; [exact Hle|]. eapply Forall_impl; [|exact Hy].
        unfold orderLe in *. intros; lia. }
      rewrite Forall_forall in *. intros z Hz.
      change (In z (filter p (y :: l))) in Hz. apply filter_In in Hz as [Hz _].
      now apply Hall.
    + cbn [filter]. rewrite IH. destruct (p y), (p x); simpl; auto.
      destruct (Nat.leb_spec (ws_orderNo (snd x)) (ws_orderNo (snd y))); [lia | reflexivity].
Qed.

Lemma filter_sort_by_order (p : nat * Worksheet -> bool) l :
  filter p (sort_by_order l) = sort_by_order (filter p l).
Proof.
  induction l as [|x l IH]; simpl; [reflexivity|].
  rewrite filter_insert_by_order by apply sort_by_order_ordered.
  rewrite IH. now destruct (p x).
Qed.

(** *** Slots after a write *)

Lemma slots_from_split k n wb :
  slots_from k wb
  = slots_from k (firstn n wb)
    ++ match nth n wb None with Some s => [(k + n, s)] | None => [] end
    ++ slots_from (k + S n) (skipn (S n) wb).
Proof.
  revert k wb; induction n as [|n IH]; intros k [|o r]; simpl; auto.
  - rewrite Nat.add_0_r, Nat.add_1_r. now destruct o.
  - rewrite (IH (S k) r). replace (S k + n) with (k + S n) by lia.
    replace (S k + S n) with (k + S (S n)) by lia. now destruct o.
Qed.

Lemma slots_from_update k n o wb :
  slots_from k (update_at None (fun _ => o) n wb)
  = slots_from k (firstn n wb)
    ++ match o with Some s => [(k + n, s)] | None => [] end
    ++ slots_from (k + S n) (skipn (S n) wb).
Proof.
  revert k wb; induction n as [|n IH]; intros k [|o' r]; simpl.
  - rewrite Nat.add_0_r. destruct o; reflexivity.
  - rewrite Nat.add_0_r, Nat.add_1_r. now destruct o.
  - rewrite (IH (S k) []). rewrite firstn_nil, skipn_nil. simpl.
    replace (S (k + n)) with (k + S n) by lia. reflexivity.
  - rewrite (IH (S k) r). replace (S k + n) with (k + S n) by lia.
    replace (S k + S n) with (k + S (S n)) by lia. now destruct o'.
Qed.

Lemma slots_from_ids i s k wb :
  In (i, s) (slots_from k wb) -> k <= i < k + length wb.
Proof.
  intros Hin. apply slots_from_In in Hin as [Hle Hn]. split; [assumption|].
  destruct (Nat.lt_ge_cases (i - k) (length wb)); [lia|].
  rewrite nth_overflow in Hn by assumption. discriminate.
Qed.

Lemma tl_update_at {A} (d : A) f n l :
  tl (update_at d f (S n) l) = update_at d f n (tl l).
Proof. destruct l; reflexivity. Qed.

Lemma nth_tl {A} (d : A) n l : nth n (tl l) d = nth (S n) l d.
Proof. destruct l; [now destruct n | reflexivity]. Qed.

(** Removing the sheet of a slot removes it from the tab order and leaves
    the order of the others. *)
Lemma worksheets_remove id wb :
  1 <= id ->
  worksheets (update_at None (fun _ => None) id wb) = filter (idIsNot id) (worksheets wb).
Proof.
  intros Hid. unfold worksheets. destruct id as [|n]; [lia|].
  rewrite tl_update_at, filter_sort_by_order. f_equal.
  rewrite slots_from_update, (slots_from_split 1 n (tl wb)).
  rewrite !filter_app.
  assert (Hkeep : forall l : list (nat * Worksheet),
                   (forall i s, In (i, s) l -> i <> S n) ->
                   filter (idIsNot (S n)) l = l).
  { intros l Hl. induction l as [|[i s] l IH]; simpl; [reflexivity|].
    unfold idIsNot at 1. simpl.
    destruct (Nat.eqb_spec i (S n)) as [->|_].
    - exfalso. apply (Hl (S n) s); [now left | reflexivity].
    - simpl. rewrite IH; [reflexivity|]. intros j t Hj. apply (Hl j t). now right. }
  rewrite (Hkeep (slots_from 1 (firstn n (tl wb)))),
          (Hkeep (slots_from (1 + S n) (skipn (S n) (tl wb)))).
  - destruct (nth n (tl wb) None); simpl; [|reflexivity].
    unfold idIsNot. simpl. now rewrite Nat.eqb_refl.
  - intros i s Hin. apply slots_from_ids in Hin. lia.
  - intros i s Hin. apply slots_from_ids in Hin. rewrite length_firstn in Hin. lia.
Qed.

Lemma lastOrderNo_bound i s wb :
  In (i, s) (slots wb) -> ws_orderNo s <= lastOrderNo wb.
Proof.
  unfold lastOrderNo.
  assert (Hg : forall (l : list (nat * Worksheet)) acc,
             acc <= fold_left (fun acc s => if acc <? ws_orderNo (snd s)
                                            then ws_orderNo (snd s) else acc) l acc
             /\ forall x, In x l ->
                  ws_orderNo (snd x)
                  <= fold_left (fun acc s => if acc <? ws_orderNo (snd s)
                                             then ws_orderNo (snd s) else acc) l acc).
  { induction l as [|y l IH]; intros acc; simpl; [split; [lia | tauto]|].
    destruct (IH (if acc <? ws_orderNo (snd y) then ws_orderNo (snd y) else acc))
      as [Hacc Hin].
    destruct (Nat.ltb_spec acc (ws_orderNo (snd y))); split; try lia.
    - intros x [<-|Hx]; [lia | now apply Hin].
    - intros x [<-|Hx]; [lia | now apply Hin]. }
  intros Hin. now apply (proj2 (Hg (slots wb) 0) (i, s)).
Qed.

(** Adding a sheet in a free slot, with an [orderNo] above all the others,
    puts it last in tab order. *)
Lemma worksheets_add id sheet wb :
  1 <= id ->
  nth id wb None = None ->
  lastOrderNo wb < ws_orderNo sheet ->
  worksheets (update_at None (fun _ => Some sheet) id wb) = worksheets wb ++ [(id, sheet)].
Proof.
  intros Hid Hfree Hord. unfold worksheets. destruct id as [|n]; [lia|].
  rewrite tl_update_at, slots_from_update, (slots_from_split 1 n (tl wb)).
  rewrite nth_tl, Hfree. cbn [app]. replace (1 + n) with (S n) by lia.
  apply sort_by_order_greatest. apply Forall_forall. intros [i s] Hin.
  cbn [snd]. apply Nat.le_lt_trans with (lastOrderNo wb); [|assumption].
  apply (lastOrderNo_bound i). unfold slots. apply slots_from_In.
  split; [lia|]. rewrite Nat.sub_0_r.
  assert (Hin' : In (i, s) (slots_from 1 (tl wb))).
  { rewrite (slots_from_split 1 n (tl wb)), nth_tl, Hfree. exact Hin. }
  apply slots_from_In in Hin' as [Hle Hn]. rewrite nth_tl in Hn.
  now replace (S (i - 1)) with i in Hn by lia.
Qed.

(** ** The report sheet in closed form *)

Section ReportSheet.
Context `{Runtime}.

Lemma writeVariationRow_new name orderNo rows merges item i :
  length rows = i + 2 ->
  writeVariationRow (mkSheet name orderNo rows merges) (item, i)
  = mkSheet name orderNo (rows ++ [variationCells item]) merges.
Proof.
  intros Hlen. unfold writeVariationRow, modifyRow, withRows.
  cbn [ws_rows ws_name ws_orderNo ws_merges].
  replace (i + 3 - 1) with (length rows) by lia. rewrite update_at_end.
  do 2 f_equal. unfold variationCells, qtyCell.
  destruct (le_int (qtyActuelle item) 5); [reflexivity|].
  destruct (le_int (qtyActuelle item) 10); reflexivity.
Qed.

Lemma fold_writeVariationRow name orderNo merges items : forall rows i,
  length rows = i + 2 ->
  fold_left writeVariationRow (combine items (seq i (length items)))
            (mkSheet name orderNo rows merges)
  = mkSheet name orderNo (rows ++ map variationCells items) merges.
Proof.
  induction items as [|item items IH]; intros rows i Hlen;
    cbn [combine seq length fold_left map].
  - now rewrite app_nil_r.
  - rewrite writeVariationRow_new by assumption.
    rewrite IH by (rewrite length_app; simpl; lia).
    now rewrite <- app_assoc.
Qed.

Lemma writeVariationsSheet_fresh variations title name orderNo :
  writeVariationsSheet variations title reportHeaders (mkSheet name orderNo [] [])
  = (mkSheet name orderNo (fst (variationsReport variations title))
             (snd (variationsReport variations title)),
     Return tt).
Proof.
  destruct variations as [|item items]; [reflexivity|].
  unfold writeVariationsSheet, bind, mergeCells, modify, with_index.
  cbn [ws_merges existsb].
  change (0 <? length (item :: items)) with true. cbv beta iota.
  match goal with
  | |- (fold_left writeVariationRow _ ?s, _) = _ =>
      change s with (mkSheet name orderNo [titleRow title; headerRowOf reportHeaders]
                             [A1F1])
  end.
  rewrite fold_writeVariationRow by reflexivity. reflexivity.
Qed.

Lemma reportContent_fresh message lookback stockSheet exportDate name orderNo :
  reportContent message lookback stockSheet exportDate (mkSheet name orderNo [] [])
  = (mkSheet name orderNo
             (fst (expectedReport message lookback stockSheet exportDate))
             (snd (expectedReport message lookback stockSheet exportDate)),
     Return tt).
Proof.
  unfold reportContent, expectedReport.
  destruct (indexOf (VStr exportDate) (getHeaders stockSheet) <? lookback)%Z;
    [reflexivity|].
  cbn [orb]. destruct (isValidDate _); cbn [negb]; [|reflexivity].
  apply writeVariationsSheet_fresh.
Qed.

(** A report step that can create its sheet returns normally; the sheet
    it leaves in the new slot is the freshly computed report, and the
    other slots are those of the workbook without the sheet it removed. *)
Lemma reportStep_result prefix name message lookback wb exportDate stockId stockSheet :
  getWorksheet stockSheetName wb = Some (stockId, stockSheet) ->
  nameExists name (withoutReport prefix wb) = false ->
  let wb1 := withoutReport prefix wb in
  let report :=
    mkSheet name (lastOrderNo wb1 + 1)
            (fst (expectedReport message lookback stockSheet exportDate))
            (snd (expectedReport message lookback stockSheet exportDate)) in
  reportStep prefix name message lookback wb exportDate
  = (update_at None (fun _ => Some report) (nextId wb1) wb1, Return tt).
Proof.
  intros Hs Hn wb1 report.
  rewrite (reportStep_run _ _ _ _ _ _ _ _ Hs Hn). fold wb1.
  unfold freshSheet. now rewrite reportContent_fresh.
Qed.

End ReportSheet.

(** ** The reports (C6, C8, C10) *)

(** C6: in scenario C the header index of the seventh date is 10, six
    positions back is the first date, and the semestrial step compares
    column 11 (quantity 3) with column 5 (quantity 10): one record, with
    variation -7 and current quantity 3. The report sheet has the title
    row, the header row and one data row whose current-quantity cell has
    the fill of the critical tier. *)
Theorem semestrial_scenario_C `{Runtime} :
  indexOf (VStr "01/07/2024") (getHeaders semesterStock) = 10%Z
  /\ nth 4 (getHeaders semesterStock) VNull = VStr "01/01/2024"
  /\ getCellValue (getRow semesterStock 2) 11 = VNum (Int 3)
  /\ getCellValue (getRow semesterStock 2) 5 = VNum (Int 10)
  /\ calculateVariations semesterStock 11 5
     = [mkVariation (VStr "X1") (VStr "Vis") (VStr "A") (VStr "Atelier")
                    (Int (-7)) (VNum (Int 3))]
  /\ updateSemestrialTracking semesterTracking "01/07/2024"
     = ([None; Some semesterStock;
         Some (mkSheet "Suivi Semestriel" 2
                 [titleRow "Variation entre le 01/01/2024 et le 01/07/2024";
                  headerRowOf reportHeaders;
                  [textCell "X1"; textCell "Vis"; textCell "A"; textCell "Atelier";
                   numberCell (-7);
                   mkCell (VNum (Int 3)) (mkStyle (Some "FFFFCCCC") None None None)]]
                 [A1F1])],
        Return tt).
Proof. repeat split; vm_compute; reflexivity. Qed.

Lemma find_first {A} (p : A -> bool) l x :
  find p l = Some x ->
  exists before after,
    l = before ++ x :: after /\ forallb (fun y => negb (p y)) before = true.
Proof.
  induction l as [|y l IH]; simpl; [discriminate|].
  destruct (p y) eqn:Hy.
  - intros [= ->]. now exists [], l.
  - intros Hf. destruct (IH Hf) as (before & after & -> & Hb).
    exists (y :: before), after. simpl. now rewrite Hy, Hb.
Qed.

Section Reports_facts.
Context `{Runtime}.

Lemma reportStep_recreates prefix name message lookback wb exportDate
    stockId stockSheet :
  getWorksheet stockSheetName wb = Some (stockId, stockSheet) ->
  nameExists name (withoutReport prefix wb) = false ->
  recreatesReport (reportStep prefix name message lookback)
                  prefix name message lookback wb stockSheet exportDate.
Proof.
  intros Hs Hn. unfold recreatesReport.
  rewrite (reportStep_result _ _ _ _ _ _ _ _ Hs Hn).
  eexists _, (nextId (withoutReport prefix wb)), _.
  split; [reflexivity|].
  split; [rewrite nth_update_at_eq; reflexivity|].
  split; [reflexivity|].
  split; [cbn [ws_rows ws_merges]; now destruct (expectedReport _ _ _ _)|].
  destruct (nextId_free (withoutReport prefix wb)) as [_ Hfree].
  unfold withoutReport in *.
  destruct (findSheetByPrefix wb prefix) as [[oldId old]|] eqn:Hf.
  - split; [exact (find_first _ _ _ Hf)|]. split.
    + intros Hne. rewrite nth_update_at_neq by assumption. apply nth_update_at_eq.
    + intros id Hid Hold. rewrite !nth_update_at_neq by congruence. reflexivity.
  - split; [assumption|]. intros id Hid. now rewrite nth_update_at_neq by congruence.
Qed.

(** C8, as amended: a report step whose sheet can be created (no sheet
    left in the workbook bears the name of the report) returns normally.
    The first sheet in tab order whose name starts, case-insensitively,
    with the prefix of the report is removed; further sheets with such a
    name are left as they are. A sheet with the name of the report is
    created in a free slot, and what it holds is the freshly computed
    report: the no-data message alone, or the title row, the header row
    and either the data rows or the no-variation message. That content
    is a function of the tracking sheet and the date: no cell, style or
    merged range of an earlier sheet enters it. *)
Theorem report_recreated
    (workbook : Workbook) (exportDate : string)
    (stockId : nat) (stockSheet : Worksheet) :
  getWorksheet stockSheetName workbook = Some (stockId, stockSheet) ->
  (nameExists "Suivi Mensuel" (withoutReport "suivi mensuel" workbook) = false ->
   recreatesReport updateMonthlyTracking "suivi mensuel" "Suivi Mensuel"
                   monthlyMessage 1 workbook stockSheet exportDate)
  /\ (nameExists "Suivi Semestriel" (withoutReport "suivi semestriel" workbook) = false ->
      recreatesReport updateSemestrialTracking "suivi semestriel" "Suivi Semestriel"
                      semestrialMessage 6 workbook stockSheet exportDate).
Proof.
  intros Hs. split; intros Hn.
  - generalize (reportStep_recreates _ _ monthlyMessage 1 _ exportDate _ _ Hs Hn).
    unfold recreatesReport. now rewrite updateMonthlyTracking_step.
  - generalize (reportStep_recreates _ _ semestrialMessage 6 _ exportDate _ _ Hs Hn).
    unfold recreatesReport. now rewrite updateSemestrialTracking_step.
Qed.

(** When a sheet with the name of the report is left after the removal,
    the step throws once the first match is removed. *)
Lemma reportStep_name_clash prefix name message lookback wb exportDate :
  nameExists name (withoutReport prefix wb) = true ->
  reportStep prefix name message lookback wb exportDate
  = (withoutReport prefix wb,
     Throw (Error ("Worksheet name already exists: " ++ name)%string)).
Proof.
  intros Hn. unfold reportStep, bind, gets.
  now rewrite recreateSheet_clash by assumption.
Qed.

Lemma reportStep_tab_order prefix name message lookback wb exportDate
    stockId stockSheet oldId old :
  getWorksheet stockSheetName wb = Some (stockId, stockSheet) ->
  findSheetByPrefix wb prefix = Some (oldId, old) ->
  nameExists name (withoutReport prefix wb) = false ->
  exists wb' newId report,
    reportStep prefix name message lookback wb exportDate = (wb', Return tt)
    /\ ws_name report = name
    /\ worksheets wb' = filter (idIsNot oldId) (worksheets wb) ++ [(newId, report)].
Proof.
  intros Hs Hf Hn. rewrite (reportStep_result _ _ _ _ _ _ _ _ Hs Hn).
  eexists _, (nextId (withoutReport prefix wb)),
    (mkSheet name (lastOrderNo (withoutReport prefix wb) + 1)
             (fst (expectedReport message lookback stockSheet exportDate))
             (snd (expectedReport message lookback stockSheet exportDate))).
  split; [reflexivity|]. split; [reflexivity|].
  destruct (nextId_free (withoutReport prefix wb)) as [Hid Hfree].
  rewrite worksheets_add by (try assumption; cbn [ws_orderNo]; lia).
  unfold withoutReport. rewrite Hf.
  apply findSheetByPrefix_slot in Hf as (Hold & _).
  now rewrite worksheets_remove.
Qed.

(** C10: when a report step replaces an existing sheet, the tab order
    afterwards is the old tab order without the removed sheet, followed
    by the new sheet: the new sheet is last, whatever the position of the
    sheet it replaces. *)
Theorem replaced_report_goes_last
    (workbook : Workbook) (exportDate : string)
    (stockId : nat) (stockSheet : Worksheet) :
  getWorksheet stockSheetName workbook = Some (stockId, stockSheet) ->
  (forall oldId old,
   findSheetByPrefix workbook "suivi mensuel" = Some (oldId, old) ->
   nameExists "Suivi Mensuel" (withoutReport "suivi mensuel" workbook) = false ->
   exists workbook' newId report,
     updateMonthlyTracking workbook exportDate = (workbook', Return tt)
     /\ ws_name report = "Suivi Mensuel"
     /\ worksheets workbook'
        = filter (idIsNot oldId) (worksheets workbook) ++ [(newId, report)])
  /\ (forall oldId old,
      findSheetByPrefix workbook "suivi semestriel" = Some (oldId, old) ->
      nameExists "Suivi Semestriel" (withoutReport "suivi semestriel" workbook) = false ->
      exists workbook' newId report,
        updateSemestrialTracking workbook exportDate = (workbook', Return tt)
        /\ ws_name report = "Suivi Semestriel"
        /\ worksheets workbook'
           = filter (idIsNot oldId) (worksheets workbook) ++ [(newId, report)]).
Proof.
  intros Hs. split; intros oldId old Hf Hn.
  - rewrite updateMonthlyTracking_step.
    now apply (reportStep_tab_order _ _ _ _ _ _ stockId stockSheet oldId old).
  - rewrite updateSemestrialTracking_step.
    now apply (reportStep_tab_order _ _ _ _ _ _ stockId stockSheet oldId old).
Qed.

End Reports_facts.

(** C8 as stated fails when two sheets have a name starting with the
    prefix: the monthly step on [twoReports] returns normally and the
    second of them is still in its slot, with the cells of the earlier run. *)
Lemma stale_report_survives :
  snd (@updateMonthlyTracking sampleRuntime twoReports "01/07/2024") = Return tt
  /\ ~ staleReportsGone "suivi mensuel" twoReports
         (fst (@updateMonthlyTracking sampleRuntime twoReports "01/07/2024")).
Proof.
  split; [reflexivity|]. intros Hgone.
  apply (Hgone 3 copyMonthly); reflexivity.
Qed.

(** ** The properties at the sample workbooks *)

Lemma variation_computation_witness :
  1 <= 11 /\ 1 <= 5
  /\ @calculateVariations sampleRuntime semesterStock 11 5
     = [mkVariation (VStr "X1") (VStr "Vis") (VStr "A") (VStr "Atelier")
                    (Int (-7)) (VNum (Int 3))].
Proof.
  split; [lia|]. split; [lia|].
  destruct (@variation_computation sampleRuntime semesterStock 11 5
              ltac:(lia) ltac:(lia)) as [Hclosed _].
  rewrite Hclosed. reflexivity.
Defined.



Lemma report_recreated_witness :
  getWorksheet stockSheetName twoReports = Some (1, semesterStock)
  /\ nameExists "Suivi Mensuel" (withoutReport "suivi mensuel" twoReports) = false
  /\ nameExists "Suivi Semestriel" (withoutReport "suivi semestriel" twoReports) = false
  /\ @recreatesReport sampleRuntime (@updateMonthlyTracking sampleRuntime)
        "suivi mensuel" "Suivi Mensuel" monthlyMessage 1
        twoReports semesterStock "01/07/2024"
  /\ @recreatesReport sampleRuntime (@updateSemestrialTracking sampleRuntime)
        "suivi semestriel" "Suivi Semestriel" semestrialMessage 6
        twoReports semesterStock "01/07/2024".
Proof.
  destruct (@report_recreated sampleRuntime twoReports "01/07/2024" 1 semesterStock
              eq_refl) as [Hmonth Hsem].
  repeat (split; [reflexivity |]). split; [exact (Hmonth eq_refl) | exact (Hsem eq_refl)].
Defined.

Lemma replaced_report_goes_last_witness :
  getWorksheet stockSheetName twoReports = Some (1, semesterStock)
  /\ findSheetByPrefix twoReports "suivi mensuel" = Some (2, oldMonthly)
  /\ findSheetByPrefix twoReports "suivi semestriel" = Some (5, oldSemestrial)
  /\ map fst (worksheets twoReports) = [1; 2; 3; 4; 5]
  /\ map fst (worksheets (fst (@updateMonthlyTracking sampleRuntime twoReports
                                 "01/07/2024")))
     = [1; 3; 4; 5; 2]
  /\ exists workbook' newId report,
       @updateSemestrialTracking sampleRuntime twoReports "01/07/2024"
       = (workbook', Return tt)
       /\ worksheets workbook'
          = filter (idIsNot 5) (worksheets twoReports) ++ [(newId, report)].
Proof.
  destruct (@replaced_report_goes_last sampleRuntime twoReports "01/07/2024"
              1 semesterStock eq_refl) as [Hmonth Hsem].
  do 5 (split; [reflexivity |]).
  destruct (Hmonth 2 oldMonthly eq_refl eq_refl) as (_ & _ & _ & _ & _ & _).
  destruct (Hsem 5 oldSemestrial eq_refl eq_refl)
    as (wb' & newId & report & Hrun & _ & Hord).
  now exists wb', newId, report.
Defined.

(** ** The calendar *)

Lemma DayFromYear_succ y :
  DayFromYear (y + 1) = (DayFromYear y + 365 + leapDay y)%Z.
Proof.
  unfold DayFromYear, leapDay, InLeapYear.
  destruct (Z.eqb_spec (y mod 4) 0); destruct (Z.eqb_spec (y mod 100) 0);
    destruct (Z.eqb_spec (y mod 400) 0); cbn [andb orb negb];
    Z.div_mod_to_equations; lia.
Qed.

Lemma YearFromDay_spec day y :
  (DayFromYear y <= day < DayFromYear (y + 1))%Z -> YearFromDay day = y.
Proof.
  intros Hday. unfold YearFromDay.
  set (est := (1970 + 400 * day / 146097)%Z).
  assert (Hest : (y - 1 <= est <= y + 1)%Z).
  { unfold est, DayFromYear in *. Z.div_mod_to_equations. lia. }
  assert (Hmono : forall a b, (a <= b)%Z -> (DayFromYear a <= DayFromYear b)%Z).
  { intros a b Hab. unfold DayFromYear. Z.div_mod_to_equations. lia. }
  assert (Hcase : est = (y - 1)%Z \/ est = y \/ est = (y + 1)%Z) by lia.
  destruct Hcase as [E | [E | E]]; rewrite E.
  - replace (y - 1 + 1)%Z with y by lia.
    pose proof (Hmono (y - 1)%Z y ltac:(lia)).
    destruct (Z.ltb_spec day (DayFromYear (y - 1))); [lia|].
    destruct (Z.leb_spec (DayFromYear y) day); lia.
  - destruct (Z.ltb_spec day (DayFromYear y)); [lia|].
    destruct (Z.leb_spec (DayFromYear (y + 1)) day); lia.
  - destruct (Z.ltb_spec day (DayFromYear (y + 1))); lia.
Qed.

(** A day of the calendar is read back as it was given. *)
Lemma civil_of_day Y mn D :
  (0 <= mn <= 11)%Z -> (1 <= D <= daysInMonth Y mn)%Z ->
  let day := (DayFromYear Y + monthStart mn (leapDay Y) + D - 1)%Z in
  YearFromDay day = Y /\ MonthFromDay day = mn /\ DateFromDay day = D.
Proof.
  intros Hmn HD day.
  assert (HL : leapDay Y = 0%Z \/ leapDay Y = 1%Z)
    by (unfold leapDay; destruct (InLeapYear Y); auto).
  assert (Hy : YearFromDay day = Y).
  { apply YearFromDay_spec. rewrite DayFromYear_succ. unfold day.
    assert (Hc : (mn = 0 \/ mn = 1 \/ mn = 2 \/ mn = 3 \/ mn = 4 \/ mn = 5 \/ mn = 6
                 \/ mn = 7 \/ mn = 8 \/ mn = 9 \/ mn = 10 \/ mn = 11)%Z) by lia.
    repeat (destruct Hc as [-> | Hc]); try subst mn;
      cbn [monthStart daysInMonth] in *; lia. }
  unfold DateFromDay, MonthFromDay, DayWithinYear. rewrite Hy.
  replace (day - DayFromYear Y)%Z with (monthStart mn (leapDay Y) + D - 1)%Z
    by (unfold day; lia).
  split; [reflexivity|].
  assert (Hc : (mn = 0 \/ mn = 1 \/ mn = 2 \/ mn = 3 \/ mn = 4 \/ mn = 5 \/ mn = 6
                 \/ mn = 7 \/ mn = 8 \/ mn = 9 \/ mn = 10 \/ mn = 11)%Z) by lia.
  repeat (destruct Hc as [-> | Hc]); try subst mn;
    cbn [monthStart daysInMonth] in *;
    repeat match goal with
           | |- context [(?a <? ?b)%Z] => destruct (Z.ltb_spec a b); try lia
           end;
    cbn [monthStart]; split; lia.
Qed.

Lemma newDate_fields year month day :
  (1 <= month <= 12)%Z ->
  (1 <= day <= daysInMonth (centuryShift year) (month - 1))%Z ->
  let date := newDate year (month - 1) day in
  getFullYear date = centuryShift year
  /\ getMonth date = (month - 1)%Z
  /\ getDate date = day.
Proof.
  intros Hm Hd. unfold newDate, MakeDay, getFullYear, getMonth, getDate.
  fold (centuryShift year).
  replace ((month - 1) / 12)%Z with 0%Z by (Z.div_mod_to_equations; lia).
  replace ((month - 1) mod 12)%Z with (month - 1)%Z by (Z.div_mod_to_equations; lia).
  rewrite Z.add_0_r. apply civil_of_day; [lia | assumption].
Qed.

Lemma is_digit_decimal c : is_digit c = isDecimalDigit c.
Proof. destruct c as [[] [] [] [] [] [] [] []]; reflexivity. Qed.

Lemma allDigits_is_digit s : allDigits s = forallb is_digit (list_ascii_of_string s).
Proof.
  unfold allDigits. induction (list_ascii_of_string s) as [|c l IH]; cbn [forallb];
    [reflexivity|]. now rewrite IH, is_digit_decimal.
Qed.

Lemma string_length_4 s : String.length s = 4 ->
  exists a b c d, s = String a (String b (String c (String d ""))).
Proof.
  destruct s as [|a [|b [|c [|d [|e s]]]]]; try discriminate. intros _. now exists a, b, c, d.
Qed.

Lemma string_length_2 s : String.length s = 2 ->
  exists a b, s = String a (String b "").
Proof.
  destruct s as [|a [|b [|c s]]]; try discriminate. intros _. now exists a, b.
Qed.

Lemma is_digit_slash : is_digit "/" = false. Proof. reflexivity. Qed.
Lemma is_digit_dash : is_digit "-" = false. Proof. reflexivity. Qed.

Lemma parseDate_groups s y m d :
  parseDate s = Return (y, m, d) <->
  (String.length y = 4 /\ String.length m = 2 /\ String.length d = 2
   /\ allDigits y = true /\ allDigits m = true /\ allDigits d = true
   /\ (s = isoString y m d \/ s = frString y m d)).
Proof.
  split.
  - unfold parseDate. pose proof (string_of_list_ascii_of_string s) as Hs.
    destruct (list_ascii_of_string s) as [|c0 [|c1 [|c2 [|c3 [|c4 [|c5 [|c6 [|c7 [|c8 [|c9 [|c10 l]]]]]]]]]]];
      try discriminate.
    destruct (forallb is_digit [c0; c1; c2; c3; c5; c6; c8; c9] && Ascii.eqb c4 "-" && Ascii.eqb c7 "-") eqn:Hiso.
    + intros [= <- <- <-].
      apply andb_prop in Hiso as [Hiso H7]. apply andb_prop in Hiso as [Hd H4].
      apply Ascii.eqb_eq in H4, H7. subst c4 c7.
      cbn [forallb] in Hd. repeat (apply andb_prop in Hd as [? Hd]).
      rewrite !allDigits_is_digit. cbn in *.
      repeat match goal with H : is_digit _ = true |- _ => rewrite H; clear H end.
      repeat split; auto.
    + destruct (forallb is_digit [c0; c1; c3; c4; c6; c7; c8; c9] && Ascii.eqb c2 "/" && Ascii.eqb c5 "/") eqn:Hfr;
        [|discriminate].
      intros [= <- <- <-].
      apply andb_prop in Hfr as [Hfr H7]. apply andb_prop in Hfr as [Hd H4].
      apply Ascii.eqb_eq in H4, H7. subst c2 c5.
      cbn [forallb] in Hd. repeat (apply andb_prop in Hd as [? Hd]).
      rewrite !allDigits_is_digit. cbn in *.
      repeat match goal with H : is_digit _ = true |- _ => rewrite H; clear H end.
      repeat split; auto.
  - intros (Hy & Hm & Hd & Dy & Dm & Dd & Hs).
    apply string_length_4 in Hy as (y0 & y1 & y2 & y3 & ->).
    apply string_length_2 in Hm as (m0 & m1 & ->).
    apply string_length_2 in Hd as (d0 & d1 & ->).
    rewrite allDigits_is_digit in Dy, Dm, Dd.
    cbn [list_ascii_of_string forallb] in *.
    repeat match goal with
           | H : _ && _ = true |- _ => apply andb_prop in H as [? ?]
           end.
    destruct Hs as [-> | ->]; unfold parseDate; cbn [isoString frString String.append list_ascii_of_string].
    + cbn [forallb].
      repeat match goal with H : is_digit _ = true |- _ => rewrite H end.
      reflexivity.
    + cbn [forallb].
      repeat match goal with H : is_digit _ = true |- _ => rewrite H end.
      rewrite is_digit_slash. reflexivity.
Qed.

Lemma isGroups_spec y m d :
  isGroups y m d = true <->
  (String.length y = 4 /\ String.length m = 2 /\ String.length d = 2
   /\ allDigits y = true /\ allDigits m = true /\ allDigits d = true).
Proof.
  unfold isGroups. rewrite !andb_true_iff, !Nat.eqb_eq. tauto.
Qed.

Lemma YearFromDay_correct day :
  (DayFromYear (YearFromDay day) <= day < DayFromYear (YearFromDay day + 1))%Z.
Proof.
  unfold YearFromDay.
  set (est := (1970 + 400 * day / 146097)%Z).
  assert (Hlo : (DayFromYear (est - 1) <= day)%Z)
    by (unfold DayFromYear, est; Z.div_mod_to_equations; lia).
  assert (Hhi : (day < DayFromYear (est + 1 + 1))%Z)
    by (unfold DayFromYear, est; Z.div_mod_to_equations; lia).
  destruct (Z.ltb_spec day (DayFromYear est)).
  - replace (est - 1 + 1)%Z with est by lia. lia.
  - destruct (Z.leb_spec (DayFromYear (est + 1)) day); lia.
Qed.

(** *** Digits *)

Lemma is_digit_cases c :
  is_digit c = true ->
  c = "0"%char \/ c = "1"%char \/ c = "2"%char \/ c = "3"%char \/ c = "4"%char
  \/ c = "5"%char \/ c = "6"%char \/ c = "7"%char \/ c = "8"%char \/ c = "9"%char.
Proof.
  destruct c as [[] [] [] [] [] [] [] []]; vm_compute; intros Hc;
    try discriminate Hc; auto 11.
Qed.

Lemma uint_of_digit c o :
  is_digit c = true -> forall u, o = Some u ->
  exists u', uint_of_char c o = Some u'
             /\ (c <> "0"%char -> Decimal.unorm u' = u').
Proof.
  intros Hc u ->.
  destruct (is_digit_cases c Hc) as [-> | [-> | [-> | [-> | [-> | [-> | [-> | [-> | [-> | ->]]]]]]]]];
    cbn [uint_of_char]; eexists; (split; [reflexivity|]); intros Hz;
    try reflexivity; now elim Hz.
Qed.

Lemma digits_uint s :
  forallb is_digit (list_ascii_of_string s) = true ->
  exists u, NilEmpty.uint_of_string s = Some u.
Proof.
  induction s as [|c s IH]; cbn [list_ascii_of_string forallb].
  - now exists Decimal.Nil.
  - intros Hs. apply andb_prop in Hs as [Hc Hs]. destruct (IH Hs) as [u Hu].
    cbn [NilEmpty.uint_of_string].
    destruct (uint_of_digit c _ Hc u Hu) as (u' & Hu' & _). now exists u'.
Qed.

(** A string of digits that does not start with 0 is the decimal writing
    of its number. *)
Lemma number_to_string_digits c s :
  allDigits (String c s) = true -> c <> "0"%char ->
  number_to_string (Int (digitsToNumber (String c s))) = String c s.
Proof.
  rewrite allDigits_is_digit. cbn [list_ascii_of_string forallb]. intros Hs Hc.
  apply andb_prop in Hs as [Hd Hs].
  destruct (digits_uint s Hs) as [u Hu].
  destruct (uint_of_digit c _ Hd u Hu) as (u' & Hu' & Hnorm).
  assert (Hparse : NilZero.uint_of_string (String c s) = Some u')
    by (cbn [NilZero.uint_of_string NilEmpty.uint_of_string]; exact Hu').
  unfold digitsToNumber, number_to_string. rewrite Hparse.
  change (Z.of_uint u') with (Z.of_int (Decimal.Pos u')).
  rewrite DecimalZ.to_of. cbn [Decimal.norm].
  rewrite (Hnorm Hc).
  cbn [NilZero.string_of_int]. apply NilZero.sus. exact Hparse.
Qed.

(** Two digits are given back by the padded writing of their number. *)
Lemma padStart2_digits a b :
  is_digit a = true -> is_digit b = true ->
  padStart2 (number_to_string (Int (digitsToNumber (String a (String b "")))))
  = String a (String b "").
Proof.
  intros Ha Hb.
  destruct (is_digit_cases a Ha) as [-> | [-> | [-> | [-> | [-> | [-> | [-> | [-> | [-> | ->]]]]]]]]];
    destruct (is_digit_cases b Hb) as [-> | [-> | [-> | [-> | [-> | [-> | [-> | [-> | [-> | ->]]]]]]]]];
    reflexivity.
Qed.

Lemma small_number_short n :
  (0 <= n <= 99)%Z -> String.length (number_to_string (Int n)) <= 2.
Proof.
  intros Hn. rewrite <- (Z2Nat.id n) by lia.
  assert (Hk : Z.to_nat n < 100) by lia.
  generalize dependent (Z.to_nat n). clear. intros k Hk.
  do 100 (destruct k as [|k]; [vm_compute; lia|]). lia.
Qed.

Lemma centuryShift_digits c s :
  allDigits (String c s) = true -> c <> "0"%char -> 3 <= String.length (String c s) ->
  centuryShift (digitsToNumber (String c s)) = digitsToNumber (String c s).
Proof.
  intros Hs Hc Hlen. unfold centuryShift.
  destruct ((0 <=? digitsToNumber (String c s)) && (digitsToNumber (String c s) <=? 99))%Z
    eqn:Hsmall; [|reflexivity].
  apply andb_prop in Hsmall as [H0 H99]. apply Z.leb_le in H0, H99.
  pose proof (small_number_short _ (conj H0 H99)) as Hshort.
  rewrite (number_to_string_digits c s Hs Hc) in Hshort. lia.
Qed.

(** *** The label of the export date *)

Lemma exportDateFormatted_iso y m d :
  isGroups y m d = true ->
  exportDateFormatted (VStr (isoString y m d))
  = Return (formatDate (dateOfGroups (y, m, d)) "DD/MM/YYYY").
Proof.
  intros Hg. apply isGroups_spec in Hg.
  assert (Hp : parseDate (isoString y m d) = Return (y, m, d))
    by (apply parseDate_groups; intuition).
  unfold exportDateFormatted. now rewrite Hp.
Qed.

Lemma exportDateFormatted_fr y m d :
  isGroups y m d = true ->
  exportDateFormatted (VStr (frString y m d))
  = Return (formatDate (dateOfGroups (y, m, d)) "DD/MM/YYYY").
Proof.
  intros Hg. apply isGroups_spec in Hg.
  assert (Hp : parseDate (frString y m d) = Return (y, m, d))
    by (apply parseDate_groups; intuition).
  unfold exportDateFormatted. now rewrite Hp.
Qed.

Lemma formatDate_fields year month day :
  (1 <= month <= 12)%Z ->
  (1 <= day <= daysInMonth (centuryShift year) (month - 1))%Z ->
  formatDate (newDate year (month - 1) day) "DD/MM/YYYY"
  = frString (number_to_string (Int (centuryShift year)))
             (padStart2 (number_to_string (Int month)))
             (padStart2 (number_to_string (Int day))).
Proof.
  intros Hm Hd. destruct (newDate_fields year month day Hm Hd) as (Hy & Hmo & Hda).
  unfold formatDate. rewrite Hy, Hmo, Hda.
  replace (month - 1 + 1)%Z with month by lia. reflexivity.
Qed.

Lemma groups_shape y m d :
  isGroups y m d = true ->
  exists y0 y1 y2 y3 m0 m1 d0 d1,
    y = String y0 (String y1 (String y2 (String y3 "")))
    /\ m = String m0 (String m1 "") /\ d = String d0 (String d1 "")
    /\ is_digit m0 = true /\ is_digit m1 = true
    /\ is_digit d0 = true /\ is_digit d1 = true.
Proof.
  intros Hg. apply isGroups_spec in Hg as (Hy & Hm & Hd & _ & Dm & Dd).
  apply string_length_4 in Hy as (y0 & y1 & y2 & y3 & ->).
  apply string_length_2 in Hm as (m0 & m1 & ->).
  apply string_length_2 in Hd as (d0 & d1 & ->).
  rewrite allDigits_is_digit in Dm, Dd. cbn [list_ascii_of_string forallb] in *.
  repeat match goal with
         | H : _ && _ = true |- _ => apply andb_prop in H as [? ?]
         end.
  exists y0, y1, y2, y3, m0, m1, d0, d1. repeat split; assumption.
Qed.

Lemma label_of_groups y m d :
  isGroups y m d = true ->
  let year := centuryShift (digitsToNumber y) in
  (1 <= digitsToNumber m <= 12)%Z ->
  (1 <= digitsToNumber d <= daysInMonth year (digitsToNumber m - 1))%Z ->
  formatDate (dateOfGroups (y, m, d)) "DD/MM/YYYY"
  = frString (number_to_string (Int year)) m d.
Proof.
  intros Hg year Hm Hd. unfold dateOfGroups.
  rewrite (formatDate_fields _ _ _ Hm Hd).
  destruct (groups_shape y m d Hg)
    as (y0 & y1 & y2 & y3 & m0 & m1 & d0 & d1 & -> & -> & -> & Hm0 & Hm1 & Hd0 & Hd1).
  now rewrite !padStart2_digits.
Qed.

Lemma monthStart_succ year month :
  (0 <= month <= 10)%Z ->
  monthStart (month + 1) (leapDay year)
  = (monthStart month (leapDay year) + daysInMonth year month)%Z.
Proof.
  intros Hm.
  assert (Hc : (month = 0 \/ month = 1 \/ month = 2 \/ month = 3 \/ month = 4
                \/ month = 5 \/ month = 6 \/ month = 7 \/ month = 8 \/ month = 9
                \/ month = 10)%Z) by lia.
  unfold daysInMonth. generalize (leapDay year). intros leap.
  repeat (destruct Hc as [-> | Hc]); try subst month;
    match goal with
    | |- context [monthStart (?a + 1)%Z _] =>
        let v := eval compute in (a + 1)%Z in change (a + 1)%Z with v
    end; cbn [monthStart]; lia.
Qed.

Lemma daysInMonth_bounds year month : (28 <= daysInMonth year month <= 31)%Z.
Proof.
  unfold daysInMonth, leapDay.
  destruct month as [|[[[|[]|]|[[]|[]|]|]|[[[]|[]|]|[[]|[]|]|]|]|]; destruct (InLeapYear year); lia.
Qed.

(** X1: [parseDate] accepts exactly the strings [YYYY-MM-DD] and
    [DD/MM/YYYY] made of a four-digit year, a two-digit month and a
    two-digit day, and hands these three groups to the [Date] it builds;
    every other string is refused by the error that names the string. The
    digits are not checked against the calendar. *)
Theorem parseDate_accepts_two_spellings (dateStr year month day : string) :
  (parseDate dateStr = Return (year, month, day)
   <-> isGroups year month day = true
       /\ (dateStr = isoString year month day \/ dateStr = frString year month day))
  /\ ((forall groups, parseDate dateStr <> Return groups)
      <-> parseDate dateStr
          = Throw (Error ("Format de date invalide: " ++ dateStr
                          ++ ". Utilisez DD/MM/YYYY ou YYYY-MM-DD")%string)).
Proof.
  split.
  - rewrite parseDate_groups, isGroups_spec. tauto.
  - split.
    + intros Hno. unfold parseDate in *.
      destruct (list_ascii_of_string dateStr)
        as [|c0 [|c1 [|c2 [|c3 [|c4 [|c5 [|c6 [|c7 [|c8 [|c9 [|c10 l]]]]]]]]]]];
        try reflexivity.
      destruct (forallb is_digit [c0; c1; c2; c3; c5; c6; c8; c9]
                && Ascii.eqb c4 "-" && Ascii.eqb c7 "-");
        [now elim (Hno _ eq_refl)|].
      destruct (forallb is_digit [c0; c1; c3; c4; c6; c7; c8; c9]
                && Ascii.eqb c2 "/" && Ascii.eqb c5 "/");
        [now elim (Hno _ eq_refl)|reflexivity].
    + intros Hthrow groups Hret. rewrite Hret in Hthrow. discriminate Hthrow.
Qed.

(** X2: [isValidDate] is true exactly for the strings of one of the two
    shapes; it is a test of the shape, never of the calendar, and a label
    that is not a string is not a date. *)
Theorem isValidDate_tests_the_shape (label : value) :
  isValidDate label = true
  <-> exists year month day,
        isGroups year month day = true
        /\ (label = VStr (isoString year month day)
            \/ label = VStr (frString year month day)).
Proof.
  split.
  - destruct label as [|s|n]; cbn [isValidDate]; try discriminate.
    destruct (parseDate s) as [[[y m] d]|e] eqn:Hp; [intros _|discriminate].
    apply parseDate_groups in Hp. exists y, m, d.
    rewrite isGroups_spec. intuition (subst; auto).
  - intros (y & m & d & Hg & Hs). apply isGroups_spec in Hg.
    assert (Hp : exists s, label = VStr s /\ parseDate s = Return (y, m, d)).
    { destruct Hs as [-> | ->]; eexists; (split; [reflexivity|]);
        apply parseDate_groups; intuition. }
    destruct Hp as (s & -> & Hp). cbn [isValidDate]. now rewrite Hp.
Qed.

Lemma both_spellings_same year month day :
  isGroups year month day = true ->
  exportDateFormatted (VStr (isoString year month day))
  = Return (formatDate (dateOfGroups (year, month, day)) "DD/MM/YYYY")
  /\ exportDateFormatted (VStr (frString year month day))
     = Return (formatDate (dateOfGroups (year, month, day)) "DD/MM/YYYY").
Proof.
  intros Hg. now rewrite exportDateFormatted_fr, exportDateFormatted_iso.
Qed.

(** X3: the two spellings of the same groups give the same column label:
    [processStockTracking] never fails on a string of one of the two
    shapes, and labels the column the same way whichever spelling the
    request used. *)
Theorem both_spellings_one_label (year month day : string) :
  isGroups year month day = true ->
  exists label,
    exportDateFormatted (VStr (isoString year month day)) = Return label
    /\ exportDateFormatted (VStr (frString year month day)) = Return label.
Proof.
  intros Hg. eexists. rewrite exportDateFormatted_fr, exportDateFormatted_iso by assumption.
  split; reflexivity.
Qed.

Lemma both_spellings_one_label_witness :
  exists label,
    exportDateFormatted (VStr "2024-01-15") = Return label
    /\ exportDateFormatted (VStr "15/01/2024") = Return label.
Proof. exact (both_spellings_one_label "2024" "01" "15" eq_refl). Defined.

Lemma century_year a b :
  is_digit a = true -> is_digit b = true ->
  let year := String "0" (String "0" (String a (String b ""))) in
  centuryShift (digitsToNumber year) = (1900 + digitsToNumber year)%Z
  /\ number_to_string (Int (1900 + digitsToNumber year))
     = String "1" (String "9" (String a (String b ""))).
Proof.
  intros Ha Hb.
  destruct (is_digit_cases a Ha) as [-> | [-> | [-> | [-> | [-> | [-> | [-> | [-> | [-> | ->]]]]]]]]];
    destruct (is_digit_cases b Hb) as [-> | [-> | [-> | [-> | [-> | [-> | [-> | [-> | [-> | ->]]]]]]]]];
    split; reflexivity.
Qed.

(** X4: a year written with two leading zeros is taken as a year of the
    twentieth century, as [new Date(year, ...)] does for the years 0 to 99:
    for a day of the calendar of the year 1900 + year, the label keeps the
    digits of the day and of the month and names the year 19xx. *)
Theorem two_digit_year_is_1900s (a b : ascii) (month day : string) :
  let year := String "0" (String "0" (String a (String b ""))) in
  isGroups year month day = true ->
  (1 <= digitsToNumber month <= 12)%Z ->
  (1 <= digitsToNumber day
   <= daysInMonth (1900 + digitsToNumber year) (digitsToNumber month - 1))%Z ->
  let label := frString (String "1" (String "9" (String a (String b "")))) month day in
  exportDateFormatted (VStr (isoString year month day)) = Return label
  /\ exportDateFormatted (VStr (frString year month day)) = Return label.
Proof.
  intros year Hg Hm Hd label.
  assert (Hab : is_digit a = true /\ is_digit b = true).
  { pose proof Hg as Hy. apply isGroups_spec in Hy as (_ & _ & _ & Hy & _).
    rewrite allDigits_is_digit in Hy. unfold year in Hy.
    cbn [list_ascii_of_string forallb] in Hy.
    repeat match goal with
           | H : _ && _ = true |- _ => apply andb_prop in H as [? ?]
           end.
    now split. }
  destruct (century_year a b (proj1 Hab) (proj2 Hab)) as [Hshift Hstr]. fold year in Hshift, Hstr.
  rewrite exportDateFormatted_fr, exportDateFormatted_iso by assumption.
  rewrite label_of_groups; rewrite ?Hshift; try assumption.
  rewrite Hstr. split; reflexivity.
Qed.

Lemma two_digit_year_is_1900s_witness :
  exportDateFormatted (VStr "0024-02-29") = Return "29/02/1924"
  /\ exportDateFormatted (VStr "29/02/0024") = Return "29/02/1924".
Proof.
  apply (two_digit_year_is_1900s "2" "4" "02" "29"); vm_compute; try reflexivity;
    split; discriminate.
Defined.

(** X5: for a day of the calendar whose year does not start with 0 the
    label is the [DD/MM/YYYY] spelling of that day; the label is itself
    accepted as a date and is its own label, so that a column label read
    back from a sheet names the same column. *)
Theorem label_is_its_own_label (c : ascii) (rest month day : string) :
  let year := String c rest in
  isGroups year month day = true ->
  c <> "0"%char ->
  (1 <= digitsToNumber month <= 12)%Z ->
  (1 <= digitsToNumber day
   <= daysInMonth (digitsToNumber year) (digitsToNumber month - 1))%Z ->
  let label := frString year month day in
  exportDateFormatted (VStr (isoString year month day)) = Return label
  /\ exportDateFormatted (VStr label) = Return label
  /\ isValidDate (VStr label) = true.
Proof.
  intros year Hg Hc Hm Hd label.
  pose proof Hg as Hg'. apply isGroups_spec in Hg' as (Hlen & _ & _ & Hy & _ & _).
  assert (Hshift : centuryShift (digitsToNumber year) = digitsToNumber year)
    by (apply centuryShift_digits; [assumption | assumption | unfold year in Hlen; lia]).
  assert (Hstr : number_to_string (Int (digitsToNumber year)) = year)
    by (apply number_to_string_digits; assumption).
  assert (Hlabel : formatDate (dateOfGroups (year, month, day)) "DD/MM/YYYY" = label).
  { rewrite label_of_groups; rewrite ?Hshift; try assumption. now rewrite Hstr. }
  rewrite exportDateFormatted_iso by assumption.
  unfold label at 2. rewrite exportDateFormatted_fr by assumption.
  rewrite Hlabel. repeat split.
  unfold label. cbn [isValidDate].
  assert (Hp : parseDate (frString year month day) = Return (year, month, day))
    by (apply parseDate_groups; apply isGroups_spec in Hg; intuition).
  now rewrite Hp.
Qed.

Lemma label_is_its_own_label_witness :
  exportDateFormatted (VStr "2024-02-29") = Return "29/02/2024"
  /\ exportDateFormatted (VStr "29/02/2024") = Return "29/02/2024"
  /\ isValidDate (VStr "29/02/2024") = true.
Proof.
  apply (label_is_its_own_label "2" "024" "02" "29");
    [reflexivity | discriminate | vm_compute; split; discriminate
     | vm_compute; split; discriminate].
Defined.

Lemma rollover_label year month day k :
  isGroups year month day = true ->
  let y := centuryShift (digitsToNumber year) in
  let m := digitsToNumber month in
  (1 <= m <= 11)%Z ->
  digitsToNumber day = (daysInMonth y (m - 1) + k)%Z ->
  (1 <= k <= daysInMonth y m)%Z ->
  exportDateFormatted (VStr (isoString year month day))
  = Return (frString (number_to_string (Int y))
                     (padStart2 (number_to_string (Int (m + 1))))
                     (padStart2 (number_to_string (Int k)))).
Proof.
  intros Hg y m Hm Hday Hk.
  rewrite exportDateFormatted_iso by assumption.
  unfold dateOfGroups. fold m. rewrite Hday.
  assert (Hroll : newDate (digitsToNumber year) (m - 1) (daysInMonth y (m - 1) + k)
                  = newDate (digitsToNumber year) (m + 1 - 1) k).
  { unfold newDate, MakeDay. fold (centuryShift (digitsToNumber year)). fold y.
    replace ((m - 1) / 12)%Z with 0%Z by (Z.div_mod_to_equations; lia).
    replace ((m - 1) mod 12)%Z with (m - 1)%Z by (Z.div_mod_to_equations; lia).
    replace ((m + 1 - 1) / 12)%Z with 0%Z by (Z.div_mod_to_equations; lia).
    replace ((m + 1 - 1) mod 12)%Z with (m - 1 + 1)%Z by (Z.div_mod_to_equations; lia).
    rewrite Z.add_0_r, monthStart_succ by lia. lia. }
  rewrite Hroll. f_equal. apply formatDate_fields; [lia|].
  replace (m + 1 - 1)%Z with m by lia. exact Hk.
Qed.

(** X6: a day past the end of its month is not refused: it is taken as a
    day of the next month. For a year that does not start with 0 and a
    month before December, the day [k] days past the end of the month is
    accepted as a date, and its label is the [DD/MM/YYYY] spelling of day
    [k] of the following month. *)
Theorem day_past_month_end_rolls_over
    (c : ascii) (rest month day month' day' : string) :
  let year := String c rest in
  isGroups year month day = true ->
  isGroups year month' day' = true ->
  c <> "0"%char ->
  let y := digitsToNumber year in
  let m := digitsToNumber month in
  (1 <= m <= 11)%Z ->
  digitsToNumber month' = (m + 1)%Z ->
  (1 <= digitsToNumber day' <= daysInMonth y m)%Z ->
  digitsToNumber day = (daysInMonth y (m - 1) + digitsToNumber day')%Z ->
  isValidDate (VStr (isoString year month day)) = true
  /\ exportDateFormatted (VStr (isoString year month day))
     = Return (frString year month' day').
Proof.
  intros year Hg Hg' Hc y m Hm Hm' Hd' Hd.
  pose proof Hg as Hy. apply isGroups_spec in Hy as (Hlen & _ & _ & Hy & _ & _).
  assert (Hshift : centuryShift (digitsToNumber year) = y)
    by (apply centuryShift_digits; [assumption | assumption | unfold year in Hlen; lia]).
  assert (Hstr : number_to_string (Int y) = year)
    by (apply number_to_string_digits; assumption).
  split.
  - cbn [isValidDate].
    assert (Hp : parseDate (isoString year month day) = Return (year, month, day))
      by (apply parseDate_groups; apply isGroups_spec in Hg; intuition).
    now rewrite Hp.
  - rewrite (rollover_label year month day (digitsToNumber day') Hg);
      rewrite ?Hshift; try assumption.
    fold m. rewrite <- Hm', Hstr.
    destruct (groups_shape year month' day' Hg')
      as (y0 & y1 & y2 & y3 & m0 & m1 & d0 & d1 & _ & -> & -> & Hm0 & Hm1 & Hd0 & Hd1).
    now rewrite !padStart2_digits.
Qed.

Lemma day_past_month_end_rolls_over_witness :
  isValidDate (VStr "2023-02-30") = true
  /\ exportDateFormatted (VStr "2023-02-30") = Return "02/03/2023".
Proof.
  apply (day_past_month_end_rolls_over "2" "023" "02" "30" "03" "02");
    [reflexivity | reflexivity | discriminate | vm_compute; split; discriminate
     | reflexivity | vm_compute; split; discriminate | reflexivity].
Defined.

(** ** More on the aggregation *)

Lemma totalQuantity_app data data' :
  totalQuantity (data ++ data') = (totalQuantity data + totalQuantity data')%Z.
Proof.
  induction data as [|e data IH]; cbn [app totalQuantity fold_right] in *; [reflexivity|].
  fold (totalQuantity (data ++ data')). fold (totalQuantity data). lia.
Qed.

Lemma map_set_new key v data :
  map_get key data = None -> map_set key v data = data ++ [(key, v)].
Proof.
  induction data as [|[k w] data IH]; cbn [map_get map_set app]; [reflexivity|].
  destruct (String.eqb k key); [discriminate|]. intros Hn. now rewrite IH.
Qed.

Lemma totalQuantity_update key data :
  totalQuantity (map_update key incrQuantite data)
  = (totalQuantity data + if map_has key data then 1 else 0)%Z.
Proof.
  unfold map_has.
  induction data as [|[k w] data IH]; cbn [map_update map_get totalQuantity fold_right];
    [reflexivity|].
  destruct (String.eqb k key); cbn [totalQuantity fold_right snd incrQuantite quantite].
  - fold (totalQuantity data). lia.
  - fold (totalQuantity (map_update key incrQuantite data)). fold (totalQuantity data).
    rewrite IH. lia.
Qed.

Lemma addExportRow_counted row data :
  rowFalsy row = false ->
  addExportRow row data
  = map_update (exportKey row) incrQuantite
      (if map_has (exportKey row) data then data
       else data ++ [(exportKey row,
                      mkItem (getCellValue row 1) (getCellValue row 2)
                             (or_else (getCellValue row 3) (VStr ""))
                             (or_else (getCellValue row 4) (VStr "")) 0)]).
Proof.
  intros Hrow. unfold addExportRow, extractRow. cbn [Nat.eqb].
  unfold rowFalsy in Hrow. rewrite Hrow. cbn [snd]. fold (exportKey row).
  unfold map_has. destruct (map_get (exportKey row) data) eqn:Hget; cbn [negb];
    [reflexivity|]. now rewrite map_set_new.
Qed.

Lemma map_has_app_new key v data : map_has key (data ++ [(key, v)]) = true.
Proof.
  unfold map_has. induction data as [|[k w] data IH]; cbn [app map_get].
  - now rewrite String.eqb_refl.
  - destruct (String.eqb k key); [reflexivity | exact IH].
Qed.

Lemma totalQuantity_addExportRow row data :
  totalQuantity (addExportRow row data)
  = (totalQuantity data + if rowFalsy row then 0 else 1)%Z.
Proof.
  destruct (rowFalsy row) eqn:Hrow.
  - rewrite addExportRow_falsy by assumption. lia.
  - rewrite addExportRow_counted by assumption. rewrite totalQuantity_update.
    destruct (map_has (exportKey row) data) eqn:Hhas.
    + now rewrite Hhas.
    + rewrite map_has_app_new, totalQuantity_app.
      cbn [totalQuantity fold_right snd quantite]. lia.
Qed.

Lemma fold_addExportRow_total rows : forall data,
  totalQuantity (fold_left (fun data r => addExportRow r data) rows data)
  = (totalQuantity data
     + Z.of_nat (length (filter (fun row => negb (rowFalsy row)) rows)))%Z.
Proof.
  induction rows as [|row rows IH]; intros data; cbn [fold_left filter length].
  - cbn. lia.
  - rewrite IH, totalQuantity_addExportRow.
    destruct (rowFalsy row); cbn [negb length]; lia.
Qed.



(** X7: the aggregation loses and invents nothing: the quantities of the
    aggregated map add up to the number of rows below the header whose
    article code and location code are both truthy. *)
Theorem aggregation_conserves_rows (exportSheet : Worksheet) :
  totalQuantity (extractExportData exportSheet)
  = Z.of_nat (length (countedRows exportSheet)).
Proof.
  rewrite extractExportData_fold, fold_addExportRow_total. reflexivity.
Qed.

Lemma extractExportData_entry (exportSheet : Worksheet)
    (key : string) (item : ExportItem) :
  In (key, item) (extractExportData exportSheet) ->
  key = makeKey (codeArticle item) (emplacement item)
  /\ falsy (codeArticle item) = false
  /\ falsy (emplacement item) = false
  /\ (1 <= quantite item)%Z
  /\ (falsy (description item) = false \/ description item = VStr "")
  /\ (falsy (descEmplacement item) = false \/ descEmplacement item = VStr "").
Proof.
  intros Hin.
  apply map_get_In in Hin; [|apply extractExportData_NoDup].
  rewrite extractExportData_fold, fold_addExportRow_get in Hin. cbn [map_get] in Hin.
  destruct (filter (carries key) (dataRows exportSheet)) as [|first rest] eqn:Hocc;
    [discriminate|].
  assert (Hfirst : carries key first = true).
  { assert (Hmem : In first (filter (carries key) (dataRows exportSheet)))
      by (rewrite Hocc; now left).
    now apply filter_In in Hmem. }
  unfold carries in Hfirst. apply andb_prop in Hfirst as [Hrow Hkey].
  apply negb_true_iff in Hrow. apply String.eqb_eq in Hkey.
  unfold rowFalsy in Hrow. apply orb_false_elim in Hrow as [H1 H2].
  cbn [entryOf] in Hin. injection Hin as <-.
  cbn [codeArticle emplacement quantite description descEmplacement].
  repeat split; try assumption.
  - now rewrite <- Hkey.
  - cbn [length]. lia.
  - unfold or_else. destruct (falsy (getCellValue first 3)) eqn:H3; auto.
  - unfold or_else. destruct (falsy (getCellValue first 4)) eqn:H4; auto.
Qed.


(** X8: every entry of the aggregated map sits under the key composed from
    its own article code and location code, both truthy; its quantity is at
    least 1; and a description is either truthy or the empty string that
    stands for an empty cell. *)
Theorem aggregated_entries_wellformed (exportSheet : Worksheet)
    (key : string) (item : ExportItem) :
  In (key, item) (extractExportData exportSheet) ->
  key = (to_string (codeArticle item) ++ "|" ++ to_string (emplacement item))%string
  /\ falsy (codeArticle item) = false
  /\ falsy (emplacement item) = false
  /\ (1 <= quantite item)%Z
  /\ (falsy (description item) = false \/ description item = VStr "")
  /\ (falsy (descEmplacement item) = false \/ descEmplacement item = VStr "").
Proof. exact (extractExportData_entry exportSheet key item). Qed.

Lemma aggregated_entries_wellformed_witness :
  In ("Y|B", mkItem (VStr "Y") (VStr "B") (VStr "") (VStr "Bureau") 1)
     (extractExportData sampleExportSheet)
  /\ "Y|B" = (to_string (VStr "Y") ++ "|" ++ to_string (VStr "B"))%string.
Proof.
  assert (Hin : In ("Y|B", mkItem (VStr "Y") (VStr "B") (VStr "") (VStr "Bureau") 1)
                   (extractExportData sampleExportSheet))
    by (vm_compute; auto).
  split; [exact Hin|].
  exact (proj1 (aggregated_entries_wellformed sampleExportSheet _ _ Hin)).
Defined.


(** ** The outcomes of the merge step *)

Lemma updateTracking_cases trackingWb exportWb exportDate :
  updateTracking trackingWb exportWb exportDate
  = match getWorksheet stockSheetName trackingWb with
    | None => (trackingWb, Throw (Error missingSheetMessage))
    | Some (stockId, stockSheet) =>
        if headerContains stockSheet exportDate
        then (trackingWb, Throw (Error (duplicateMessage exportDate)))
        else
          match nth_error (worksheets exportWb) 0 with
          | None => (trackingWb, Throw TypeError)
          | Some (_, exportSheet) =>
              (update_at None
                 (fun _ => Some (mergedSheet stockSheet exportSheet exportDate))
                 stockId trackingWb,
               Return tt)
          end
    end.
Proof.
  destruct (getWorksheet stockSheetName trackingWb) as [[stockId stockSheet]|] eqn:Hs.
  - destruct (headerContains stockSheet exportDate) eqn:Hh.
    + exact (updateTrackingWith_duplicate _ _ _ _ _ _ Hs Hh).
    + destruct (nth_error (worksheets exportWb) 0) as [[exportId exportSheet]|] eqn:He.
      * exact (updateTrackingWith_ok _ _ _ _ _ _ _ _ Hs He Hh).
      * unfold updateTracking, updateTrackingWith, bind, gets. rewrite Hs, He.
        apply findDateCol_None in Hh. now rewrite Hh.
  - unfold updateTracking, updateTrackingWith, bind, gets. now rewrite Hs.
Qed.

(** X10: the merge step fails in three ways only, and a failed merge
    leaves the tracking workbook as it was: the sheet "Liste de Stock" is
    missing, or its header row already holds the label, or the export
    workbook has no sheet to read. *)
Theorem failed_merge_changes_nothing
    (trackingWb exportWb trackingWb' : Workbook) (exportDate : string) (e : error) :
  updateTracking trackingWb exportWb exportDate = (trackingWb', Throw e) ->
  trackingWb' = trackingWb
  /\ ((e = Error ("Feuille " ++ String (ascii_of_nat 34) "Liste de Stock"
                  ++ String (ascii_of_nat 34) " introuvable")%string
       /\ getWorksheet stockSheetName trackingWb = None)
      \/ (e = Error ("Les données pour la date " ++ exportDate
                     ++ " ont déjà été importées")%string
          /\ exists stockId stockSheet,
               getWorksheet stockSheetName trackingWb = Some (stockId, stockSheet)
               /\ headerContains stockSheet exportDate = true)
      \/ (e = TypeError
          /\ worksheets exportWb = []
          /\ exists stockId stockSheet,
               getWorksheet stockSheetName trackingWb = Some (stockId, stockSheet)
               /\ headerContains stockSheet exportDate = false)).
Proof.
  rewrite updateTracking_cases.
  destruct (getWorksheet stockSheetName trackingWb) as [[stockId stockSheet]|] eqn:Hs.
  - destruct (headerContains stockSheet exportDate) eqn:Hh.
    + intros [= <- <-]. split; [reflexivity|]. right. left. split; [reflexivity|].
      now exists stockId, stockSheet.
    + destruct (worksheets exportWb) as [|[exportId exportSheet] rest] eqn:He;
        cbn [nth_error]; [|discriminate].
      intros [= <- <-]. split; [reflexivity|]. right. right.
      repeat split. now exists stockId, stockSheet.
  - intros [= <- <-]. split; [reflexivity|]. now left.
Qed.

Lemma failed_merge_changes_nothing_witness :
  updateTracking sampleTracking emptyWorkbook "15/01/2024" = (sampleTracking, Throw TypeError)
  /\ worksheets emptyWorkbook = [].
Proof.
  assert (Hrun : updateTracking sampleTracking emptyWorkbook "15/01/2024"
                 = (sampleTracking, Throw TypeError)) by reflexivity.
  split; [exact Hrun|].
  destruct (failed_merge_changes_nothing _ _ _ _ _ Hrun) as [_ [[He _] | [[He _] | [_ [Hw _]]]]];
    [discriminate He | discriminate He | exact Hw].
Defined.

(** X11: the sheet of the tracking table is looked up by its exact name:
    without a sheet called "Liste de Stock", letter case included, the
    merge fails with the missing-sheet error whatever the export workbook
    and the date are, before the export is read. *)
Theorem merge_needs_the_stock_sheet
    (trackingWb exportWb : Workbook) (exportDate : string) :
  (forall id sheet, nth id trackingWb None = Some sheet ->
                    ws_name sheet <> "Liste de Stock") ->
  updateTracking trackingWb exportWb exportDate
  = (trackingWb,
     Throw (Error ("Feuille " ++ String (ascii_of_nat 34) "Liste de Stock"
                   ++ String (ascii_of_nat 34) " introuvable")%string)).
Proof.
  intros Hnone. rewrite updateTracking_cases.
  destruct (getWorksheet stockSheetName trackingWb) as [[stockId stockSheet]|] eqn:Hs;
    [|reflexivity].
  apply getWorksheet_slot in Hs as [Hslot Hname]. now elim (Hnone _ _ Hslot).
Qed.

Lemma merge_needs_the_stock_sheet_witness :
  fst (updateTracking lowerCaseTracking sampleExport "15/01/2024") = lowerCaseTracking
  /\ snd (updateTracking lowerCaseTracking emptyWorkbook "pas une date")
     = Throw (Error ("Feuille " ++ String (ascii_of_nat 34) "Liste de Stock"
                     ++ String (ascii_of_nat 34) " introuvable")%string).
Proof.
  assert (Hnone : forall id sheet, nth id lowerCaseTracking None = Some sheet ->
                                   ws_name sheet <> "Liste de Stock").
  { intros [|[|[|id]]] sheet; cbn; intros Hs; try discriminate Hs.
    injection Hs as <-. discriminate. }
  split.
  - now rewrite (merge_needs_the_stock_sheet lowerCaseTracking sampleExport _ Hnone).
  - now rewrite (merge_needs_the_stock_sheet lowerCaseTracking emptyWorkbook _ Hnone).
Defined.

Lemma find_app_l {A} (p : A -> bool) l l' :
  find p (l ++ l') = match find p l with Some x => Some x | None => find p l' end.
Proof.
  induction l as [|x l IH]; cbn [app find]; [reflexivity|]. now destruct (p x).
Qed.

Lemma find_none_before {A} (p : A -> bool) (q : A -> Prop) l x l' :
  Forall q l -> ~ q x -> find p (l ++ l') = Some x -> find p l = None.
Proof.
  intros Hl Hx. rewrite find_app_l. destruct (find p l) as [y|] eqn:Hf; [|reflexivity].
  intros [= ->]. apply find_some in Hf as [Hin _].
  rewrite Forall_forall in Hl. now elim Hx; apply Hl.
Qed.

Lemma slots_before k n wb : Forall (fun s => fst s < k + n) (slots_from k (firstn n wb)).
Proof.
  apply Forall_forall. intros [i s] Hin. apply slots_from_ids in Hin.
  rewrite length_firstn in Hin. cbn [fst]. lia.
Qed.

(** The sheet found by name stays the sheet found by name when its slot
    is given a sheet of the same name. *)
Lemma getWorksheet_update name wb id sheet sheet' :
  getWorksheet name wb = Some (id, sheet) ->
  ws_name sheet' = name ->
  getWorksheet name (update_at None (fun _ => Some sheet') id wb) = Some (id, sheet').
Proof.
  intros Hget Hname. pose proof (getWorksheet_slot _ _ _ _ Hget) as [Hslot _].
  unfold getWorksheet, slots in *.
  rewrite (slots_from_split 0 id wb), Hslot in Hget. cbn [Nat.add] in Hget.
  rewrite slots_from_update. cbn [Nat.add].
  assert (Hbefore : find (fun s => String.eqb (ws_name (snd s)) name)
                         (slots_from 0 (firstn id wb)) = None).
  { eapply (find_none_before _ (fun s => fst s < id)); [|  |exact Hget].
    - exact (slots_before 0 id wb).
    - cbn [fst]. lia. }
  rewrite find_app_l, Hbefore. cbn [app find snd]. rewrite Hname.
  now rewrite String.eqb_refl.
Qed.

(** A slot whose sheet, before and after, is not called [name] plays no
    part in the lookup of [name]. *)
Lemma getWorksheet_update_other name wb id o :
  match nth id wb None with Some s => ws_name s <> name | None => True end ->
  match o with Some s => ws_name s <> name | None => True end ->
  getWorksheet name (update_at None (fun _ => o) id wb) = getWorksheet name wb.
Proof.
  intros Hold Hnew. unfold getWorksheet, slots.
  rewrite slots_from_update, (slots_from_split 0 id wb). rewrite !find_app_l.
  destruct (find _ (slots_from 0 (firstn id wb))); [reflexivity|].
  assert (Ho : find (fun s => String.eqb (ws_name (snd s)) name)
                 match o with Some s => [(0 + id, s)] | None => [] end = None).
  { destruct o as [s|]; [|reflexivity]. cbn [find snd].
    destruct (String.eqb_spec (ws_name s) name); [contradiction | reflexivity]. }
  assert (Hn : find (fun s => String.eqb (ws_name (snd s)) name)
                 match nth id wb None with Some s => [(0 + id, s)] | None => [] end = None).
  { destruct (nth id wb None) as [s|]; [|reflexivity]. cbn [find snd].
    destruct (String.eqb_spec (ws_name s) name); [contradiction | reflexivity]. }
  now rewrite Ho, Hn.
Qed.

Lemma nth_Some_length {A} (l : list (option A)) n x : nth n l None = Some x -> n < length l.
Proof.
  intros Hn. destruct (Nat.lt_ge_cases n (length l)) as [Hlt|Hge]; [assumption|].
  rewrite nth_overflow in Hn by assumption. discriminate.
Qed.

Lemma update_at_length_in {A} (d : A) f n l :
  n < length l -> length (update_at d f n l) = length l.
Proof. intros Hn. rewrite update_at_length. lia. Qed.

Lemma mergedSheet_headerContains stock exp date :
  headerContains (mergedSheet stock exp date) date = true.
Proof.
  unfold headerContains. rewrite mergedSheet_header, existsb_app.
  cbn [existsb labelCell cell_value strict_eq]. rewrite String.eqb_refl.
  now rewrite orb_true_r.
Qed.

Lemma updateTracking_labels_stock trackingWb exportWb exportDate trackingWb' :
  updateTracking trackingWb exportWb exportDate = (trackingWb', Return tt) ->
  exists stockId stockSheet',
    getWorksheet stockSheetName trackingWb' = Some (stockId, stockSheet')
    /\ headerContains stockSheet' exportDate = true.
Proof.
  rewrite updateTracking_cases.
  destruct (getWorksheet stockSheetName trackingWb) as [[stockId stockSheet]|] eqn:Hs;
    [|discriminate].
  destruct (headerContains stockSheet exportDate) eqn:Hh; [discriminate|].
  destruct (nth_error (worksheets exportWb) 0) as [[exportId exportSheet]|] eqn:He;
    [|discriminate].
  intros [= <-].
  pose proof (getWorksheet_slot _ _ _ _ Hs) as [Hslot Hname].
  exists stockId, (mergedSheet stockSheet exportSheet exportDate).
  split; [apply getWorksheet_update with (sheet := stockSheet); assumption|].
  apply mergedSheet_headerContains.
Qed.

(** X12: a merge that succeeds touches one sheet only: the sheet "Liste de
    Stock" keeps its slot, its name, its place in the tab order and its
    merged ranges, its header row gains the label, and every other slot of
    the workbook is left as it was. *)
Theorem merge_touches_only_the_stock_sheet
    (trackingWb exportWb trackingWb' : Workbook) (exportDate : string) :
  updateTracking trackingWb exportWb exportDate = (trackingWb', Return tt) ->
  exists stockId stockSheet stockSheet',
    getWorksheet stockSheetName trackingWb = Some (stockId, stockSheet)
    /\ getWorksheet stockSheetName trackingWb' = Some (stockId, stockSheet')
    /\ ws_name stockSheet' = ws_name stockSheet
    /\ ws_orderNo stockSheet' = ws_orderNo stockSheet
    /\ ws_merges stockSheet' = ws_merges stockSheet
    /\ headerContains stockSheet' exportDate = true
    /\ length trackingWb' = length trackingWb
    /\ forall id, id <> stockId -> nth id trackingWb' None = nth id trackingWb None.
Proof.
  rewrite updateTracking_cases.
  destruct (getWorksheet stockSheetName trackingWb) as [[stockId stockSheet]|] eqn:Hs;
    [|discriminate].
  destruct (headerContains stockSheet exportDate) eqn:Hh; [discriminate|].
  destruct (nth_error (worksheets exportWb) 0) as [[exportId exportSheet]|] eqn:He;
    [|discriminate].
  intros [= <-].
  pose proof (getWorksheet_slot _ _ _ _ Hs) as [Hslot Hname].
  exists stockId, stockSheet, (mergedSheet stockSheet exportSheet exportDate).
  split; [reflexivity|].
  split; [apply getWorksheet_update with (sheet := stockSheet); assumption|].
  split; [reflexivity|]. split; [reflexivity|]. split; [reflexivity|].
  split; [apply mergedSheet_headerContains|].
  split; [apply update_at_length_in; eapply nth_Some_length; exact Hslot|].
  intros id Hid. apply nth_update_at_neq. congruence.
Qed.

Lemma merge_touches_only_the_stock_sheet_witness :
  exists stockSheet',
    getWorksheet stockSheetName sampleMerged = Some (1, stockSheet')
    /\ headerContains stockSheet' "15/01/2024" = true
    /\ length sampleMerged = 2.
Proof.
  destruct (merge_touches_only_the_stock_sheet sampleTracking sampleExport sampleMerged
              "15/01/2024" eq_refl)
    as (stockId & stockSheet & stockSheet' & Hs & Hs' & _ & _ & _ & Hh & Hlen & _).
  assert (Hid : stockId = 1) by (cbv in Hs; congruence).
  subst stockId. exists stockSheet'. repeat split; assumption.
Defined.

(** ** The same export merged twice *)



















(** ** More on the variations *)

Section VariationFacts.
Context `{Runtime}.

Lemma minus_swap a b : minus b a = negate (minus a b).
Proof.
  unfold minus. destruct (ToNumber a), (ToNumber b); cbn [negate]; try reflexivity.
  f_equal. lia.
Qed.

Lemma isNonZero_negate n : isNonZero (negate n) = isNonZero n.
Proof.
  destruct n as [z|]; unfold isNonZero; cbn [negate number_eqb]; [|reflexivity].
  destruct (Z.eqb_spec z 0), (Z.eqb_spec (- z) 0); try reflexivity; lia.
Qed.

Lemma variationOf_swap cur prev row :
  variationOf prev cur row = negate (variationOf cur prev row).
Proof. unfold variationOf. apply minus_swap. Qed.

(** X14: comparing two columns the other way round reports the same rows,
    in the same order and with the same identity fields, with the opposite
    variations. *)
Theorem variations_antisymmetric (stockSheet : Worksheet) (col col' : nat) :
  1 <= col -> 1 <= col' ->
  map identityOf (calculateVariations stockSheet col' col)
  = map identityOf (calculateVariations stockSheet col col')
  /\ map variation (calculateVariations stockSheet col' col)
     = map (fun record => negate (variation record))
           (calculateVariations stockSheet col col').
Proof.
  intros _ _. rewrite !calculateVariations_closed.
  assert (Hfilter : filter (fun r => isNonZero (variationOf col' col r)) (dataRows stockSheet)
                    = filter (fun r => isNonZero (variationOf col col' r))
                             (dataRows stockSheet)).
  { apply filter_ext. intros r. now rewrite variationOf_swap, isNonZero_negate. }
  rewrite Hfilter, !map_map. split; apply map_ext; intros r.
  - reflexivity.
  - cbn [recordOf variation]. apply variationOf_swap.
Qed.

(** X15: a row whose cell in the column of the export holds a text that
    the runtime does not read as a number is reported whatever the other
    column holds: its variation is [NaN], which is not 0, and the text is
    reported as the current quantity. *)
Theorem text_quantity_is_reported
    (stockSheet : Worksheet) (currentColIndex previousColIndex : nat)
    (row : Row) (text : string) :
  1 <= currentColIndex -> 1 <= previousColIndex ->
  In row (dataRows stockSheet) ->
  getCellValue row currentColIndex = VStr text ->
  text <> "" ->
  StringToNumber text = NaN ->
  In (mkVariation (getCellValue row 1) (getCellValue row 2) (getCellValue row 3)
                  (getCellValue row 4) NaN (VStr text))
     (calculateVariations stockSheet currentColIndex previousColIndex).
Proof.
  intros _ _ Hin Hcell Htext Hnan. rewrite calculateVariations_closed.
  assert (Hqty : readQty row currentColIndex = VStr text).
  { unfold readQty, or_else. rewrite Hcell. cbn [falsy].
    destruct (String.eqb_spec text ""); [contradiction | reflexivity]. }
  assert (Hvar : variationOf currentColIndex previousColIndex row = NaN).
  { unfold variationOf, minus. rewrite Hqty. cbn [ToNumber]. now rewrite Hnan. }
  apply in_map_iff. exists row. split.
  - unfold recordOf. now rewrite Hvar, Hqty.
  - apply filter_In. split; [assumption|]. now rewrite Hvar.
Qed.

End VariationFacts.

Lemma variations_antisymmetric_witness :
  map variation (@calculateVariations sampleRuntime semesterStock 11 5) = [Int (-7)]
  /\ map variation (@calculateVariations sampleRuntime semesterStock 5 11) = [Int 7].
Proof.
  split; [reflexivity|].
  exact (proj2 (@variations_antisymmetric sampleRuntime semesterStock 11 5
                  ltac:(lia) ltac:(lia))).
Defined.

Lemma text_quantity_is_reported_witness :
  In (mkVariation (VStr "X1") (VStr "Vis") (VStr "A") (VStr "Atelier") NaN (VStr "quatre"))
     (@calculateVariations sampleRuntime textQuantityStock 6 5).
Proof.
  exact (@text_quantity_is_reported sampleRuntime textQuantityStock 6 5
           [textCell "X1"; textCell "Vis"; textCell "A"; textCell "Atelier";
            numberCell 4; textCell "quatre"] "quatre"
           ltac:(lia) ltac:(lia) (or_introl eq_refl) eq_refl ltac:(discriminate) eq_refl).
Defined.

(** ** More on the report steps *)

Lemma ordered_after x before after :
  ordered (before ++ x :: after) -> Forall (orderLe x) after.
Proof.
  induction before as [|y before IH]; cbn [app]; intros Ho; inversion Ho; subst; auto.
Qed.

(** X16: [findSheetByPrefix] answers with a sheet of the tab list whose
    name starts with the prefix, letter case apart, and no other such sheet
    comes before it in tab order; it answers with nothing exactly when no
    sheet of the tab list has such a name. *)
Theorem findSheetByPrefix_first_in_tab_order (workbook : Workbook) (prefix : string) :
  match findSheetByPrefix workbook prefix with
  | Some (id, sheet) =>
      1 <= id /\ nth id workbook None = Some sheet
      /\ matchesPrefix prefix sheet = true
      /\ forall id' sheet',
           1 <= id' -> nth id' workbook None = Some sheet' ->
           matchesPrefix prefix sheet' = true ->
           ws_orderNo sheet <= ws_orderNo sheet'
  | None =>
      forall id' sheet',
        1 <= id' -> nth id' workbook None = Some sheet' ->
        matchesPrefix prefix sheet' = false
  end.
Proof.
  destruct (findSheetByPrefix workbook prefix) as [[id sheet]|] eqn:Hf.
  - pose proof (findSheetByPrefix_slot _ _ _ _ Hf) as (Hid & Hslot & Hmatch).
    repeat split; try assumption.
    intros id' sheet' Hid' Hslot' Hmatch'.
    unfold findSheetByPrefix in Hf. apply find_first in Hf as (before & after & Hw & Hbefore).
    assert (Hin : In (id', sheet') (worksheets workbook)) by now apply worksheets_slot.
    rewrite Hw in Hin. apply in_app_or in Hin as [Hin | [Heq | Hin]].
    + rewrite forallb_forall in Hbefore. apply Hbefore in Hin. cbn [snd] in Hin.
      unfold matchesPrefix in Hmatch'. rewrite Hmatch' in Hin. discriminate.
    + injection Heq as <- <-. lia.
    + pose proof (sort_by_order_ordered (slots_from 1 (tl workbook))) as Ho.
      fold (worksheets workbook) in Ho. rewrite Hw in Ho.
      apply ordered_after in Ho. rewrite Forall_forall in Ho.
      exact (Ho _ Hin).
  - intros id' sheet' Hid' Hslot'. unfold findSheetByPrefix in Hf.
    apply (find_none _ _ Hf (id', sheet')). now apply worksheets_slot.
Qed.

(** The header labels are the values of the non-empty cells of the header
    row. *)
Lemma eachCell_from_values row : forall col,
  map (fun cn => cell_value (fst cn)) (eachCell_from col row)
  = map cell_value (nonEmptyCells row).
Proof.
  induction row as [|c row IH]; intros col; cbn [eachCell_from nonEmptyCells filter map];
    [reflexivity|].
  destruct (is_null (cell_value c)); cbn [negb map fst]; [apply IH|].
  f_equal. apply IH.
Qed.

Lemma nonEmptyCells_app row row' :
  nonEmptyCells (row ++ row') = nonEmptyCells row ++ nonEmptyCells row'.
Proof. apply filter_app. Qed.

(** X17: the index of a label among the headers counts the non-empty
    cells of the header row to the left of the label: with [g] empty
    cells to the left of the cell of the export date in column [c], the
    index is [c - 1 - g]. The reports read the current quantities in the
    column index + 1, which is the column of the date only when no cell to
    its left is empty. *)
Theorem header_index_skips_empty_cells
    (stockSheet : Worksheet) (before after : Row) (cell : Cell) (exportDate : string) :
  getRow stockSheet 1 = before ++ cell :: after ->
  cell_value cell = VStr exportDate ->
  Forall (fun c => cell_value c <> VStr exportDate) before ->
  indexOf (VStr exportDate) (getHeaders stockSheet)
  = Z.of_nat (length (nonEmptyCells before))
  /\ (forallb (fun c => negb (is_null (cell_value c))) before = true ->
      getCellValue (getRow stockSheet 1)
                   (Z.to_nat (indexOf (VStr exportDate) (getHeaders stockSheet) + 1))
      = VStr exportDate).
Proof.
  intros Hrow Hcell Hbefore.
  assert (Hidx : indexOf (VStr exportDate) (getHeaders stockSheet)
                 = Z.of_nat (length (nonEmptyCells before))).
  { unfold getHeaders, eachCell. rewrite eachCell_from_values, Hrow.
    rewrite nonEmptyCells_app, map_app.
    rewrite indexOf_app_absent.
    - assert (Hhere : indexOf (VStr exportDate)
                               (map cell_value (nonEmptyCells (cell :: after))) = 0%Z).
      { cbn [nonEmptyCells filter]. rewrite Hcell. cbn [is_null negb map].
        rewrite Hcell. unfold indexOf. cbn [indexOf_from strict_eq].
        now rewrite String.eqb_refl. }
      rewrite Hhere. cbn [Z.eqb]. rewrite length_map. lia.
    - apply Forall_forall. intros v Hv. apply in_map_iff in Hv as (c & <- & Hc).
      apply filter_In in Hc as [Hc _]. rewrite Forall_forall in Hbefore.
      specialize (Hbefore c Hc).
      destruct (strict_eq (cell_value c) (VStr exportDate)) eqn:He; [|reflexivity].
      apply strict_eq_VStr in He. contradiction. }
  split; [exact Hidx|].
  intros Hfull. rewrite Hidx.
  assert (Hall : nonEmptyCells before = before).
  { unfold nonEmptyCells. clear -Hfull. induction before as [|c l IH]; [reflexivity|].
    cbn [forallb filter] in *. apply andb_prop in Hfull as [Hc Hl].
    rewrite Hc. f_equal. now apply IH. }
  rewrite Hall, Hrow. unfold getCellValue, getCell.
  replace (Z.to_nat (Z.of_nat (length before) + 1) - 1) with (length before) by lia.
  rewrite app_nth2 by lia. rewrite Nat.sub_diag. exact Hcell.
Qed.

Lemma header_index_skips_empty_cells_witness :
  indexOf (VStr "01/02/2024") (getHeaders gapStock) = 5%Z
  /\ getCellValue (getRow gapStock 1) 7 = VStr "01/02/2024"
  /\ getCellValue (getRow gapStock 1) 6 = VStr "01/01/2024".
Proof.
  split; [|split; reflexivity].
  refine (proj1 (header_index_skips_empty_cells gapStock
                   (metaHeaders ++ [emptyCell; textCell "01/01/2024"]) []
                   (textCell "01/02/2024") "01/02/2024" eq_refl eq_refl _)).
  repeat constructor; discriminate.
Defined.

Section ReportOutcomes.
Context `{Runtime}.

(** The three outcomes of a report step. *)
Lemma reportStep_cases prefix name message lookback wb exportDate :
  reportStep prefix name message lookback wb exportDate
  = let wb1 := withoutReport prefix wb in
    if nameExists name wb1
    then (wb1, Throw (Error ("Worksheet name already exists: " ++ name)%string))
    else
      match getWorksheet stockSheetName wb with
      | None =>
          (update_at None (fun _ => Some (freshSheet name wb1)) (nextId wb1) wb1,
           Throw TypeError)
      | Some (_, stockSheet) =>
          (update_at None
             (fun _ => Some (mkSheet name (lastOrderNo wb1 + 1)
                               (fst (expectedReport message lookback stockSheet exportDate))
                               (snd (expectedReport message lookback stockSheet exportDate))))
             (nextId wb1) wb1,
           Return tt)
      end.
Proof.
  cbv zeta. destruct (nameExists name (withoutReport prefix wb)) eqn:Hn.
  - now apply reportStep_name_clash.
  - destruct (getWorksheet stockSheetName wb) as [[stockId stockSheet]|] eqn:Hs.
    + exact (reportStep_result _ _ _ _ _ _ _ _ Hs Hn).
    + unfold reportStep, bind, gets. rewrite Hs.
      rewrite recreateSheet_ok by assumption. reflexivity.
Qed.

Lemma getWorksheet_withoutReport name prefix wb :
  startsWith (toLowerCase name) (toLowerCase prefix) = false ->
  getWorksheet name (withoutReport prefix wb) = getWorksheet name wb.
Proof.
  intros Hname. unfold withoutReport.
  destruct (findSheetByPrefix wb prefix) as [[oldId old]|] eqn:Hf; [|reflexivity].
  apply findSheetByPrefix_slot in Hf as (_ & Hslot & Hmatch).
  apply getWorksheet_update_other; [|exact I].
  rewrite Hslot. intros Heq. rewrite Heq in Hmatch. congruence.
Qed.

Lemma reportStep_keeps_sheet sheetName prefix name message lookback wb exportDate :
  startsWith (toLowerCase sheetName) (toLowerCase prefix) = false ->
  name <> sheetName ->
  getWorksheet sheetName (fst (reportStep prefix name message lookback wb exportDate))
  = getWorksheet sheetName wb.
Proof.
  intros Hprefix Hname. rewrite reportStep_cases. cbv zeta.
  destruct (nextId_free (withoutReport prefix wb)) as [_ Hfree].
  destruct (nameExists name (withoutReport prefix wb)); cbn [fst].
  - now apply getWorksheet_withoutReport.
  - destruct (getWorksheet stockSheetName wb) as [[stockId stockSheet]|]; cbn [fst];
      (rewrite getWorksheet_update_other;
       [now apply getWorksheet_withoutReport | now rewrite Hfree | assumption]).
Qed.

Lemma reports_keep_stock workbook exportDate :
  getWorksheet stockSheetName (fst (updateMonthlyTracking workbook exportDate))
  = getWorksheet stockSheetName workbook
  /\ getWorksheet stockSheetName (fst (updateSemestrialTracking workbook exportDate))
     = getWorksheet stockSheetName workbook.
Proof.
  rewrite updateMonthlyTracking_step, updateSemestrialTracking_step.
  split; apply reportStep_keeps_sheet; solve [reflexivity | discriminate].
Qed.

(** X18: the report steps never touch the tracking table: whatever their
    outcome, the sheet "Liste de Stock" found before a report step is the
    sheet found after it, in the same slot and with the same contents. *)
Theorem reports_leave_the_stock_sheet (workbook : Workbook) (exportDate : string) :
  getWorksheet stockSheetName (fst (updateMonthlyTracking workbook exportDate))
  = getWorksheet stockSheetName workbook
  /\ getWorksheet stockSheetName (fst (updateSemestrialTracking workbook exportDate))
     = getWorksheet stockSheetName workbook.
Proof. exact (reports_keep_stock workbook exportDate). Qed.

(** X19: a report step is not all or nothing: when, once the first sheet
    with the prefix is removed, another sheet still bears the name of the
    report (letter case apart), the step throws the error of ExcelJS for a
    name already in use, and the workbook it leaves has lost the sheet that
    was removed. *)
Theorem report_name_clash (workbook : Workbook) (exportDate : string) :
  (nameExists "Suivi Mensuel" (withoutReport "suivi mensuel" workbook) = true ->
   updateMonthlyTracking workbook exportDate
   = (withoutReport "suivi mensuel" workbook,
      Throw (Error "Worksheet name already exists: Suivi Mensuel")))
  /\ (nameExists "Suivi Semestriel" (withoutReport "suivi semestriel" workbook) = true ->
      updateSemestrialTracking workbook exportDate
      = (withoutReport "suivi semestriel" workbook,
         Throw (Error "Worksheet name already exists: Suivi Semestriel"))).
Proof.
  rewrite updateMonthlyTracking_step, updateSemestrialTracking_step.
  split; intros Hn; now apply reportStep_name_clash.
Qed.

Lemma worksheets_withoutReport prefix wb :
  worksheets (withoutReport prefix wb)
  = match findSheetByPrefix wb prefix with
    | None => worksheets wb
    | Some (oldId, _) => filter (idIsNot oldId) (worksheets wb)
    end.
Proof.
  unfold withoutReport.
  destruct (findSheetByPrefix wb prefix) as [[oldId old]|] eqn:Hf; [|reflexivity].
  apply findSheetByPrefix_slot in Hf as (Hid & _). now apply worksheets_remove.
Qed.

(** A report step that returns normally leaves the tab order of the
    workbook without the removed sheet, followed by the new sheet. *)
Lemma reportStep_worksheets prefix name message lookback wb exportDate wb' :
  reportStep prefix name message lookback wb exportDate = (wb', Return tt) ->
  exists newId report,
    ws_name report = name
    /\ worksheets wb' = worksheets (withoutReport prefix wb) ++ [(newId, report)].
Proof.
  rewrite reportStep_cases. cbv zeta.
  destruct (nameExists name (withoutReport prefix wb)); [discriminate|].
  destruct (getWorksheet stockSheetName wb) as [[stockId stockSheet]|]; [|discriminate].
  intros [= <-].
  destruct (nextId_free (withoutReport prefix wb)) as [Hid Hfree].
  eexists _, _. split; [|apply worksheets_add; try assumption; cbn [ws_orderNo]; lia].
  reflexivity.
Qed.

Lemma filter_idIsNot_sublist id l x : In x (filter (idIsNot id) l) -> In x l.
Proof. intros Hin. now apply filter_In in Hin. Qed.

(** X20: when the two report steps return normally one after the other,
    the last two tabs of the workbook are the sheet "Suivi Mensuel" and,
    last, the sheet "Suivi Semestriel", both created by the steps; the
    tabs before them are tabs the workbook had. *)
Theorem reports_are_the_last_two_tabs
    (workbook workbook1 workbook2 : Workbook) (exportDate : string) :
  updateMonthlyTracking workbook exportDate = (workbook1, Return tt) ->
  updateSemestrialTracking workbook1 exportDate = (workbook2, Return tt) ->
  exists others monthlyId monthly semestrialId semestrial,
    worksheets workbook2
    = others ++ [(monthlyId, monthly); (semestrialId, semestrial)]
    /\ ws_name monthly = "Suivi Mensuel"
    /\ ws_name semestrial = "Suivi Semestriel"
    /\ forall tab, In tab others -> In tab (worksheets workbook).
Proof.
  rewrite updateMonthlyTracking_step, updateSemestrialTracking_step.
  intros Hm Hs.
  apply reportStep_worksheets in Hm as (mId & monthly & Hmname & Hm).
  apply reportStep_worksheets in Hs as (sId & semestrial & Hsname & Hs).
  assert (Hold : forall tab, In tab (worksheets (withoutReport "suivi mensuel" workbook)) ->
                             In tab (worksheets workbook)).
  { intros tab. rewrite worksheets_withoutReport.
    destruct (findSheetByPrefix workbook "suivi mensuel") as [[oldId old]|]; [|auto].
    apply filter_idIsNot_sublist. }
  rewrite Hs, worksheets_withoutReport.
  destruct (findSheetByPrefix workbook1 "suivi semestriel") as [[oldId old]|] eqn:Hf.
  - assert (Hmid : idIsNot oldId (mId, monthly) = true).
    { unfold idIsNot. cbn [fst]. destruct (Nat.eqb_spec mId oldId) as [->|]; [|reflexivity].
      exfalso. apply findSheetByPrefix_slot in Hf as (_ & Hslot & Hmatch).
      assert (Hin : In (oldId, monthly) (worksheets workbook1))
        by (rewrite Hm; apply in_or_app; right; now left).
      apply worksheets_slot in Hin as [_ Hslot']. rewrite Hslot in Hslot'.
      injection Hslot' as ->. rewrite Hmname in Hmatch. discriminate Hmatch. }
    exists (filter (idIsNot oldId) (worksheets (withoutReport "suivi mensuel" workbook))),
      mId, monthly, sId, semestrial.
    split; [|repeat split; try assumption;
             intros tab Htab; apply Hold; revert Htab; apply filter_idIsNot_sublist].
    rewrite Hm, filter_app. cbn [filter]. rewrite Hmid. now rewrite <- app_assoc.
  - exists (worksheets (withoutReport "suivi mensuel" workbook)), mId, monthly, sId, semestrial.
    split; [|now repeat split].
    rewrite Hm. now rewrite <- app_assoc.
Qed.

End ReportOutcomes.

Lemma reports_are_the_last_two_tabs_witness :
  exists monthly semestrial,
    worksheets (fst (@updateSemestrialTracking sampleRuntime
                       (fst (@updateMonthlyTracking sampleRuntime twoReports "01/07/2024"))
                       "01/07/2024"))
    = [(1, semesterStock); (3, copyMonthly); (4, notesSheet); (2, monthly); (5, semestrial)].
Proof.
  destruct (@reports_are_the_last_two_tabs sampleRuntime twoReports _ _ "01/07/2024"
              eq_refl eq_refl)
    as (others & mId & monthly & sId & semestrial & Htabs & _).
  eexists _, _. reflexivity.
Defined.

Lemma report_name_clash_witness :
  @updateMonthlyTracking sampleRuntime clashingReports "01/07/2024"
  = ([None; Some semesterStock; None; Some capitalMonthly],
     Throw (Error "Worksheet name already exists: Suivi Mensuel")).
Proof.
  exact (proj1 (@report_name_clash sampleRuntime clashingReports "01/07/2024") eq_refl).
Defined.

(** ** The processor on files *)

Lemma lookupFile_storeFile path content fs :
  lookupFile path (storeFile path content fs) = Some content.
Proof. unfold lookupFile, storeFile. cbn [find fst]. now rewrite String.eqb_refl. Qed.

Lemma find_filter_other {A} (p q : A -> bool) l :
  (forall x, p x = true -> q x = true) -> find p (filter q l) = find p l.
Proof.
  intros Hpq. induction l as [|x l IH]; cbn [filter find]; [reflexivity|].
  destruct (p x) eqn:Hp.
  - rewrite (Hpq x Hp). cbn [find]. now rewrite Hp.
  - destruct (q x); cbn [find]; [rewrite Hp|]; exact IH.
Qed.

Lemma lookupFile_filter_other path path' fs :
  path' <> path -> lookupFile path' (filter (pathIsNot path) fs) = lookupFile path' fs.
Proof.
  intros Hne. unfold lookupFile. f_equal. apply find_filter_other.
  intros x Hx. apply String.eqb_eq in Hx. unfold pathIsNot.
  destruct (String.eqb_spec (fst x) path); [congruence | reflexivity].
Qed.

Lemma lookupFile_storeFile_other path path' content fs :
  path' <> path -> lookupFile path' (storeFile path content fs) = lookupFile path' fs.
Proof.
  intros Hne. unfold storeFile.
  transitivity (lookupFile path' (filter (pathIsNot path) fs));
    [|now apply lookupFile_filter_other].
  unfold lookupFile. cbn [find fst].
  destruct (String.eqb_spec path path'); [congruence | reflexivity].
Qed.

Section ProcessorFacts.
Context `{Runtime}.

(** The three steps in a row: the outcomes. *)
Lemma processSteps_ok trackingWb exportWb label wb' :
  processSteps trackingWb exportWb label = (wb', Return tt) ->
  exists wb1,
    updateTracking trackingWb exportWb label = (wb1, Return tt)
    /\ getWorksheet stockSheetName wb' = getWorksheet stockSheetName wb1.
Proof.
  unfold processSteps, bind.
  destruct (updateTracking trackingWb exportWb label) as [wb1 [[]|e]] eqn:H1;
    [|discriminate].
  destruct (updateMonthlyTracking wb1 label) as [wb2 [[]|e]] eqn:H2; [|discriminate].
  intros H3. exists wb1. split; [reflexivity|].
  pose proof (reports_keep_stock wb2 label) as [_ Hs].
  pose proof (reports_keep_stock wb1 label) as [Hm _].
  rewrite H3 in Hs. rewrite H2 in Hm. cbn [fst] in *. congruence.
Qed.

Lemma processSteps_duplicate trackingWb exportWb label stockId stockSheet :
  getWorksheet stockSheetName trackingWb = Some (stockId, stockSheet) ->
  headerContains stockSheet label = true ->
  processSteps trackingWb exportWb label
  = (trackingWb, Throw (Error (duplicateMessage label))).
Proof.
  intros Hs Hh. unfold processSteps, bind.
  rewrite updateTracking_cases, Hs, Hh. reflexivity.
Qed.

Lemma processStockTracking_cases trackingPath exportPath exportDateStr fs :
  processStockTracking trackingPath exportPath exportDateStr fs
  = match exportDateFormatted exportDateStr with
    | Throw e => (fs, Throw e)
    | Return label =>
        match readFile trackingPath fs with
        | (_, Throw e) => (fs, Throw e)
        | (_, Return trackingWb) =>
            match readFile exportPath fs with
            | (_, Throw e) => (fs, Throw e)
            | (_, Return exportWb) =>
                match processSteps trackingWb exportWb label with
                | (_, Throw e) => (fs, Throw e)
                | (trackingWb', Return _) =>
                    (storeFile trackingPath (Xlsx trackingWb') fs, Return trackingPath)
                end
            end
        end
    end.
Proof.
  unfold processStockTracking, bind, readFile, writeFile, modify, ret, throw.
  destruct (exportDateFormatted exportDateStr) as [label|e]; [|reflexivity].
  destruct (lookupFile trackingPath fs) as [[trackingWb|e]|]; try reflexivity.
  destruct (lookupFile exportPath fs) as [[exportWb|e]|]; try reflexivity.
  destruct (processSteps trackingWb exportWb label) as [wb' [[]|e]]; reflexivity.
Qed.

Lemma readFile_Return path fs fs' workbook :
  readFile path fs = (fs', Return workbook) -> lookupFile path fs = Some (Xlsx workbook).
Proof.
  unfold readFile, ret, throw.
  destruct (lookupFile path fs) as [[wb|e]|]; try discriminate. now intros [= _ ->].
Qed.

Lemma readFile_Xlsx path fs workbook :
  lookupFile path fs = Some (Xlsx workbook) -> readFile path fs = (fs, Return workbook).
Proof. intros Hl. unfold readFile. now rewrite Hl. Qed.

(** A run that returns: what was read and what is written. *)
Lemma processStockTracking_ok trackingPath exportPath exportDateStr fs fs' result :
  processStockTracking trackingPath exportPath exportDateStr fs = (fs', Return result) ->
  exists label trackingWb exportWb trackingWb',
    exportDateFormatted exportDateStr = Return label
    /\ lookupFile trackingPath fs = Some (Xlsx trackingWb)
    /\ lookupFile exportPath fs = Some (Xlsx exportWb)
    /\ processSteps trackingWb exportWb label = (trackingWb', Return tt)
    /\ fs' = storeFile trackingPath (Xlsx trackingWb') fs
    /\ result = trackingPath.
Proof.
  rewrite processStockTracking_cases.
  destruct (exportDateFormatted exportDateStr) as [label|e]; [|discriminate].
  destruct (readFile trackingPath fs) as [fs1 [trackingWb|e]] eqn:Ht; [|discriminate].
  destruct (readFile exportPath fs) as [fs2 [exportWb|e]] eqn:He; [|discriminate].
  destruct (processSteps trackingWb exportWb label) as [wb' [[]|e]] eqn:Hp; [|discriminate].
  intros [= <- <-]. exists label, trackingWb, exportWb, wb'.
  apply readFile_Return in Ht, He. repeat split; assumption.
Qed.

Lemma processStockTracking_Throw trackingPath exportPath exportDateStr fs fs' e :
  processStockTracking trackingPath exportPath exportDateStr fs = (fs', Throw e) ->
  fs' = fs.
Proof.
  rewrite processStockTracking_cases.
  destruct (exportDateFormatted exportDateStr) as [label|e0]; [|now intros [= <- _]].
  destruct (readFile trackingPath fs) as [fs1 [trackingWb|e1]]; [|now intros [= <- _]].
  destruct (readFile exportPath fs) as [fs2 [exportWb|e2]]; [|now intros [= <- _]].
  destruct (processSteps trackingWb exportWb label) as [wb' [[]|e3]];
    [discriminate | now intros [= <- _]].
Qed.

(** X21: a run that fails writes nothing: whatever is thrown, by the
    date, by the reading of a file or by one of the three steps, the files
    are left as they were; and an unusable date is reported before any file
    is looked at, whatever the paths are. *)
Theorem failed_run_writes_nothing
    (trackingPath exportPath : string) (exportDateStr : value)
    (fs fs' : FileSystem) (e : error) :
  processStockTracking trackingPath exportPath exportDateStr fs = (fs', Throw e) ->
  fs' = fs
  /\ forall dateError,
       exportDateFormatted exportDateStr = Throw dateError ->
       e = dateError
       /\ forall trackingPath' exportPath' fs0,
            processStockTracking trackingPath' exportPath' exportDateStr fs0
            = (fs0, Throw dateError).
Proof.
  intros Hrun. split; [exact (processStockTracking_Throw _ _ _ _ _ _ Hrun)|].
  intros dateError Hdate. split.
  - rewrite processStockTracking_cases, Hdate in Hrun. now injection Hrun as _ ->.
  - intros t' x' fs0. now rewrite processStockTracking_cases, Hdate.
Qed.

(** X22: a run that returns has read two workbooks, returns the path of
    the tracking file, and has written one file only, the tracking file,
    which holds the workbook the three steps leave; every other path,
    the export file included when it is another file, is as it was. *)
Theorem successful_run_rewrites_the_tracking_file
    (trackingPath exportPath : string) (exportDateStr : value)
    (fs fs' : FileSystem) (result : string) :
  processStockTracking trackingPath exportPath exportDateStr fs = (fs', Return result) ->
  result = trackingPath
  /\ (exists label trackingWb exportWb trackingWb',
        exportDateFormatted exportDateStr = Return label
        /\ lookupFile trackingPath fs = Some (Xlsx trackingWb)
        /\ lookupFile exportPath fs = Some (Xlsx exportWb)
        /\ processSteps trackingWb exportWb label = (trackingWb', Return tt)
        /\ lookupFile trackingPath fs' = Some (Xlsx trackingWb'))
  /\ forall path, path <> trackingPath -> lookupFile path fs' = lookupFile path fs.
Proof.
  intros Hrun.
  apply processStockTracking_ok in Hrun
    as (label & trackingWb & exportWb & wb' & Hd & Ht & He & Hp & -> & ->).
  split; [reflexivity|]. split.
  - exists label, trackingWb, exportWb, wb'. repeat split; try assumption.
    apply lookupFile_storeFile.
  - intros path Hne. now apply lookupFile_storeFile_other.
Qed.

(** X23: a run is not repeated: once a run has returned, a second run on
    the same paths with a date that gives the same label, in either
    spelling, is refused with the error of the duplicate import, and
    leaves the files as the first run left them. *)
Theorem second_run_is_refused
    (trackingPath exportPath : string) (exportDateStr exportDateStr' : value)
    (fs fs' : FileSystem) (result : string) :
  processStockTracking trackingPath exportPath exportDateStr fs = (fs', Return result) ->
  exportDateFormatted exportDateStr' = exportDateFormatted exportDateStr ->
  exists label,
    exportDateFormatted exportDateStr = Return label
    /\ processStockTracking trackingPath exportPath exportDateStr' fs'
       = (fs', Throw (Error ("Les données pour la date " ++ label
                             ++ " ont déjà été importées")%string)).
Proof.
  intros Hrun Hsame.
  apply processStockTracking_ok in Hrun
    as (label & trackingWb & exportWb & wb' & Hd & Ht & He & Hp & -> & ->).
  exists label. split; [assumption|].
  apply processSteps_ok in Hp as (wb1 & Hmerge & Hstock).
  apply updateTracking_labels_stock in Hmerge as (stockId & stockSheet' & Hs & Hh).
  rewrite <- Hstock in Hs.
  rewrite processStockTracking_cases, Hsame, Hd.
  rewrite (readFile_Xlsx trackingPath _ wb') by apply lookupFile_storeFile.
  assert (Hex : exists exportWb', readFile exportPath (storeFile trackingPath (Xlsx wb') fs)
                                  = (storeFile trackingPath (Xlsx wb') fs, Return exportWb')).
  { destruct (String.eqb_spec exportPath trackingPath) as [->|Hne].
    - exists wb'. apply readFile_Xlsx, lookupFile_storeFile.
    - exists exportWb. apply readFile_Xlsx.
      now rewrite lookupFile_storeFile_other. }
  destruct Hex as [exportWb' ->].
  now rewrite (processSteps_duplicate wb' exportWb' label stockId stockSheet').
Qed.

End ProcessorFacts.

Lemma failed_run_writes_nothing_witness :
  @processStockTracking sampleRuntime "uploads/perdu" "uploads/export" (VStr "15-01-2024")
     sampleFiles
  = (sampleFiles,
     Throw (Error "Format de date invalide: 15-01-2024. Utilisez DD/MM/YYYY ou YYYY-MM-DD")).
Proof.
  assert (Hrun : @processStockTracking sampleRuntime "uploads/suivi" "uploads/export"
                   (VStr "15-01-2024") sampleFiles
                 = (sampleFiles, Throw (Error (invalidDateMessage "15-01-2024"))))
    by reflexivity.
  destruct (@failed_run_writes_nothing sampleRuntime _ _ _ _ _ _ Hrun) as [_ Hdate].
  destruct (Hdate _ eq_refl) as [_ Hany].
  exact (Hany "uploads/perdu" "uploads/export" sampleFiles).
Defined.

Lemma successful_run_rewrites_the_tracking_file_witness :
  exists fs',
    @processStockTracking sampleRuntime "uploads/suivi" "uploads/export"
       (VStr "2024-01-15") sampleFiles
    = (fs', Return "uploads/suivi")
    /\ lookupFile "uploads/export" fs' = Some (Xlsx sampleExport).
Proof.
  exists (fst (@processStockTracking sampleRuntime "uploads/suivi" "uploads/export"
                 (VStr "2024-01-15") sampleFiles)).
  assert (Hrun : @processStockTracking sampleRuntime "uploads/suivi" "uploads/export"
                   (VStr "2024-01-15") sampleFiles
                 = (fst (@processStockTracking sampleRuntime "uploads/suivi"
                           "uploads/export" (VStr "2024-01-15") sampleFiles),
                    Return "uploads/suivi"))
    by (vm_compute; reflexivity).
  split; [exact Hrun|].
  rewrite (proj2 (proj2 (@successful_run_rewrites_the_tracking_file sampleRuntime
                           _ _ _ _ _ _ Hrun)) "uploads/export") by discriminate.
  reflexivity.
Defined.

Lemma second_run_is_refused_witness :
  exists fs',
    @processStockTracking sampleRuntime "uploads/suivi" "uploads/export"
       (VStr "2024-01-15") sampleFiles
    = (fs', Return "uploads/suivi")
    /\ @processStockTracking sampleRuntime "uploads/suivi" "uploads/export"
         (VStr "15/01/2024") fs'
       = (fs', Throw (Error "Les données pour la date 15/01/2024 ont déjà été importées")).
Proof.
  exists (fst (@processStockTracking sampleRuntime "uploads/suivi" "uploads/export"
                 (VStr "2024-01-15") sampleFiles)).
  assert (Hrun : @processStockTracking sampleRuntime "uploads/suivi" "uploads/export"
                   (VStr "2024-01-15") sampleFiles
                 = (fst (@processStockTracking sampleRuntime "uploads/suivi"
                           "uploads/export" (VStr "2024-01-15") sampleFiles),
                    Return "uploads/suivi"))
    by (vm_compute; reflexivity).
  split; [exact Hrun|].
  assert (Hsame : exportDateFormatted (VStr "15/01/2024")
                  = exportDateFormatted (VStr "2024-01-15"))
    by (vm_compute; reflexivity).
  destruct (@second_run_is_refused sampleRuntime _ _ _ (VStr "15/01/2024") _ _ _ Hrun Hsame)
    as (label & Hlabel & Hagain).
  assert (Hl : label = "15/01/2024") by (vm_compute in Hlabel; congruence).
  subst label. exact Hagain.
Defined.

(** ** The handler *)

Lemma lookupFile_unlink filePath fs : lookupFile filePath (unlink filePath fs) = None.
Proof.
  unfold lookupFile, unlink.
  destruct (find (fun entry => String.eqb (fst entry) filePath)
                 (filter (pathIsNot filePath) fs)) as [entry|] eqn:Hf; [|reflexivity].
  apply find_some in Hf as [Hin Heq]. apply filter_In in Hin as [_ Hne].
  unfold pathIsNot in Hne. rewrite Heq in Hne. discriminate.
Qed.

Lemma lookupFile_unlink_other filePath filePath' fs :
  filePath' <> filePath -> lookupFile filePath' (unlink filePath fs) = lookupFile filePath' fs.
Proof. apply lookupFile_filter_other. Qed.

Lemma lookupFile_unlink_None filePath filePath' fs :
  lookupFile filePath' fs = None -> lookupFile filePath' (unlink filePath fs) = None.
Proof.
  intros Hnone. destruct (String.eqb_spec filePath' filePath) as [->|Hne].
  - apply lookupFile_unlink.
  - now rewrite lookupFile_unlink_other.
Qed.

Lemma lookupFile_cleanup_None filePaths : forall fs filePath,
  lookupFile filePath fs = None -> lookupFile filePath (cleanupFiles filePaths fs) = None.
Proof.
  induction filePaths as [|q filePaths IH]; intros fs filePath Hnone;
    cbn [cleanupFiles fold_left]; [assumption|].
  apply IH. now apply lookupFile_unlink_None.
Qed.

Lemma lookupFile_cleanup_in filePaths : forall fs filePath,
  In filePath filePaths -> lookupFile filePath (cleanupFiles filePaths fs) = None.
Proof.
  induction filePaths as [|q filePaths IH]; intros fs filePath Hin; [contradiction|].
  cbn [cleanupFiles fold_left].
  destruct (String.eqb_spec filePath q) as [->|Hne].
  - apply lookupFile_cleanup_None, lookupFile_unlink.
  - destruct Hin as [Heq|Hin]; [congruence|]. now apply IH.
Qed.

Lemma lookupFile_cleanup_other filePaths : forall fs filePath,
  ~ In filePath filePaths ->
  lookupFile filePath (cleanupFiles filePaths fs) = lookupFile filePath fs.
Proof.
  induction filePaths as [|q filePaths IH]; intros fs filePath Hnotin; [reflexivity|].
  cbn [cleanupFiles fold_left]. fold (cleanupFiles filePaths (unlink q fs)).
  rewrite IH by (intros Hin; apply Hnotin; now right).
  apply lookupFile_unlink_other. intros ->. apply Hnotin. now left.
Qed.

(** *** The map of the uploaded files *)

Lemma objGet_objSet key key' val o :
  objGet key' (objSet key val o)
  = if String.eqb key key' then Some val else objGet key' o.
Proof.
  unfold objGet. induction o as [|[k v] o IH]; cbn [objSet find fst].
  - destruct (String.eqb key key'); reflexivity.
  - destruct (String.eqb_spec k key) as [->|Hk]; cbn [find fst].
    + destruct (String.eqb key key'); reflexivity.
    + destruct (String.eqb_spec k key') as [->|Hk'].
      * destruct (String.eqb_spec key key'); [congruence | reflexivity].
      * exact IH.
Qed.

Lemma objGet_fold key files : forall fileMap,
  objGet key (fold_left (fun fileMap file =>
                           objSet (replaceFirst "file_" "" (fieldname file)) (path file)
                                  fileMap) files fileMap)
  = match find (fun file => String.eqb (replaceFirst "file_" "" (fieldname file)) key)
               (rev files) with
    | Some file => Some (path file)
    | None => objGet key fileMap
    end.
Proof.
  induction files as [|file files IH]; intros fileMap; cbn [fold_left rev find];
    [reflexivity|].
  rewrite IH, find_app_l.
  destruct (find _ (rev files)); [reflexivity|].
  cbn [find]. rewrite objGet_objSet.
  now destruct (String.eqb (replaceFirst "file_" "" (fieldname file)) key).
Qed.

(** The path kept for an id is that of the last uploaded file with the
    id. *)
Lemma objGet_fileMapOf key files :
  objGet key (fileMapOf files)
  = option_map path
      (find (fun file => String.eqb (replaceFirst "file_" "" (fieldname file)) key)
            (rev files)).
Proof.
  unfold fileMapOf. rewrite objGet_fold.
  now destruct (find _ (rev files)).
Qed.

Lemma objGet_fileMapOf_In key files filePath :
  objGet key (fileMapOf files) = Some filePath -> In filePath (map path files).
Proof.
  rewrite objGet_fileMapOf.
  destruct (find _ (rev files)) as [file|] eqn:Hf; [|discriminate].
  intros [= <-]. apply find_some in Hf as [Hin _]. apply in_rev in Hin.
  now apply in_map.
Qed.

Lemma objGet_fileMapOf_None key files :
  (forall file, In file files -> replaceFirst "file_" "" (fieldname file) <> key) ->
  objGet key (fileMapOf files) = None.
Proof.
  intros Hnone. rewrite objGet_fileMapOf.
  destruct (find _ (rev files)) as [file|] eqn:Hf; [|reflexivity].
  apply find_some in Hf as [Hin Heq]. apply in_rev in Hin.
  apply String.eqb_eq in Heq. now elim (Hnone file Hin).
Qed.

Lemma replaceFirst_marker id : replaceFirst "file_" "" ("file_" ++ id) = id.
Proof. destruct id; reflexivity. Qed.

(** *** The outcomes of a request *)

Section HandlerFacts.
Context `{Runtime}.

Lemma processStockTracking_string trackingPath exportPath exportDateStr fs fs' result :
  processStockTracking trackingPath exportPath exportDateStr fs = (fs', Return result) ->
  exists date, exportDateStr = VStr date.
Proof.
  intros Hrun. apply processStockTracking_ok in Hrun as (label & _ & _ & _ & Hd & _).
  destruct exportDateStr as [|date|n]; try discriminate Hd. now exists date.
Qed.

(** The run of the handler once the request has passed its checks. *)
Lemma processRequest_checked req fs ps tracking export export_date :
  params req = Return ps ->
  treatmentId req = "stock-tracking" ->
  objGet "tracking" (fileMapOf (files req)) = Some tracking -> tracking <> "" ->
  objGet "export" (fileMapOf (files req)) = Some export -> export <> "" ->
  ps = ParamsValue (Some export_date) ->
  falsy export_date = false ->
  processRequest req fs
  = match processStockTracking tracking export export_date fs with
    | (_, Throw e) =>
        (cleanupFiles (map path (files req)) fs, ServerError (detailOf e))
    | (fs', Return result) =>
        (cleanupFiles (map path (files req) ++ [result]) fs',
         Download (lookupFile result fs')
                  ("resultat_stock_tracking_"
                   ++ replaceSlashes (to_string export_date) ++ ".xlsx")%string)
    end.
Proof.
  intros Hps Hid Ht Htne He Hene -> Hdate.
  unfold processRequest, tryBlock, bind, requireFile. rewrite Hps, Hid, Ht, He.
  cbn [String.eqb Ascii.eqb Bool.eqb negb].
  apply String.eqb_neq in Htne, Hene. rewrite Htne, Hene.
  unfold ret at 1 2 3. rewrite Hdate. unfold onDisk. cbn [disk outputPath].
  destruct (processStockTracking tracking export export_date fs) as [fs' [result|e]] eqn:Hrun.
  - destruct (processStockTracking_string _ _ _ _ _ _ Hrun) as [date ->].
    reflexivity.
  - apply processStockTracking_Throw in Hrun as ->. reflexivity.
Qed.

(** The three kinds of answers and the files they leave. *)
Lemma processRequest_shape req fs :
  (processRequest req fs = (fs, BadRequest unknownTreatmentDetail)
   /\ treatmentId req <> "stock-tracking")
  \/ (exists e, processRequest req fs
                = (cleanupFiles (map path (files req)) fs, ServerError (detailOf e)))
  \/ (exists tracking export date fs',
        In tracking (map path (files req))
        /\ params req = Return (ParamsValue (Some (VStr date)))
        /\ processStockTracking tracking export (VStr date) fs = (fs', Return tracking)
        /\ processRequest req fs
           = (cleanupFiles (map path (files req) ++ [tracking]) fs',
              Download (lookupFile tracking fs')
                       ("resultat_stock_tracking_" ++ replaceSlashes date ++ ".xlsx")%string)).
Proof.
  destruct (params req) as [ps|e] eqn:Hps.
  2: { right. left. exists e. unfold processRequest, tryBlock, bind. now rewrite Hps. }
  destruct (String.eqb_spec (treatmentId req) "stock-tracking") as [Hid|Hid].
  2: { left. split; [|assumption]. unfold processRequest, tryBlock, bind. rewrite Hps.
       apply String.eqb_neq in Hid. now rewrite Hid. }
  assert (Hthrow : forall e st,
            tryBlock req (mkHandlerState fs None) = (mkHandlerState fs st, Throw e) ->
            st = None ->
            exists e, processRequest req fs
                      = (cleanupFiles (map path (files req)) fs, ServerError (detailOf e))).
  { intros e st Hrun ->. exists e. unfold processRequest. now rewrite Hrun. }
  destruct (objGet "tracking" (fileMapOf (files req))) as [tracking|] eqn:Ht.
  2: { right. left. apply (Hthrow (Error (missingFileMessage "tracking")) None); [|reflexivity].
       unfold tryBlock, bind, requireFile. rewrite Hps, Hid, Ht. reflexivity. }
  destruct (String.eqb_spec tracking "") as [Htne|Htne].
  { right. left. apply (Hthrow (Error (missingFileMessage "tracking")) None); [|reflexivity].
    unfold tryBlock, bind, requireFile. rewrite Hps, Hid, Ht, Htne. reflexivity. }
  destruct (objGet "export" (fileMapOf (files req))) as [export|] eqn:He.
  2: { right. left. apply (Hthrow (Error (missingFileMessage "export")) None); [|reflexivity].
       unfold tryBlock, bind, requireFile. rewrite Hps, Hid, Ht, He.
       apply String.eqb_neq in Htne. rewrite Htne. reflexivity. }
  destruct (String.eqb_spec export "") as [Hene|Hene].
  { right. left. apply (Hthrow (Error (missingFileMessage "export")) None); [|reflexivity].
    unfold tryBlock, bind, requireFile. rewrite Hps, Hid, Ht, He, Hene.
    apply String.eqb_neq in Htne. rewrite Htne. reflexivity. }
  assert (Hchecks : forall e,
            match ps with
            | ParamsNull => e = TypeError
            | ParamsValue None => e = Error missingParamMessage
            | ParamsValue (Some d) => falsy d = true /\ e = Error missingParamMessage
            end ->
            tryBlock req (mkHandlerState fs None) = (mkHandlerState fs None, Throw e)).
  { intros e Hcase. unfold tryBlock, bind, requireFile. rewrite Hps, Hid, Ht, He.
    pose proof Htne as Htne'. pose proof Hene as Hene'.
    apply String.eqb_neq in Htne', Hene'. rewrite Htne', Hene'.
    cbn [String.eqb Ascii.eqb Bool.eqb negb]. unfold ret at 1 2.
    destruct ps as [|[d|]]; [now subst e | | now subst e].
    destruct Hcase as [Hf ->]. unfold ret at 1. now rewrite Hf. }
  destruct ps as [|[date|]].
  - right. left. apply (Hthrow TypeError None); [|reflexivity]. now apply Hchecks.
  - destruct (falsy date) eqn:Hdate.
    + right. left. apply (Hthrow (Error missingParamMessage) None); [|reflexivity].
      now apply Hchecks.
    + rewrite (processRequest_checked req fs _ tracking export date Hps Hid Ht Htne He Hene
                 eq_refl Hdate).
      destruct (processStockTracking tracking export date fs) as [fs' [result|e]] eqn:Hrun.
      * right. right.
        destruct (processStockTracking_string _ _ _ _ _ _ Hrun) as [text ->].
        pose proof (processStockTracking_ok _ _ _ _ _ _ Hrun)
          as (_ & _ & _ & _ & _ & _ & _ & _ & _ & ->).
        exists tracking, export, text, fs'.
        split; [now apply (objGet_fileMapOf_In "tracking")|].
        repeat split; auto.
      * right. left. now exists e.
  - right. left. apply (Hthrow (Error missingParamMessage) None); [|reflexivity].
    now apply Hchecks.
Qed.

(** X24: the handler touches uploaded files only: the files at every
    other path are as they were, whatever the request and the answer; the
    answer 400 for an unknown treatment leaves the uploaded files in place
    as well, while every other answer, error or download, leaves none of the
    uploaded files behind, the rewritten tracking file included. *)
Theorem handler_touches_uploads_only (req : Request) (fs : FileSystem) :
  (forall filePath,
     ~ In filePath (map path (files req)) ->
     lookupFile filePath (fst (processRequest req fs)) = lookupFile filePath fs)
  /\ match snd (processRequest req fs) with
     | BadRequest _ =>
         fst (processRequest req fs) = fs /\ treatmentId req <> "stock-tracking"
     | _ =>
         forall filePath,
           In filePath (map path (files req)) ->
           lookupFile filePath (fst (processRequest req fs)) = None
     end.
Proof.
  destruct (processRequest_shape req fs)
    as [[-> Hid] | [[e ->] | (tracking & export & date & fs' & Hin & _ & Hrun & ->)]];
    cbn [fst snd].
  - split; [reflexivity | now split].
  - split.
    + intros filePath Hout. now apply lookupFile_cleanup_other.
    + intros filePath Hup. now apply lookupFile_cleanup_in.
  - apply processStockTracking_ok in Hrun as (_ & _ & _ & wb' & _ & _ & _ & _ & -> & _).
    split.
    + intros filePath Hout. rewrite lookupFile_cleanup_other.
      * apply lookupFile_storeFile_other. intros ->. contradiction.
      * intros Hp. apply in_app_or in Hp as [Hp | [<- | []]]; contradiction.
    + intros filePath Hup. apply lookupFile_cleanup_in, in_or_app. now left.
Qed.

(** X25: a request for the stock tracking whose files all come in fields
    named [file_] followed by an id, none with the id [tracking], is answered
    with the status 500 and the message that names the missing tracking
    file, whatever else the request holds: the tracking file is checked
    before the export file and before the date. The uploaded files are
    removed. *)
Theorem missing_upload_is_reported (req : Request) (fs : FileSystem) (ps : Params) :
  treatmentId req = "stock-tracking" ->
  params req = Return ps ->
  (forall file, In file (files req) ->
                exists id, fieldname file = ("file_" ++ id)%string /\ id <> "tracking") ->
  processRequest req fs
  = (cleanupFiles (map path (files req)) fs,
     ServerError (Message "Fichier manquant: tracking")).
Proof.
  intros Hid Hps Hnone.
  assert (Hget : objGet "tracking" (fileMapOf (files req)) = None).
  { apply objGet_fileMapOf_None. intros file Hin.
    destruct (Hnone file Hin) as (id & -> & Hne). now rewrite replaceFirst_marker. }
  unfold processRequest, tryBlock, bind, requireFile. rewrite Hps, Hid, Hget. reflexivity.
Qed.

(** X26: an error of the processor becomes the answer: for a request
    with the two files in the fields [file_tracking] and [file_export] and
    a date that is not falsy, when [processStockTracking] throws on the two
    paths, the answer has the status 500 and carries the message of the
    error (for an error without message, the fallback text), and the
    uploaded files are removed from the files as the request found them. *)
Theorem processing_error_is_reported
    (req : Request) (fs fs' : FileSystem) (tracking export : string)
    (export_date : value) (e : error) :
  treatmentId req = "stock-tracking" ->
  params req = Return (ParamsValue (Some export_date)) ->
  falsy export_date = false ->
  files req = [mkUpload "file_tracking" tracking; mkUpload "file_export" export] ->
  tracking <> "" -> export <> "" ->
  processStockTracking tracking export export_date fs = (fs', Throw e) ->
  processRequest req fs
  = (unlink export (unlink tracking fs),
     ServerError match e with
                 | Error "" => Message "Erreur lors du traitement"
                 | Error message => Message message
                 | TypeError => EngineMessage
                 end).
Proof.
  intros Hid Hps Hdate Hfiles Htne Hene Hrun.
  assert (Ht : objGet "tracking" (fileMapOf (files req)) = Some tracking)
    by (now rewrite Hfiles).
  assert (He : objGet "export" (fileMapOf (files req)) = Some export)
    by (now rewrite Hfiles).
  rewrite (processRequest_checked req fs _ tracking export export_date Hps Hid Ht Htne He Hene
             eq_refl Hdate), Hrun, Hfiles.
  destruct e as [[|c message]|]; reflexivity.
Qed.

End HandlerFacts.

Lemma list_ascii_of_string_app s t :
  list_ascii_of_string (s ++ t) = list_ascii_of_string s ++ list_ascii_of_string t.
Proof.
  induction s as [|c s IH]; cbn [String.append list_ascii_of_string app]; [reflexivity|].
  now rewrite IH.
Qed.

Lemma hasSlash_app s t : hasSlash (s ++ t) = hasSlash s || hasSlash t.
Proof. unfold hasSlash. now rewrite list_ascii_of_string_app, existsb_app. Qed.

Lemma hasSlash_replaceSlashes s : hasSlash (replaceSlashes s) = false.
Proof.
  unfold hasSlash. induction s as [|c s IH]; cbn [replaceSlashes list_ascii_of_string existsb];
    [reflexivity|].
  rewrite IH, orb_false_r.
  destruct (Ascii.eqb_spec c "/") as [->|Hc]; [reflexivity|].
  apply Ascii.eqb_neq. congruence.
Qed.

Lemma append_assoc_string (s t u : string) : ((s ++ t) ++ u = s ++ (t ++ u))%string.
Proof. induction s as [|c s IH]; cbn [String.append]; [reflexivity | now rewrite IH]. Qed.

Lemma replaceSlashes_app s t :
  replaceSlashes (s ++ t) = (replaceSlashes s ++ replaceSlashes t)%string.
Proof.
  induction s as [|c s IH]; cbn [String.append replaceSlashes]; [reflexivity|].
  now rewrite IH.
Qed.

Lemma replaceSlashes_digits s : allDigits s = true -> replaceSlashes s = s.
Proof.
  rewrite allDigits_is_digit.
  induction s as [|c s IH]; cbn [list_ascii_of_string forallb replaceSlashes];
    [reflexivity|].
  intros Hs. apply andb_prop in Hs as [Hc Hs]. rewrite (IH Hs).
  destruct (is_digit_cases c Hc) as [-> | [-> | [-> | [-> | [-> | [-> | [-> | [-> | [-> | ->]]]]]]]]];
    reflexivity.
Qed.

Lemma exportDateFormatted_groups date label :
  exportDateFormatted (VStr date) = Return label ->
  exists year month day,
    isGroups year month day = true
    /\ (date = isoString year month day \/ date = frString year month day).
Proof.
  cbn [exportDateFormatted].
  destruct (parseDate date) as [[[y m] d]|e] eqn:Hp; [intros _|discriminate].
  apply parseDate_groups in Hp. exists y, m, d. rewrite isGroups_spec. tauto.
Qed.

Section DownloadFacts.
Context `{Runtime}.

(** X27: a download answers a request whose date is a string of one of
    the two shapes. The file sent is the tracking workbook with the label
    of that date in the header of its table. Its name is made of the date
    as the request spells it, with [-] for every [/]: year, month and day
    for the ISO spelling, day, month and year for the French one, so that
    the two spellings of a day give two names; the name holds no [/]. *)
Theorem download_is_named_after_the_date
    (req : Request) (fs fs' : FileSystem) (content : option FileContent)
    (filename : string) :
  processRequest req fs = (fs', Download content filename) ->
  exists year month day label workbook stockId stockSheet,
    isGroups year month day = true
    /\ ((params req = Return (ParamsValue (Some (VStr (isoString year month day))))
         /\ filename = ("resultat_stock_tracking_" ++ year ++ "-" ++ month ++ "-" ++ day
                        ++ ".xlsx")%string)
        \/ (params req = Return (ParamsValue (Some (VStr (frString year month day))))
            /\ filename = ("resultat_stock_tracking_" ++ day ++ "-" ++ month ++ "-" ++ year
                           ++ ".xlsx")%string))
    /\ hasSlash filename = false
    /\ exportDateFormatted (VStr (isoString year month day)) = Return label
    /\ content = Some (Xlsx workbook)
    /\ getWorksheet stockSheetName workbook = Some (stockId, stockSheet)
    /\ headerContains stockSheet label = true.
Proof.
  intros Hanswer.
  destruct (processRequest_shape req fs)
    as [[Hbad _] | [[e Herr] | (tracking & export & date & fs1 & _ & Hps & Hrun & Hok)]];
    [rewrite Hbad in Hanswer; discriminate | rewrite Herr in Hanswer; discriminate |].
  assert (Hslash : hasSlash ("resultat_stock_tracking_" ++ replaceSlashes date ++ ".xlsx")
                   = false)
    by (rewrite !hasSlash_app, hasSlash_replaceSlashes; reflexivity).
  apply processStockTracking_ok in Hrun
    as (label & trackingWb & exportWb & wb' & Hd & _ & _ & Hsteps & -> & _).
  apply processSteps_ok in Hsteps as (wb1 & Hmerge & Hstock).
  apply updateTracking_labels_stock in Hmerge as (stockId & stockSheet & Hs & Hh).
  destruct (exportDateFormatted_groups date label Hd) as (year & month & day & Hg & Hshape).
  pose proof Hg as Hdigits. apply isGroups_spec in Hdigits as (_ & _ & _ & Dy & Dm & Dd).
  assert (Hname : ("resultat_stock_tracking_" ++ replaceSlashes date ++ ".xlsx")%string
                  = filename)
    by (rewrite Hok in Hanswer; now injection Hanswer).
  assert (Hcontent : lookupFile tracking (storeFile tracking (Xlsx wb') fs) = content)
    by (rewrite Hok in Hanswer; now injection Hanswer).
  exists year, month, day, label, wb', stockId, stockSheet.
  split; [assumption|]. split.
  { destruct Hshape as [-> | ->]; [left | right]; (split; [assumption|]);
      rewrite <- Hname; unfold isoString, frString;
      rewrite !replaceSlashes_app, (replaceSlashes_digits year Dy),
        (replaceSlashes_digits month Dm), (replaceSlashes_digits day Dd);
      cbn [replaceSlashes Ascii.eqb Bool.eqb]; rewrite <- !append_assoc_string; reflexivity. }
  split; [now rewrite <- Hname|].
  split.
  { destruct Hshape as [-> | ->]; [assumption|].
    destruct (both_spellings_same year month day Hg) as [Hiso Hfr]. congruence. }
  split; [rewrite <- Hcontent; apply lookupFile_storeFile|].
  split; [congruence | assumption].
Qed.

End DownloadFacts.

Lemma missing_upload_is_reported_witness :
  @processRequest sampleRuntime
     (mkRequest "stock-tracking" [mkUpload "file_export" "uploads/export"]
                (Return ParamsNull))
     sampleFiles
  = ([("uploads/suivi", Xlsx sampleTracking)],
     ServerError (Message "Fichier manquant: tracking")).
Proof.
  refine (@missing_upload_is_reported sampleRuntime
            (mkRequest "stock-tracking" [mkUpload "file_export" "uploads/export"]
                       (Return ParamsNull))
            sampleFiles ParamsNull eq_refl eq_refl _).
  intros file [<- | []]. exists "export". split; [reflexivity | discriminate].
Defined.

Lemma processing_error_is_reported_witness :
  @processRequest sampleRuntime (sampleRequest "15.01.2024") sampleFiles
  = ([], ServerError (Message "Format de date invalide: 15.01.2024. Utilisez DD/MM/YYYY ou YYYY-MM-DD")).
Proof.
  refine (@processing_error_is_reported sampleRuntime (sampleRequest "15.01.2024")
            sampleFiles sampleFiles "uploads/suivi" "uploads/export" (VStr "15.01.2024")
            (Error (invalidDateMessage "15.01.2024"))
            eq_refl eq_refl eq_refl eq_refl _ _ eq_refl); discriminate.
Defined.

Lemma download_is_named_after_the_date_witness :
  exists content,
    @processRequest sampleRuntime (sampleRequest "15/01/2024") sampleFiles
    = ([], Download content "resultat_stock_tracking_15-01-2024.xlsx")
    /\ hasSlash "resultat_stock_tracking_15-01-2024.xlsx" = false.
Proof.
  exists (lookupFile "uploads/suivi"
            (fst (@processStockTracking sampleRuntime "uploads/suivi" "uploads/export"
                    (VStr "15/01/2024") sampleFiles))).
  assert (Hanswer : @processRequest sampleRuntime (sampleRequest "15/01/2024") sampleFiles
                    = ([], Download
                             (lookupFile "uploads/suivi"
                                (fst (@processStockTracking sampleRuntime "uploads/suivi"
                                        "uploads/export" (VStr "15/01/2024") sampleFiles)))
                             "resultat_stock_tracking_15-01-2024.xlsx"))
    by (vm_compute; reflexivity).
  split; [exact Hanswer|].
  destruct (@download_is_named_after_the_date sampleRuntime _ _ _ _ _ Hanswer)
    as (year & month & day & label & wb & stockId & stockSheet & _ & _ & Hslash & _).
  exact Hslash.
Defined.
